(** * The ticket store of [db.py]: a shallow embedding and its properties

    The persistence layer keeps two SQLite tables, [tickets] and [comments].
    A table is modelled as the list of its rows in rowid order together with
    the AUTOINCREMENT counter that SQLite keeps in [sqlite_sequence].  Every
    function of [db.py] becomes a function on [Store]; the ones that execute
    INSERT, UPDATE or DELETE return the store they leave behind, also when
    they raise.  [now_iso()] reads the clock, so the operations that call it
    take the timestamp it returns as the argument [now].

    Text values are sequences of characters with code points below 256;
    SQLite's default (BINARY) collation compares them position by position,
    which is [String.eqb] and [String.le].  LIKE reads its operands as C
    strings, up to the first NUL character, and refuses a pattern of more
    than 50000 bytes of UTF-8; both are modelled.  Storage failures and
    rowid exhaustion are outside the model. *)

From Stdlib Require Import ZArith Ascii String DecimalString List Permutation Sorted Lia.
From stdpp Require Import base decidable list strings sorting.

Local Open Scope Z_scope.

(** ** Rows *)

Record Ticket := mkTicket {
  t_id : Z;
  t_project : string;
  t_title : string;
  t_description : string;
  t_status : string;
  t_priority : string;
  t_tags : string;
  t_created_at : string;
  t_updated_at : string
}.

Record Comment := mkComment {
  c_id : Z;
  c_ticket_id : Z;
  c_author : string;
  c_content : string;
  c_created_at : string
}.

Global Instance Ticket_eq_dec : EqDecision Ticket.
Proof. solve_decision. Defined.

Global Instance Comment_eq_dec : EqDecision Comment.
Proof. solve_decision. Defined.

(** The database file: both tables and their [sqlite_sequence] entries. *)
Record Store := mkStore {
  tickets : list Ticket;
  tickets_seq : Z;
  comments : list Comment;
  comments_seq : Z
}.

(** [get_ticket] returns the row as a dict with one more key, ["comments"]. *)
Record TicketView := mkView {
  tv_ticket : Ticket;
  tv_comments : list Comment
}.

(** [init_db] on a fresh file: [CREATE TABLE IF NOT EXISTS] twice. *)
Definition init_db : Store := mkStore [] 0 [] 0.

Definition VALID_STATUSES : list string :=
  ["pending"; "in_progress"; "ready_to_test"; "closed"].
Definition VALID_PRIORITIES : list string := ["high"; "medium"; "low"].

(** [x in S] for the two set literals. *)
Definition py_in (x : string) (S : list string) : bool := existsb (String.eqb x) S.

(** ** Exceptions *)

Inductive field := Status | Priority.

(** [ValueError(f"Invalid status: {status}. ...")] and its priority twin. *)
Inductive exn := ValueError (f : field) (value : string).

(** What a query can raise: a ValueError of the validation in [db.py], or the
    [sqlite3.OperationalError] with which the engine refuses a statement. *)
Inductive query_exn :=
| Invalid (e : exn)
| OperationalError (message : string).

(** A call returns a value or raises an exception of type [E]. *)
Inductive outcome (E A : Type) :=
| Ok (a : A)
| Raise (e : E).
Arguments Ok {E A} a.
Arguments Raise {E A} e.

(** The functions that write raise ValueErrors only. *)
Abbreviation result := (outcome exn).

Definition bind {E A B} (r : outcome E A) (k : A -> outcome E B) : outcome E B :=
  match r with
  | Ok a => k a
  | Raise e => Raise e
  end.

Notation "'try' x := r 'in' k" := (bind r (fun x => k))
  (at level 10, x name, r at level 100, k at level 200).

(** Truth value of an [Optional[str]] in [if project:]: [None] and the empty
    string are both false.  The result is the string the branch then uses. *)
Definition truthy (o : option string) : option string :=
  match o with
  | Some "" => None
  | _ => o
  end.

(** ** SQLite's LIKE *)

Module Like.

Definition is_upper (c : ascii) : bool :=
  ((65 <=? N_of_ascii c) && (N_of_ascii c <=? 90))%N.

(** [sqlite3Tolower]: folds the 26 ASCII capitals only. *)
Definition to_lower (c : ascii) : ascii :=
  if is_upper c then ascii_of_N (N_of_ascii c + 32) else c.

Definition percent : ascii := "%"%char.
Definition underscore : ascii := "_"%char.
Definition comma : ascii := ","%char.

(** One pattern character other than [%] against one text character. *)
Definition match_one (c d : ascii) : bool :=
  Ascii.eqb c underscore || Ascii.eqb (to_lower c) (to_lower d).

(** [patternCompare] without an ESCAPE character: [%] stands for any run of
    characters, [_] for exactly one, anything else for itself up to the
    case of ASCII letters. *)
Fixpoint like (p : list ascii) : list ascii -> bool :=
  match p with
  | [] => fun s => match s with [] => true | _ :: _ => false end
  | c :: p' =>
      if Ascii.eqb c percent then
        fix star (s : list ascii) : bool :=
          like p' s || match s with [] => false | _ :: s' => star s' end
      else
        fun s =>
          match s with
          | [] => false
          | d :: s' => match_one c d && like p' s'
          end
  end.

(** The operand as [sqlite3_value_text] hands it to [patternCompare]: a C
    string, which ends at the first NUL character. *)
Fixpoint c_string (s : list ascii) : list ascii :=
  match s with
  | [] => []
  | c :: s' => if Ascii.eqb c zero then [] else c :: c_string s'
  end.

(** Bytes of the UTF-8 encoding of a character below 256. *)
Definition utf8_size (c : ascii) : Z :=
  if (N_of_ascii c <? 128)%N then 1 else 2.

(** [sqlite3_value_bytes]: the length of the whole value, NULs included. *)
Definition utf8_length (x : string) : Z :=
  fold_right (fun c n => utf8_size c + n) 0 (list_ascii_of_string x).

Definition SQLITE_MAX_LIKE_PATTERN_LENGTH : Z := 50000.

(** [text LIKE pattern] as [likeFunc] computes it: [None] is the error
    "LIKE or GLOB pattern too complex" for a pattern beyond the limit. *)
Definition sql_like (text pattern : string) : option bool :=
  if SQLITE_MAX_LIKE_PATTERN_LENGTH <? utf8_length pattern then None
  else Some (like (c_string (list_ascii_of_string pattern))
               (c_string (list_ascii_of_string text))).

End Like.

(** ** ORDER BY *)

(** [CASE priority WHEN 'high' THEN 1 WHEN 'medium' THEN 2 ELSE 3 END] *)
Definition priority_rank (p : string) : Z :=
  if String.eqb p "high" then 1
  else if String.eqb p "medium" then 2
  else 3.

(** The row order of [ORDER BY CASE priority ... END, created_at DESC]:
    [a] may stand before [b]. *)
Definition ticket_order (a b : Ticket) : Prop :=
  priority_rank (t_priority a) < priority_rank (t_priority b)
  \/ (priority_rank (t_priority a) = priority_rank (t_priority b)
      /\ String.le (t_created_at b) (t_created_at a)).

Global Instance ticket_order_dec : RelDecision ticket_order.
Proof. intros a b. unfold ticket_order. apply _. Defined.

(** [ORDER BY created_at ASC] on comments. *)
Definition comment_order (a b : Comment) : Prop :=
  String.le (c_created_at a) (c_created_at b).

Global Instance comment_order_dec : RelDecision comment_order.
Proof. intros a b. unfold comment_order. apply _. Defined.

(** SQL leaves the order of rows with equal keys open; the model sorts the
    rows found in rowid order with a merge sort. *)
Definition order_by {A} (R : relation A) `{!RelDecision R} (rows : list A) : list A :=
  merge_sort R rows.

(** ** Queries *)

(** The message of the OperationalError for a refused LIKE pattern. *)
Definition pattern_too_complex : string := "LIKE or GLOB pattern too complex".

(** A WHERE clause on one row: true, false, or [None] when a LIKE in it is
    refused. *)
Definition where_clause := Ticket -> option bool.

(** [a AND b] on one row.  SQLite tests the equality terms of a row before
    its LIKE terms and stops at the first term that is false, so a row that
    fails an equality term never reaches a refused LIKE. *)
Definition and_term (a b : option bool) : option bool :=
  match a, b with
  | Some false, _ | _, Some false => Some false
  | Some true, Some true => Some true
  | _, _ => None
  end.

(** [a OR b], [a] first. *)
Definition or_term (a b : option bool) : option bool :=
  match a with
  | Some false => b
  | _ => a
  end.

(** [query += " AND ..."] *)
Definition and_where (q c : where_clause) : where_clause :=
  fun t => and_term (q t) (c t).

(** [SELECT ... WHERE q]: the rows on which [q] is true, in table order, or
    [None] when [q] is refused on some row. *)
Fixpoint sql_where {R : Type} (q : R -> option bool) (rows : list R)
  : option (list R) :=
  match rows with
  | [] => Some []
  | r :: rest =>
      match q r, sql_where q rest with
      | Some b, Some found => Some (if b then r :: found else found)
      | _, _ => None
      end
  end.

Definition get_comments (s : Store) (ticket_id : Z) : list Comment :=
  order_by comment_order
    (List.filter (fun c => Z.eqb (c_ticket_id c) ticket_id) (comments s)).

Definition get_ticket (s : Store) (ticket_id : Z) : option TicketView :=
  match List.find (fun t => Z.eqb (t_id t) ticket_id) (tickets s) with
  | None => None
  | Some row =>
      Some (mkView row
              (order_by comment_order
                 (List.filter (fun c => Z.eqb (c_ticket_id c) ticket_id) (comments s))))
  end.

(** The tag condition [(',' || tags || ',') LIKE '%,{tag},%']. *)
Definition tag_clause (tag : string) : where_clause :=
  fun t => Like.sql_like ("," +:+ t_tags t +:+ ",") ("%," +:+ tag +:+ ",%").

Definition list_tickets (s : Store) (project status priority tag : option string)
  : outcome query_exn (list Ticket) :=
  let query : where_clause := fun _ => Some true in
  let query :=
    match truthy project with
    | Some p => and_where query (fun t => Some (String.eqb (t_project t) p))
    | None => query
    end in
  try query :=
          (match truthy status with
           | Some st =>
               if negb (py_in st VALID_STATUSES)
               then Raise (Invalid (ValueError Status st))
               else Ok (and_where query (fun t => Some (String.eqb (t_status t) st)))
           | None => Ok query
           end) in
  try query :=
          (match truthy priority with
           | Some pr =>
               if negb (py_in pr VALID_PRIORITIES)
               then Raise (Invalid (ValueError Priority pr))
               else Ok (and_where query (fun t => Some (String.eqb (t_priority t) pr)))
           | None => Ok query
           end) in
  let query :=
    match truthy tag with
    | Some tg => and_where query (tag_clause tg)
    | None => query
    end in
  match sql_where query (tickets s) with
  | Some rows => Ok (order_by ticket_order rows)
  | None => Raise (OperationalError pattern_too_complex)
  end.

(** [SELECT DISTINCT t.* FROM tickets t LEFT JOIN comments c ON
    c.ticket_id = t.id]: one joined row per comment of the ticket, and one
    with a NULL comment when it has none. *)
Definition left_join (ts : list Ticket) (cs : list Comment)
  : list (Ticket * option Comment) :=
  flat_map
    (fun t =>
       match List.filter (fun c => Z.eqb (c_ticket_id c) (t_id t)) cs with
       | [] => [(t, None)]
       | matching => List.map (fun c => (t, Some c)) matching
       end)
    ts.

(** [c.content LIKE ?]; on the NULL content of a ticket without comments
    the result is NULL, which the OR of the WHERE clause treats like false,
    unless the pattern is refused. *)
Definition content_like (c : option Comment) (pattern : string) : option bool :=
  match c with
  | Some c => Like.sql_like (c_content c) pattern
  | None => option_map (fun _ => false) (Like.sql_like "" pattern)
  end.

Definition search_tickets (s : Store) (query : string) (project status : option string)
  : outcome query_exn (list Ticket) :=
  let pattern := "%" +:+ query +:+ "%" in
  let sql : Ticket * option Comment -> option bool :=
    fun '(t, c) =>
      or_term (Like.sql_like (t_title t) pattern)
        (or_term (Like.sql_like (t_description t) pattern)
           (or_term (Like.sql_like (t_tags t) pattern)
              (content_like c pattern))) in
  let sql :=
    match truthy project with
    | Some p => fun r => and_term (sql r) (Some (String.eqb (t_project (fst r)) p))
    | None => sql
    end in
  try sql :=
        (match truthy status with
         | Some st =>
             if negb (py_in st VALID_STATUSES)
             then Raise (Invalid (ValueError Status st))
             else Ok (fun r => and_term (sql r) (Some (String.eqb (t_status (fst r)) st)))
         | None => Ok sql
         end) in
  match sql_where sql (left_join (tickets s) (comments s)) with
  | Some rows => Ok (order_by ticket_order (remove_dups (List.map fst rows)))
  | None => Raise (OperationalError pattern_too_complex)
  end.

(** ** Statements that write *)

(** The columns an UPDATE of [db.py] can assign. *)
Inductive column := Title | Description | ColStatus | ColPriority | Tags | UpdatedAt.

Definition assign (t : Ticket) (a : column * string) : Ticket :=
  let (col, v) := a in
  match col with
  | Title =>
      mkTicket (t_id t) (t_project t) v (t_description t) (t_status t)
        (t_priority t) (t_tags t) (t_created_at t) (t_updated_at t)
  | Description =>
      mkTicket (t_id t) (t_project t) (t_title t) v (t_status t)
        (t_priority t) (t_tags t) (t_created_at t) (t_updated_at t)
  | ColStatus =>
      mkTicket (t_id t) (t_project t) (t_title t) (t_description t) v
        (t_priority t) (t_tags t) (t_created_at t) (t_updated_at t)
  | ColPriority =>
      mkTicket (t_id t) (t_project t) (t_title t) (t_description t) (t_status t)
        v (t_tags t) (t_created_at t) (t_updated_at t)
  | Tags =>
      mkTicket (t_id t) (t_project t) (t_title t) (t_description t) (t_status t)
        (t_priority t) v (t_created_at t) (t_updated_at t)
  | UpdatedAt =>
      mkTicket (t_id t) (t_project t) (t_title t) (t_description t) (t_status t)
        (t_priority t) (t_tags t) (t_created_at t) v
  end.

(** [UPDATE tickets SET updates WHERE id = ticket_id] *)
Definition sql_update (updates : list (column * string)) (ticket_id : Z)
  (rows : list Ticket) : list Ticket :=
  List.map
    (fun t => if Z.eqb (t_id t) ticket_id then fold_left assign updates t else t)
    rows.

(** The rowid an AUTOINCREMENT table gives the next row: one more than the
    largest rowid the table holds or has ever held. *)
Definition next_rowid (seq : Z) (rowids : list Z) : Z :=
  fold_right Z.max seq rowids + 1.

Definition create_ticket (now : string) (project title description priority tags : string)
  (s : Store) : Store * result (option TicketView) :=
  if negb (py_in priority VALID_PRIORITIES) then
    (s, Raise (ValueError Priority priority))
  else
    let ticket_id := next_rowid (tickets_seq s) (List.map t_id (tickets s)) in
    let row :=
      mkTicket ticket_id project title description "pending" priority tags now now in
    let s' := mkStore (tickets s ++ [row]) ticket_id (comments s) (comments_seq s) in
    (s', Ok (get_ticket s' ticket_id)).

(** Lines 182 to 207 of [update_ticket]: the SET list built from the
    arguments that are not [None], or the ValueError raised on the way. *)
Definition collect_updates (title description status priority tags : option string)
  : result (list (column * string)) :=
  let updates : list (column * string) := [] in
  let updates :=
    match title with Some v => updates ++ [(Title, v)] | None => updates end in
  let updates :=
    match description with Some v => updates ++ [(Description, v)] | None => updates end in
  try updates :=
        (match status with
         | Some st =>
             if negb (py_in st VALID_STATUSES) then Raise (ValueError Status st)
             else Ok (updates ++ [(ColStatus, st)])
         | None => Ok updates
         end) in
  try updates :=
        (match priority with
         | Some pr =>
             if negb (py_in pr VALID_PRIORITIES) then Raise (ValueError Priority pr)
             else Ok (updates ++ [(ColPriority, pr)])
         | None => Ok updates
         end) in
  let updates :=
    match tags with Some v => updates ++ [(Tags, v)] | None => updates end in
  Ok updates.

Definition update_ticket (now : string) (ticket_id : Z)
  (title description status priority tags : option string) (s : Store)
  : Store * result (option TicketView) :=
  match get_ticket s ticket_id with
  | None => (s, Ok None)
  | Some existing =>
      match collect_updates title description status priority tags with
      | Raise e => (s, Raise e)
      | Ok [] => (s, Ok (Some existing))
      | Ok updates =>
          let updates := updates ++ [(UpdatedAt, now)] in
          let s' :=
            mkStore (sql_update updates ticket_id (tickets s)) (tickets_seq s)
              (comments s) (comments_seq s) in
          (s', Ok (get_ticket s' ticket_id))
      end
  end.

Definition delete_ticket (ticket_id : Z) (s : Store) : Store * bool :=
  let comments' := List.filter (fun c => negb (Z.eqb (c_ticket_id c) ticket_id)) (comments s) in
  let tickets' := List.filter (fun t => negb (Z.eqb (t_id t) ticket_id)) (tickets s) in
  let rowcount := (length (tickets s) - length tickets')%nat in
  (mkStore tickets' (tickets_seq s) comments' (comments_seq s), Nat.ltb 0 rowcount).

Definition add_comment (now : string) (ticket_id : Z) (author content : string)
  (s : Store) : Store * option Comment :=
  match get_ticket s ticket_id with
  | None => (s, None)
  | Some _ =>
      let comment_id := next_rowid (comments_seq s) (List.map c_id (comments s)) in
      let row := mkComment comment_id ticket_id author content now in
      let s' :=
        mkStore (sql_update [(UpdatedAt, now)] ticket_id (tickets s)) (tickets_seq s)
          (comments s ++ [row]) comment_id in
      (s', Some row)
  end.

(** ** Sample stores *)

Module Samples.

Definition T (i : Z) (project title description status priority tags created : string)
  : Ticket :=
  mkTicket i project title description status priority tags created created.

(** Priorities low, high, medium created in that order, then a second
    medium one. *)
Definition four : Store :=
  mkStore
    [ T 1 "/p" "one" "" "pending" "low" "bug,urgent" "2024-01-01T10:00:00";
      T 2 "/p" "two" "" "pending" "high" "bug" "2024-01-01T10:00:01";
      T 3 "/q" "three" "" "closed" "medium" "bugfix" "2024-01-01T10:00:02";
      T 4 "/p" "four" "" "pending" "medium" "" "2024-01-01T10:00:03" ]
    4
    [ mkComment 1 3 "user" "see foo" "2024-01-02T09:00:00";
      mkComment 2 3 "claude" "foo again" "2024-01-02T09:00:01" ]
    2.

(** A text of 49999 bytes, beyond what a LIKE pattern may hold. *)
Definition long_text : string :=
  string_of_list_ascii (List.repeat "a"%char (N.to_nat 49999)).

End Samples.

(** ** What the specification calls a substring and a tag

    These follow the words of the specification, not the SQL: a query
    "appears as a substring" of a field, a tag is "a standalone
    comma-delimited element" of the tags string.  Letters are compared up to
    ASCII case, as the store does. *)

Module Text.

Definition chars : Type := list ascii.

Fixpoint starts_with_ci (q s : chars) : bool :=
  match q, s with
  | [], _ => true
  | _ :: _, [] => false
  | c :: q', d :: s' =>
      Ascii.eqb (Like.to_lower c) (Like.to_lower d) && starts_with_ci q' s'
  end.

(** [q] occurs somewhere in [s]. *)
Fixpoint occurs_ci (q s : chars) : bool :=
  starts_with_ci q s
  || match s with [] => false | _ :: s' => occurs_ci q s' end.

Fixpoint eq_ci (a b : chars) : bool :=
  match a, b with
  | [], [] => true
  | c :: a', d :: b' =>
      Ascii.eqb (Like.to_lower c) (Like.to_lower d) && eq_ci a' b'
  | _, _ => false
  end.

(** [s.split(",")] *)
Fixpoint split_commas (s : chars) : list chars :=
  match s with
  | [] => [[]]
  | c :: s' =>
      if Ascii.eqb c Like.comma then [] :: split_commas s'
      else match split_commas s' with
           | [] => [[c]]
           | e :: es => (c :: e) :: es
           end
  end.

(** No [%] and no [_]. *)
Definition plain (q : chars) : bool :=
  forallb (fun c => negb (Ascii.eqb c Like.percent || Ascii.eqb c Like.underscore)) q.

Definition comma_free (q : chars) : bool :=
  forallb (fun c => negb (Ascii.eqb c Like.comma)) q.

End Text.

(** The query text is a substring of the field. *)
Definition contains (field query : string) : bool :=
  Text.occurs_ci (list_ascii_of_string query) (list_ascii_of_string field).

(** The tag is one of the comma-separated elements of the tags string. *)
Definition has_tag (tags tag : string) : bool :=
  existsb (Text.eq_ci (list_ascii_of_string tag))
    (Text.split_commas (list_ascii_of_string tags)).

(** A text without the LIKE wildcards. *)
Definition plain (q : string) : bool := Text.plain (list_ascii_of_string q).

Definition comma_free (q : string) : bool := Text.comma_free (list_ascii_of_string q).

(** ** What the operations select and write, in the words of their contracts *)

(** A filter that is [None] or the empty string places no condition. *)
Definition passes (filter : option string) (holds : string -> bool) : bool :=
  match filter with
  | None => true
  | Some v => String.eqb v "" || holds v
  end.

(** No NUL character in the text. *)
Definition nul_free (x : string) : bool :=
  forallb (fun c => negb (Ascii.eqb c zero)) (list_ascii_of_string x).

(** The rows [list_tickets] is to select: every filter given as a non-empty
    string holds, the tag filter as membership among the comma-separated
    tags. *)
Definition selected (project status priority tag : option string) (t : Ticket) : bool :=
  passes project (String.eqb (t_project t))
  && passes status (String.eqb (t_status t))
  && passes priority (String.eqb (t_priority t))
  && passes tag (has_tag (t_tags t)).

(** A tag filter that is looked for as it stands: no LIKE wildcard, no
    comma, no NUL, and short enough for the pattern [%,tag,%]. *)
Definition literal_tag (tag : string) : Prop :=
  plain tag = true /\ comma_free tag = true /\ nul_free tag = true
  /\ Like.utf8_length tag <= 49996.

(** A query that is looked for as it stands, likewise, for [%query%]. *)
Definition literal_query (query : string) : Prop :=
  plain query = true /\ nul_free query = true /\ Like.utf8_length query <= 49998.

(** The tag filter is absent, empty, or looked for as it stands among tags
    without NUL characters. *)
Definition literal_tag_filter (tag : option string) (s : Store) : Prop :=
  match tag with
  | None => True
  | Some tg =>
      tg = "" \/ (literal_tag tg /\ forall t, t ∈ tickets s -> nul_free (t_tags t) = true)
  end.

(** The WHERE clause is true on the row. *)
Definition holds (o : option bool) : bool :=
  match o with
  | Some true => true
  | _ => false
  end.

(** The filter value is absent, empty, or one of the enumerated values. *)
Definition acceptable (filter : option string) (S : list string) : Prop :=
  match filter with
  | None => True
  | Some v => v = "" \/ v ∈ S
  end.

(** The WHERE clause that [list_tickets] builds from filters that pass its
    validation. *)
Definition list_clause (project status priority tag : option string) : where_clause :=
  fun t =>
    and_term
      (Some (passes project (String.eqb (t_project t))
             && passes status (String.eqb (t_status t))
             && passes priority (String.eqb (t_priority t))))
      (match truthy tag with
       | Some tg => tag_clause tg t
       | None => Some true
       end).

(** The WHERE clause of [search_tickets] on a joined row. *)
Definition search_clause (query : string) (project status : option string)
  (r : Ticket * option Comment) : option bool :=
  and_term
    (or_term (Like.sql_like (t_title (fst r)) ("%" +:+ query +:+ "%"))
       (or_term (Like.sql_like (t_description (fst r)) ("%" +:+ query +:+ "%"))
          (or_term (Like.sql_like (t_tags (fst r)) ("%" +:+ query +:+ "%"))
             (content_like (snd r) ("%" +:+ query +:+ "%")))))
    (Some (passes project (String.eqb (t_project (fst r)))
           && passes status (String.eqb (t_status (fst r))))).

(** The SET list for arguments that pass validation. *)
Definition set_list (title description status priority tags : option string)
  : list (column * string) :=
  let one (c : column) (o : option string) :=
    match o with Some v => [(c, v)] | None => [] end in
  one Title title ++ one Description description ++ one ColStatus status
  ++ one ColPriority priority ++ one Tags tags.

(** ** Histories of calls *)

(** A call that can write to the store. *)
Inductive call :=
| CreateTicket (now project title description priority tags : string)
| UpdateTicket (now : string) (ticket_id : Z)
    (title description status priority tags : option string)
| DeleteTicket (ticket_id : Z)
| AddComment (now : string) (ticket_id : Z) (author content : string).

(** One call: the store it leaves and, when it is a [create_ticket] that
    returned a ticket, the id of that ticket. *)
Definition step (c : call) (s : Store) : Store * option Z :=
  match c with
  | CreateTicket now project title description priority tags =>
      let (s', r) := create_ticket now project title description priority tags s in
      (s', match r with
           | Ok (Some v) => Some (t_id (tv_ticket v))
           | _ => None
           end)
  | UpdateTicket now ticket_id title description status priority tags =>
      (fst (update_ticket now ticket_id title description status priority tags s), None)
  | DeleteTicket ticket_id => (fst (delete_ticket ticket_id s), None)
  | AddComment now ticket_id author content =>
      (fst (add_comment now ticket_id author content s), None)
  end.

(** A history of calls from store [s] on: the final store and the ids that
    [create_ticket] returned, oldest first, appended to [ids]. *)
Fixpoint run (history : list call) (s : Store) (ids : list Z) : Store * list Z :=
  match history with
  | [] => (s, ids)
  | c :: rest =>
      let (s', r) := step c s in
      run rest s' (match r with Some i => ids ++ [i] | None => ids end)
  end.

(** ** Letter case *)

(** The text with its ASCII capitals turned into small letters. *)
Definition fold_case (x : string) : list ascii :=
  List.map Like.to_lower (list_ascii_of_string x).

(** ** Stores that calls can produce *)

(** The store a history of calls leaves behind. *)
Definition after (history : list call) (s : Store) : Store := fst (run history s []).

(** The ticket carries enumerated values only. *)
Definition valid_ticket (t : Ticket) : Prop :=
  t_status t ∈ VALID_STATUSES /\ t_priority t ∈ VALID_PRIORITIES.

(** An assignment of an UPDATE that keeps a ticket valid. *)
Definition valid_assignment (a : column * string) : Prop :=
  match fst a with
  | ColStatus => snd a ∈ VALID_STATUSES
  | ColPriority => snd a ∈ VALID_PRIORITIES
  | _ => True
  end.

(** What the primary keys, the AUTOINCREMENT counters and the checks of
    [db.py] maintain between calls. *)
Record consistent (s : Store) : Prop := mkConsistent {
  counters_nonneg : 0 <= tickets_seq s /\ 0 <= comments_seq s;
  ticket_ids_bounded :
    forall i, i ∈ List.map t_id (tickets s) -> 0 < i <= tickets_seq s;
  ticket_ids_unique : NoDup (List.map t_id (tickets s));
  comment_ids_bounded :
    forall i, i ∈ List.map c_id (comments s) -> 0 < i <= comments_seq s;
  comment_ids_unique : NoDup (List.map c_id (comments s));
  comments_owned :
    forall c, c ∈ comments s -> c_ticket_id c ∈ List.map t_id (tickets s);
  tickets_valid : forall t, t ∈ tickets s -> valid_ticket t
}.

(** * The front ends

    [cli.py], [mcp_server.py] and [tui.py] call the store and turn the result
    into text.  A command of [cli.py] is modelled by the store it leaves,
    the strings it hands to [console.print], and the status it passes to
    [sys.exit] if it does; a tool of [mcp_server.py] by the store it leaves
    and the string it returns. *)

(** [str(n)] for an [int], as an f-string prints it. *)
Definition py_str_int (n : Z) : string := NilZero.string_of_int (Z.to_int n).

(** [title[:n] + ("..." if len(title) > n else "")]: the title column of
    [cli.py] ([n = 40]) and of [tui.py] ([n = 35]). *)
Definition shorten (n : nat) (title : string) : string :=
  String.substring 0 n title +:+ (if Nat.ltb n (String.length title) then "..." else "").

Section Messages.

(** [repr] of a set literal: Python fixes the braces and quotes but not the
    order of the elements, so the text is taken as given. *)
Variable set_repr : list string -> string.

(** [str(e)] for the ValueErrors of [db.py]. *)
Definition str_exn (e : exn) : string :=
  match e with
  | ValueError Status v =>
      "Invalid status: " +:+ v +:+ ". Must be one of " +:+ set_repr VALID_STATUSES
  | ValueError Priority v =>
      "Invalid priority: " +:+ v +:+ ". Must be one of " +:+ set_repr VALID_PRIORITIES
  end.

(** ** Tools of [mcp_server.py]; [project] is what [get_project()] returns *)

(** The result is [None] where Python would raise the TypeError of
    subscripting [None], had [db.create_ticket] returned no ticket. *)
Definition mcp_create_ticket (now project title description priority tags : string)
  (s : Store) : Store * option string :=
  match create_ticket now project title description priority tags s with
  | (s', Raise e) => (s', Some ("Error: " +:+ str_exn e))
  | (s', Ok None) => (s', None)
  | (s', Ok (Some ticket)) =>
      (s', Some ("Created ticket #" +:+ py_str_int (t_id (tv_ticket ticket))
                 +:+ ": " +:+ t_title (tv_ticket ticket)))
  end.

Definition mcp_update_ticket_status (now : string) (ticket_id : Z) (status : string)
  (s : Store) : Store * string :=
  match update_ticket now ticket_id None None (Some status) None None s with
  | (s', Raise e) => (s', "Error: " +:+ str_exn e)
  | (s', Ok None) => (s', "Ticket #" +:+ py_str_int ticket_id +:+ " not found.")
  | (s', Ok (Some _)) =>
      (s', "Ticket #" +:+ py_str_int ticket_id +:+ " status updated to: " +:+ status)
  end.

Definition mcp_add_comment (now : string) (ticket_id : Z) (content : string)
  (s : Store) : Store * string :=
  match add_comment now ticket_id "claude" content s with
  | (s', None) => (s', "Ticket #" +:+ py_str_int ticket_id +:+ " not found.")
  | (s', Some _) => (s', "Added comment to ticket #" +:+ py_str_int ticket_id +:+ ".")
  end.

(** ** Commands of [cli.py] *)

(** What a command did besides changing the store. *)
Record Shown := mkShown {
  printed : list string;
  exit_status : option Z
}.

(** The truth value of an option of the command line inside [any([...])]. *)
Definition given (o : option string) : bool :=
  match truthy o with Some _ => true | None => false end.

(** [click.Choice(["high", "medium", "low"])] on [--priority]: click checks
    the value before the command runs, and on any other value prints its
    usage error to standard error and exits with status 2. *)
Definition priority_choice : list string := ["high"; "medium"; "low"].

Definition cli_edit_ticket (now : string) (ticket_id : Z)
  (title description priority tags : option string) (s : Store) : Store * Shown :=
  if match priority with Some p => negb (py_in p priority_choice) | None => false end
  then (s, mkShown [] (Some 2))
  else
  if negb (given title || given description || given priority
           || match tags with Some _ => true | None => false end)
  then (s, mkShown ["[yellow]No changes specified.[/yellow]"] None)
  else
    match update_ticket now ticket_id title description None priority tags s with
    | (s', Raise e) => (s', mkShown ["[red]Error:[/red] " +:+ str_exn e] (Some 1))
    | (s', Ok None) =>
        (s', mkShown ["[red]Ticket #" +:+ py_str_int ticket_id +:+ " not found.[/red]"]
               (Some 1))
    | (s', Ok (Some _)) =>
        (s', mkShown ["[green]Updated ticket #" +:+ py_str_int ticket_id +:+ ".[/green]"]
               None)
    end.

(** [answer] is what the user replies to [click.confirm], asked only
    without [--yes]. *)
Definition cli_delete_ticket (ticket_id : Z) (yes answer : bool) (s : Store)
  : Store * Shown :=
  match get_ticket s ticket_id with
  | None =>
      (s, mkShown ["[red]Ticket #" +:+ py_str_int ticket_id +:+ " not found.[/red]"]
            (Some 1))
  | Some ticket =>
      let question :=
        "[yellow]Delete ticket #" +:+ py_str_int ticket_id +:+ ": "
        +:+ t_title (tv_ticket ticket) +:+ "?[/yellow]" in
      let asked := if negb yes then [question] else [] in
      if negb yes && negb answer then
        (s, mkShown (asked ++ ["[dim]Cancelled.[/dim]"]) None)
      else
        let (s', _) := delete_ticket ticket_id s in
        (s', mkShown (asked ++ ["[green]Deleted ticket #" +:+ py_str_int ticket_id
                                 +:+ ".[/green]"]) None)
  end.

Definition cli_add_comment (now : string) (ticket_id : Z) (message : string)
  (s : Store) : Store * Shown :=
  match add_comment now ticket_id "user" message s with
  | (s', None) =>
      (s', mkShown ["[red]Ticket #" +:+ py_str_int ticket_id +:+ " not found.[/red]"]
             (Some 1))
  | (s', Some _) =>
      (s', mkShown ["[green]Added comment to ticket #" +:+ py_str_int ticket_id
                    +:+ ".[/green]"] None)
  end.

End Messages.

(** * Properties *)

(** ** LIKE against the specification's words *)

Section LikeFacts.

Import Like Text.

Lemma list_ascii_of_string_app (a b : string) :
  list_ascii_of_string (a +:+ b) = list_ascii_of_string a ++ list_ascii_of_string b.
Proof. induction a as [|c a IH]; simpl; [reflexivity | now rewrite IH]. Qed.

Lemma to_lower_comma (d : ascii) :
  Ascii.eqb (to_lower comma) (to_lower d) = Ascii.eqb comma d.
Proof. destruct d as [[] [] [] [] [] [] [] []]; reflexivity. Qed.

Lemma to_lower_comma_r (c : ascii) :
  Ascii.eqb (to_lower c) (to_lower comma) = Ascii.eqb c comma.
Proof. destruct c as [[] [] [] [] [] [] [] []]; reflexivity. Qed.

Lemma like_percent (p s : chars) :
  like (percent :: p) s
  = like p s || match s with [] => false | _ :: s' => like (percent :: p) s' end.
Proof. destruct s; reflexivity. Qed.

Lemma like_char (c : ascii) (p s : chars) :
  Ascii.eqb c percent = false ->
  like (c :: p) s
  = match s with [] => false | d :: s' => match_one c d && like p s' end.
Proof. intros H. simpl. rewrite H. reflexivity. Qed.

Lemma like_trailing_percent (s : chars) : like [percent] s = true.
Proof.
  induction s as [|d s IH]; [reflexivity|].
  rewrite like_percent, IH. apply orb_true_r.
Qed.

(** A plain prefix followed by [%] is a prefix test. *)
Lemma like_prefix (q s : chars) :
  plain q = true -> like (q ++ [percent]) s = starts_with_ci q s.
Proof.
  revert s. induction q as [|c q IH]; intros s Hq.
  - simpl app. rewrite like_trailing_percent. now destruct s.
  - simpl in Hq. apply andb_prop in Hq as [Hc Hq].
    apply negb_true_iff, orb_false_elim in Hc as [Hp Hu].
    simpl app. rewrite (like_char _ _ _ Hp).
    destruct s as [|d s]; [reflexivity|].
    unfold match_one. rewrite Hu, IH by exact Hq. reflexivity.
Qed.

(** [%q%] with a plain [q] is the substring test. *)
Lemma like_infix (q s : chars) :
  plain q = true -> like (percent :: q ++ [percent]) s = occurs_ci q s.
Proof.
  intros Hq. induction s as [|d s IH].
  - rewrite like_percent, like_prefix by exact Hq. reflexivity.
  - rewrite like_percent, like_prefix, IH by exact Hq. reflexivity.
Qed.

Lemma split_commas_cons (s : chars) :
  split_commas s = hd [] (split_commas s) :: tl (split_commas s).
Proof. destruct s as [|c s]; simpl; [reflexivity|]. now destruct (Ascii.eqb c comma), (split_commas s). Qed.

(** Between two commas: a comma-free [t] followed by a comma starts
    [u ++ ","] exactly when it is the first element of [u]. *)
Lemma starts_with_first_element (t u : chars) :
  comma_free t = true ->
  starts_with_ci (t ++ [comma]) (u ++ [comma]) = eq_ci t (hd [] (split_commas u)).
Proof.
  revert u. induction t as [|c t IH]; intros u Ht.
  - destruct u as [|d u]; [reflexivity|].
    cbn [app starts_with_ci split_commas].
    rewrite to_lower_comma, andb_true_r, Ascii.eqb_sym.
    destruct (Ascii.eqb d comma) eqn:E; [reflexivity|].
    now destruct (split_commas u).
  - cbn [comma_free forallb] in Ht. apply andb_prop in Ht as [Hc Ht].
    apply negb_true_iff in Hc. fold (comma_free t) in Ht.
    destruct u as [|d u]; cbn [app starts_with_ci split_commas hd eq_ci].
    + now rewrite to_lower_comma_r, Hc.
    + destruct (Ascii.eqb d comma) eqn:E.
      * apply Ascii.eqb_eq in E. subst d. cbn [hd eq_ci].
        now rewrite to_lower_comma_r, Hc.
      * rewrite (IH u Ht). now destruct (split_commas u).
Qed.

Lemma occurs_later_elements (t u : chars) :
  comma_free t = true ->
  occurs_ci (comma :: t ++ [comma]) (u ++ [comma])
  = existsb (eq_ci t) (tl (split_commas u)).
Proof.
  intros Ht. induction u as [|d u IH].
  - cbn [app occurs_ci starts_with_ci split_commas tl existsb].
    rewrite Ascii.eqb_refl. now destruct t.
  - change ((d :: u) ++ [comma]) with (d :: (u ++ [comma])).
    cbn [occurs_ci]. rewrite IH.
    cbn [starts_with_ci]. rewrite to_lower_comma, Ascii.eqb_sym.
    cbn [split_commas].
    destruct (Ascii.eqb d comma) eqn:E.
    + rewrite starts_with_first_element by exact Ht.
      cbn [andb tl]. rewrite (split_commas_cons u) at 3. reflexivity.
    + cbn [andb orb]. now destruct (split_commas u).
Qed.

(** The pattern [%,t,%] against [,tags,] finds the standalone elements. *)
Lemma like_tag_elements (t u : chars) :
  plain t = true -> comma_free t = true ->
  like (percent :: comma :: t ++ [comma; percent]) (comma :: u ++ [comma])
  = existsb (eq_ci t) (split_commas u).
Proof.
  intros Hp Hc.
  change (percent :: comma :: t ++ [comma; percent])
    with (percent :: (comma :: t ++ [comma; percent])).
  replace (comma :: t ++ [comma; percent])
    with ((comma :: t ++ [comma]) ++ [percent])
    by (simpl; now rewrite <- app_assoc).
  rewrite like_infix.
  - cbn [occurs_ci starts_with_ci].
    rewrite Ascii.eqb_refl, occurs_later_elements, starts_with_first_element by exact Hc.
    cbn [andb]. rewrite (split_commas_cons u) at 3. reflexivity.
  - unfold plain. simpl. rewrite forallb_app. simpl.
    fold (plain t). now rewrite Hp.
Qed.

End LikeFacts.

Lemma c_string_nul_free (x : string) :
  nul_free x = true -> Like.c_string (list_ascii_of_string x) = list_ascii_of_string x.
Proof.
  unfold nul_free. induction (list_ascii_of_string x) as [|c l IH]; [reflexivity|].
  cbn [forallb Like.c_string]. intros H. apply andb_prop in H as [Hc Hl].
  apply negb_true_iff in Hc. now rewrite Hc, IH.
Qed.

Lemma nul_free_app (a b : string) : nul_free (a +:+ b) = nul_free a && nul_free b.
Proof. unfold nul_free. now rewrite list_ascii_of_string_app, forallb_app. Qed.

Lemma utf8_length_app (a b : string) :
  Like.utf8_length (a +:+ b) = Like.utf8_length a + Like.utf8_length b.
Proof.
  unfold Like.utf8_length. rewrite list_ascii_of_string_app.
  induction (list_ascii_of_string a) as [|c l IH]; cbn [app fold_right]; [reflexivity|].
  rewrite IH. lia.
Qed.

Lemma sql_like_within (text pattern : string) :
  Like.utf8_length pattern <= Like.SQLITE_MAX_LIKE_PATTERN_LENGTH ->
  Like.sql_like text pattern
  = Some (Like.like (Like.c_string (list_ascii_of_string pattern))
            (Like.c_string (list_ascii_of_string text))).
Proof.
  intros H. unfold Like.sql_like. apply Z.ltb_ge in H. now rewrite H.
Qed.

Lemma sql_like_refused (text pattern : string) :
  Like.SQLITE_MAX_LIKE_PATTERN_LENGTH < Like.utf8_length pattern ->
  Like.sql_like text pattern = None.
Proof.
  intros H. unfold Like.sql_like. apply Z.ltb_lt in H. now rewrite H.
Qed.

Lemma query_pattern_length (query : string) :
  Like.utf8_length ("%" +:+ query +:+ "%") = Like.utf8_length query + 2.
Proof. rewrite !utf8_length_app. change (Like.utf8_length "%") with 1. lia. Qed.

Lemma tag_pattern_length (tag : string) :
  Like.utf8_length ("%," +:+ tag +:+ ",%") = Like.utf8_length tag + 4.
Proof.
  rewrite !utf8_length_app. change (Like.utf8_length "%,") with 2.
  change (Like.utf8_length ",%") with 2. lia.
Qed.

(** On NUL-free text a literal query is found by [%query%] exactly where
    it occurs as a substring. *)
Lemma sql_like_contains (field query : string) :
  literal_query query -> nul_free field = true ->
  Like.sql_like field ("%" +:+ query +:+ "%") = Some (contains field query).
Proof.
  intros (Hp & Hn & Hlen) Hf.
  rewrite sql_like_within
    by (rewrite query_pattern_length; unfold Like.SQLITE_MAX_LIKE_PATTERN_LENGTH; lia).
  rewrite !c_string_nul_free; [| exact Hf | now rewrite !nul_free_app, Hn].
  unfold contains. rewrite !list_ascii_of_string_app.
  change (list_ascii_of_string "%") with [Like.percent].
  f_equal. apply (like_infix _ _ Hp).
Qed.

(** On NUL-free tags a literal tag is found by the tag condition exactly
    where it is one of the comma-separated elements. *)
Lemma tag_clause_has_tag (tag : string) (t : Ticket) :
  literal_tag tag -> nul_free (t_tags t) = true ->
  tag_clause tag t = Some (has_tag (t_tags t) tag).
Proof.
  intros (Hp & Hc & Hn & Hlen) Ht. unfold tag_clause.
  rewrite sql_like_within
    by (rewrite tag_pattern_length; unfold Like.SQLITE_MAX_LIKE_PATTERN_LENGTH; lia).
  rewrite !c_string_nul_free;
    [| now rewrite !nul_free_app, Ht | now rewrite !nul_free_app, Hn].
  unfold has_tag. rewrite !list_ascii_of_string_app.
  change (list_ascii_of_string "%,") with [Like.percent; Like.comma].
  change (list_ascii_of_string ",%") with [Like.comma; Like.percent].
  change (list_ascii_of_string ",") with [Like.comma].
  f_equal. apply (like_tag_elements _ _ Hp Hc).
Qed.

(** The tag filter ["bug"] on the tags of the sample tickets. *)
Example tag_bug_samples :
  List.map (fun t => (t_tags t, tag_clause "bug" t)) (tickets Samples.four)
  = [("bug,urgent", Some true); ("bug", Some true); ("bugfix", Some false);
     ("", Some false)].
Proof. reflexivity. Qed.

(** Without filters the sample store lists high, then the two medium
    tickets newest first, then low. *)
Example list_samples_order :
  list_tickets Samples.four None None None None
  = Ok (List.map (fun i => default (Samples.T 0 "" "" "" "" "" "" "")
                             (tv_ticket <$> get_ticket Samples.four i))
          [2; 4; 3; 1]).
Proof. reflexivity. Qed.

(** ["foo"] occurs only in the two comments of ticket 3, which is found
    once. *)
Example search_foo_samples :
  search_tickets Samples.four "foo" None None
  = Ok (List.filter (fun t => Z.eqb (t_id t) 3) (tickets Samples.four)).
Proof. reflexivity. Qed.

(** LIKE reads C strings: text behind a NUL is not seen, and a pattern is
    cut at its NUL. *)
Example like_nul_samples :
  let nul := String zero "" in
  Like.sql_like ("a" +:+ nul +:+ "foo") "%foo%" = Some false
  /\ Like.sql_like "anything" ("%" +:+ nul +:+ "zzz%") = Some true
  /\ tag_clause "bug" (Samples.T 1 "/p" "t" "" "pending" "low" ("a" +:+ nul +:+ ",bug") "")
     = Some false.
Proof. repeat split. Qed.

(** ** The row order *)

Lemma py_in_elem_of (x : string) (S : list string) : py_in x S = true <-> x ∈ S.
Proof.
  unfold py_in. rewrite existsb_exists. split.
  - intros (y & Hy & E). apply String.eqb_eq in E. subst y. now apply list_elem_of_In.
  - intros H. exists x. split; [now apply list_elem_of_In | apply String.eqb_refl].
Qed.

Lemma py_in_not_elem_of (x : string) (S : list string) : x ∉ S -> py_in x S = false.
Proof.
  intros H. destruct (py_in x S) eqn:E; [|reflexivity].
  now apply py_in_elem_of in E.
Qed.

Global Instance ticket_order_total : Total ticket_order.
Proof.
  intros a b. unfold ticket_order.
  destruct (Z.lt_total (priority_rank (t_priority a)) (priority_rank (t_priority b)))
    as [H | [H | H]]; [now left; left | | now right; left].
  destruct (total String.le (t_created_at a) (t_created_at b)).
  - right. right. now split.
  - left. right. now split.
Qed.

Global Instance ticket_order_trans : Transitive ticket_order.
Proof.
  intros a b c [H1 | [H1 L1]] [H2 | [H2 L2]]; unfold ticket_order.
  - left. lia.
  - left. lia.
  - left. lia.
  - right. split; [lia|]. now transitivity (t_created_at b).
Qed.

Lemma order_by_sorted (rows : list Ticket) :
  StronglySorted ticket_order (order_by ticket_order rows).
Proof. apply StronglySorted_merge_sort; apply _. Qed.

Lemma order_by_perm {A} (R : relation A) `{!RelDecision R} (rows : list A) :
  order_by R rows ≡ₚ rows.
Proof. apply merge_sort_Permutation. Qed.

Lemma order_by_elem_of {A} (R : relation A) `{!RelDecision R} (rows : list A) (x : A) :
  x ∈ order_by R rows <-> x ∈ rows.
Proof. now rewrite order_by_perm. Qed.

(** ** SELECT ... WHERE *)

Lemma elem_of_filter_bool {A} (f : A -> bool) (l : list A) (x : A) :
  x ∈ List.filter f l <-> x ∈ l /\ f x = true.
Proof. rewrite !list_elem_of_In. apply filter_In. Qed.

Lemma elem_of_map {A B} (f : A -> B) (l : list A) (y : B) :
  y ∈ List.map f l <-> exists x, f x = y /\ x ∈ l.
Proof.
  rewrite list_elem_of_In, in_map_iff. now setoid_rewrite list_elem_of_In.
Qed.

Lemma sql_where_ext {R} (q q' : R -> option bool) (rows : list R) :
  (forall r, q r = q' r) -> sql_where q rows = sql_where q' rows.
Proof.
  intros H. induction rows as [|r rows IH]; [reflexivity|].
  cbn [sql_where]. now rewrite H, IH.
Qed.

(** Where no row is refused, the statement returns the rows on which the
    clause is true. *)
Lemma sql_where_defined {R} (q : R -> option bool) (rows : list R) :
  (forall r, r ∈ rows -> q r <> None) ->
  sql_where q rows = Some (List.filter (fun r => holds (q r)) rows).
Proof.
  induction rows as [|r rows IH]; intros H; [reflexivity|].
  cbn [sql_where List.filter].
  rewrite IH by (intros x Hx; apply H; now apply list_elem_of_further).
  specialize (H r (list_elem_of_here _ _)).
  destruct (q r) as [[]|]; [reflexivity | reflexivity | congruence].
Qed.

Lemma sql_where_Some {R} (q : R -> option bool) (f : R -> bool) (rows : list R) :
  (forall r, r ∈ rows -> q r = Some (f r)) ->
  sql_where q rows = Some (List.filter f rows).
Proof.
  induction rows as [|r rows IH]; intros H; [reflexivity|].
  cbn [sql_where List.filter].
  rewrite IH by (intros x Hx; apply H; now apply list_elem_of_further).
  now rewrite (H r (list_elem_of_here _ _)).
Qed.

(** One refused row refuses the statement. *)
Lemma sql_where_refused {R} (q : R -> option bool) (rows : list R) (r : R) :
  r ∈ rows -> q r = None -> sql_where q rows = None.
Proof.
  intros Hin Hr. induction rows as [|x rows IH]; [now apply not_elem_of_nil in Hin|].
  cbn [sql_where]. apply elem_of_cons in Hin as [<- | Hin].
  - now rewrite Hr.
  - rewrite (IH Hin). now destruct (q x).
Qed.

(** ** [list_tickets] *)

Lemma truthy_cases (o : option string) :
  (truthy o = None /\ forall h, passes o h = true)
  \/ (exists v, o = Some v /\ truthy o = Some v /\ v <> "" /\ forall h, passes o h = h v).
Proof.
  destruct o as [[|c v]|]; [left | right | left]; try (split; reflexivity).
  exists (String c v). repeat split. discriminate.
Qed.

Lemma acceptable_truthy (o : option string) (S : list string) (v : string) :
  acceptable o S -> truthy o = Some v -> py_in v S = true.
Proof.
  destruct o as [[|c w]|]; simpl; try discriminate.
  intros [H | H] [= <-]; [discriminate | now apply py_in_elem_of].
Qed.

(** With filters that pass the validation, [list_tickets] runs its SELECT
    with the clause [list_clause]. *)
Lemma list_tickets_query (s : Store) (project status priority tag : option string) :
  acceptable status VALID_STATUSES ->
  acceptable priority VALID_PRIORITIES ->
  list_tickets s project status priority tag
  = match sql_where (list_clause project status priority tag) (tickets s) with
    | Some rows => Ok (order_by ticket_order rows)
    | None => Raise (OperationalError pattern_too_complex)
    end.
Proof.
  intros Hst Hpr. unfold list_tickets.
  destruct (truthy_cases project) as [[Ep Pp] | (p & _ & Ep & _ & Pp)];
  destruct (truthy_cases status) as [[Es Ps] | (st & _ & Es & _ & Ps)];
  destruct (truthy_cases priority) as [[Er Pr] | (pr & _ & Er & _ & Pr)];
  rewrite Ep, Es, Er;
  try rewrite (acceptable_truthy _ _ _ Hst Es);
  try rewrite (acceptable_truthy _ _ _ Hpr Er);
  cbn [bind negb];
  match goal with
  | |- match sql_where ?q _ with _ => _ end = _ =>
      rewrite (sql_where_ext q (list_clause project status priority tag)); [reflexivity|]
  end;
  intros t; unfold list_clause, and_where; rewrite Pp, Ps, Pr;
  destruct (truthy tag) as [tg|];
  repeat match goal with
         | |- context [String.eqb ?a ?b] => destruct (String.eqb a b)
         end;
  try destruct (tag_clause tg t) as [[]|]; reflexivity.
Qed.

Lemma list_clause_literal (s : Store) (project status priority tag : option string)
  (t : Ticket) :
  literal_tag_filter tag s -> t ∈ tickets s ->
  list_clause project status priority tag t
  = Some (selected project status priority tag t).
Proof.
  intros Htag Hin. unfold list_clause, selected.
  destruct tag as [[|c tg]|]; cbn [truthy passes String.eqb orb].
  - now destruct (_ && _).
  - destruct Htag as [Hf | [Hlit Hnul]]; [discriminate|].
    rewrite (tag_clause_has_tag _ _ Hlit (Hnul t Hin)).
    now destruct (_ && _), (has_tag _ _).
  - now destruct (_ && _).
Qed.

Lemma list_tickets_ok (s : Store) (project status priority tag : option string) :
  acceptable status VALID_STATUSES ->
  acceptable priority VALID_PRIORITIES ->
  literal_tag_filter tag s ->
  list_tickets s project status priority tag
  = Ok (order_by ticket_order
          (List.filter (selected project status priority tag) (tickets s))).
Proof.
  intros Hst Hpr Htag. rewrite (list_tickets_query _ _ _ _ _ Hst Hpr).
  rewrite (sql_where_Some _ (selected project status priority tag)); [reflexivity|].
  intros t Hin. now apply (list_clause_literal s).
Qed.

(** C1 (as amended).  When the status and priority filters are absent, empty
    or among the enumerated values, and the tag filter is absent, empty or a
    literal tag looked for among tags without NUL characters, [list_tickets]
    returns a sequence that is sorted by priority rank (high before medium
    before low) and, within one rank, by [created_at] descending, and that
    holds exactly the rows of the table that pass every filter given as a
    non-empty string: project, status and priority by equality, the tag by
    being one of the comma-separated tags up to the case of ASCII letters.
    A filter given as the empty string is ignored like an absent one. *)
Theorem list_tickets_sorted_selection (s : Store) (project status priority tag : option string) :
  acceptable status VALID_STATUSES ->
  acceptable priority VALID_PRIORITIES ->
  literal_tag_filter tag s ->
  exists l,
    list_tickets s project status priority tag = Ok l
    /\ StronglySorted ticket_order l
    /\ l ≡ₚ List.filter (selected project status priority tag) (tickets s)
    /\ priority_rank "high" < priority_rank "medium" < priority_rank "low".
Proof.
  intros Hst Hpr Htag. eexists. split; [now apply list_tickets_ok|].
  split; [apply order_by_sorted|].
  split; [apply order_by_perm|].
  vm_compute. split; reflexivity.
Qed.

Lemma literal_bug : literal_tag "bug".
Proof. repeat split; vm_compute; congruence. Qed.

Lemma samples_nul_free (t : Ticket) : t ∈ tickets Samples.four -> nul_free (t_tags t) = true.
Proof.
  intros H. cbn in H.
  repeat (apply elem_of_cons in H as [-> | H]; [reflexivity|]).
  now apply not_elem_of_nil in H.
Qed.

Lemma list_tickets_sorted_selection_witness :
  acceptable (Some "pending") VALID_STATUSES
  /\ acceptable None VALID_PRIORITIES
  /\ literal_tag_filter (Some "bug") Samples.four
  /\ exists l,
       list_tickets Samples.four (Some "/p") (Some "pending") None (Some "bug") = Ok l
       /\ StronglySorted ticket_order l
       /\ l ≡ₚ List.filter (selected (Some "/p") (Some "pending") None (Some "bug"))
                 (tickets Samples.four)
       /\ priority_rank "high" < priority_rank "medium" < priority_rank "low".
Proof.
  assert (H1 : acceptable (Some "pending") VALID_STATUSES)
    by (right; repeat constructor).
  assert (H2 : acceptable None VALID_PRIORITIES) by exact I.
  assert (H3 : literal_tag_filter (Some "bug") Samples.four)
    by (right; split; [exact literal_bug | exact samples_nul_free]).
  split; [exact H1|]. split; [exact H2|]. split; [exact H3|].
  exact (list_tickets_sorted_selection Samples.four (Some "/p") (Some "pending") None
           (Some "bug") H1 H2 H3).
Defined.

(** C1 as stated fails: with the project filter given as the empty string
    the call returns the tickets of every project, none of which has the
    empty project. *)
Lemma list_tickets_selection_counterexample :
  exists l,
    list_tickets Samples.four (Some "") None None None = Ok l
    /\ List.map t_id l = [2; 4; 3; 1]
    /\ forall t, t ∈ l -> t_project t <> "".
Proof.
  eexists. split; [vm_compute; reflexivity|]. split; [reflexivity|].
  intros t H.
  repeat (apply elem_of_cons in H as [-> | H]; [discriminate|]).
  now apply not_elem_of_nil in H.
Qed.

(** C2 (as amended).  For a non-empty tag filter that is literal (no [%],
    [_], comma or NUL, at most 49996 bytes) and a ticket whose tags hold no
    NUL, adding the filter keeps the ticket exactly when one of its
    comma-separated tags equals the filter up to the case of ASCII
    letters. *)
Theorem list_tickets_tag_filter (s : Store) (project status priority : option string)
  (tag : string) :
  tag <> "" ->
  literal_tag tag ->
  acceptable status VALID_STATUSES ->
  acceptable priority VALID_PRIORITIES ->
  exists l0 l,
    list_tickets s project status priority None = Ok l0
    /\ list_tickets s project status priority (Some tag) = Ok l
    /\ forall t, nul_free (t_tags t) = true ->
                 (t ∈ l <-> t ∈ l0 /\ has_tag (t_tags t) tag = true).
Proof.
  intros Hne Hlit Hst Hpr.
  rewrite !(list_tickets_query _ _ _ _ _ Hst Hpr).
  assert (Hdef : forall t, list_clause project status priority (Some tag) t <> None).
  { intros t. unfold list_clause, tag_clause.
    destruct tag as [|c tag]; [congruence|]. cbn [truthy].
    destruct Hlit as (_ & _ & _ & Hlen).
    rewrite sql_like_within
      by (rewrite tag_pattern_length; unfold Like.SQLITE_MAX_LIKE_PATTERN_LENGTH; lia).
    now destruct (_ && _), (Like.like _ _). }
  rewrite (sql_where_defined (list_clause project status priority (Some tag)))
    by (intros t _; apply Hdef).
  rewrite (sql_where_defined (list_clause project status priority None))
    by (intros t _; unfold list_clause; cbn [truthy]; now destruct (_ && _)).
  do 2 eexists. split; [reflexivity|]. split; [reflexivity|].
  intros t Ht. rewrite !order_by_elem_of, !elem_of_filter_bool.
  unfold list_clause. destruct tag as [|c tag]; [congruence|]. cbn [truthy].
  rewrite (tag_clause_has_tag _ _ Hlit Ht).
  destruct (_ && _), (has_tag _ _); cbn; intuition congruence.
Qed.

Lemma list_tickets_tag_filter_witness :
  "bug" <> ""
  /\ literal_tag "bug"
  /\ exists l0 l,
       list_tickets Samples.four None None None None = Ok l0
       /\ list_tickets Samples.four None None None (Some "bug") = Ok l
       /\ List.map t_id l = [2; 1]
       /\ forall t, nul_free (t_tags t) = true ->
                    (t ∈ l <-> t ∈ l0 /\ has_tag (t_tags t) "bug" = true).
Proof.
  assert (H1 : "bug" <> "") by discriminate.
  split; [exact H1|]. split; [exact literal_bug|].
  destruct (list_tickets_tag_filter Samples.four None None None "bug" H1 literal_bug I I)
    as (l0 & l & H0 & Hl & Hiff).
  exists l0, l. split; [exact H0|]. split; [exact Hl|]. split; [|exact Hiff].
  vm_compute in Hl. now injection Hl as <-.
Defined.

(** C2 as stated fails: the tag filter ["BUG"] returns the ticket whose
    tags string is ["bug"], in which ["BUG"] does not occur. *)
Lemma list_tickets_tag_counterexample :
  exists l t,
    list_tickets Samples.four None None None (Some "BUG") = Ok l
    /\ t ∈ l
    /\ t_tags t = "bug"
    /\ Text.split_commas (list_ascii_of_string (t_tags t))
       = [list_ascii_of_string "bug"]
    /\ list_ascii_of_string "BUG"
       ∉ Text.split_commas (list_ascii_of_string (t_tags t)).
Proof.
  eexists. exists (Samples.T 2 "/p" "two" "" "pending" "high" "bug" "2024-01-01T10:00:01").
  split; [vm_compute; reflexivity|].
  split; [repeat constructor|].
  split; [reflexivity|]. split; [reflexivity|].
  intros H. cbn in H. apply list_elem_of_singleton in H. discriminate H.
Qed.

(** C9 (as amended).  A status filter that is a non-empty string outside the
    enumerated statuses makes [list_tickets] raise the ValueError for that
    status, whatever the other filters are.  With a status filter that is
    absent, empty or valid, a priority filter that is a non-empty string
    outside the enumerated priorities makes it raise the ValueError for that
    priority.  A status or priority filter given as the empty string is
    treated as absent: the call does exactly what it does without it. *)
Theorem list_tickets_rejects_invalid (s : Store) (project status priority tag : option string) :
  (forall st, status = Some st -> st <> "" -> st ∉ VALID_STATUSES ->
     list_tickets s project status priority tag
     = Raise (Invalid (ValueError Status st)))
  /\ (forall pr, priority = Some pr -> pr <> "" -> pr ∉ VALID_PRIORITIES ->
        acceptable status VALID_STATUSES ->
        list_tickets s project status priority tag
        = Raise (Invalid (ValueError Priority pr)))
  /\ list_tickets s project (Some "") priority tag
     = list_tickets s project None priority tag
  /\ list_tickets s project status (Some "") tag
     = list_tickets s project status None tag.
Proof.
  split; [|split; [|split; reflexivity]].
  - intros st -> Hne Hout. unfold list_tickets.
    destruct st as [|c st]; [congruence|]. cbn [truthy].
    rewrite (py_in_not_elem_of _ _ Hout). reflexivity.
  - intros pr -> Hne Hout Hst. unfold list_tickets.
    destruct pr as [|c pr]; [congruence|]. cbn [truthy].
    rewrite (py_in_not_elem_of _ _ Hout).
    destruct (truthy_cases status) as [[Es _] | (st & _ & Es & _ & _)]; rewrite Es.
    + reflexivity.
    + rewrite (acceptable_truthy _ _ _ Hst Es). reflexivity.
Qed.

Lemma list_tickets_rejects_invalid_witness :
  ("open" ∉ VALID_STATUSES)
  /\ ("urgent" ∉ VALID_PRIORITIES)
  /\ list_tickets Samples.four None (Some "open") (Some "urgent") None
     = Raise (Invalid (ValueError Status "open"))
  /\ acceptable (Some "closed") VALID_STATUSES
  /\ list_tickets Samples.four None (Some "closed") (Some "urgent") None
     = Raise (Invalid (ValueError Priority "urgent")).
Proof.
  assert (H1 : "open" ∉ VALID_STATUSES)
    by (intros H; apply py_in_elem_of in H; discriminate H).
  assert (H2 : "urgent" ∉ VALID_PRIORITIES)
    by (intros H; apply py_in_elem_of in H; discriminate H).
  assert (H3 : acceptable (Some "closed") VALID_STATUSES) by (right; repeat constructor).
  split; [exact H1|]. split; [exact H2|]. split.
  - apply (proj1 (list_tickets_rejects_invalid Samples.four None (Some "open")
                    (Some "urgent") None) "open" eq_refl); [discriminate | exact H1].
  - split; [exact H3|].
    apply (proj1 (proj2 (list_tickets_rejects_invalid Samples.four None (Some "closed")
                           (Some "urgent") None)) "urgent" eq_refl);
      [discriminate | exact H2 | exact H3].
Defined.

(** C9 as stated fails: the empty string is outside the enumerated statuses,
    yet [list_tickets] with that status filter raises nothing and returns
    the unfiltered list. *)
Lemma list_tickets_empty_status_counterexample :
  ("" ∉ VALID_STATUSES)
  /\ list_tickets Samples.four None (Some "") None None
     = list_tickets Samples.four None None None None
  /\ exists l, list_tickets Samples.four None (Some "") None None = Ok l
               /\ length l = 4%nat.
Proof.
  split; [intros H; apply py_in_elem_of in H; discriminate H|].
  split; [reflexivity|].
  eexists. split; [vm_compute; reflexivity | reflexivity].
Qed.

(** ** [search_tickets] *)

Lemma elem_of_left_join (ts : list Ticket) (cs : list Comment) (t : Ticket)
  (oc : option Comment) :
  (t, oc) ∈ left_join ts cs
  <-> t ∈ ts
      /\ match oc with
         | Some c => c ∈ cs /\ c_ticket_id c = t_id t
         | None => forall c, c ∈ cs -> c_ticket_id c <> t_id t
         end.
Proof.
  unfold left_join. rewrite list_elem_of_In, in_flat_map.
  setoid_rewrite <- list_elem_of_In.
  split.
  - intros (t' & Ht' & Hin).
    destruct (List.filter (fun c => Z.eqb (c_ticket_id c) (t_id t')) cs) as [|c0 m] eqn:E.
    + apply list_elem_of_singleton in Hin. injection Hin as -> ->.
      split; [exact Ht'|]. intros c Hc Heq.
      assert (Hf : c ∈ List.filter (fun c => Z.eqb (c_ticket_id c) (t_id t')) cs)
        by (apply elem_of_filter_bool; split; [exact Hc | now apply Z.eqb_eq]).
      rewrite E in Hf. now apply not_elem_of_nil in Hf.
    + rewrite list_elem_of_In, in_map_iff in Hin. destruct Hin as (c & [= <- <-] & Hc).
      split; [exact Ht'|].
      rewrite <- list_elem_of_In, <- E, elem_of_filter_bool, Z.eqb_eq in Hc. exact Hc.
  - intros [Ht H]. exists t. split; [exact Ht|].
    destruct oc as [c|].
    + destruct H as [Hc Heq].
      assert (Hf : c ∈ List.filter (fun c => Z.eqb (c_ticket_id c) (t_id t)) cs)
        by (apply elem_of_filter_bool; split; [exact Hc | now apply Z.eqb_eq]).
      destruct (List.filter _ cs) as [|c0 m]; [now apply not_elem_of_nil in Hf|].
      rewrite list_elem_of_In. apply in_map_iff. exists c.
      split; [reflexivity | now apply list_elem_of_In].
    + destruct (List.filter (fun c => Z.eqb (c_ticket_id c) (t_id t)) cs) as [|c0 m] eqn:E.
      * apply list_elem_of_here.
      * exfalso. assert (Hf : c0 ∈ List.filter (fun c => Z.eqb (c_ticket_id c) (t_id t)) cs)
          by (rewrite E; apply list_elem_of_here).
        apply elem_of_filter_bool in Hf as [Hc Heq]. apply Z.eqb_eq in Heq.
        exact (H c0 Hc Heq).
Qed.

Lemma left_join_covers (ts : list Ticket) (cs : list Comment) (t : Ticket) :
  t ∈ ts -> exists oc, (t, oc) ∈ left_join ts cs.
Proof.
  intros Ht.
  destruct (List.filter (fun c => Z.eqb (c_ticket_id c) (t_id t)) cs) as [|c m] eqn:E.
  - exists None. apply elem_of_left_join. split; [exact Ht|].
    intros c Hc Heq.
    assert (Hf : c ∈ List.filter (fun c => Z.eqb (c_ticket_id c) (t_id t)) cs)
      by (apply elem_of_filter_bool; split; [exact Hc | now apply Z.eqb_eq]).
    rewrite E in Hf. now apply not_elem_of_nil in Hf.
  - exists (Some c). apply elem_of_left_join. split; [exact Ht|].
    assert (Hf : c ∈ List.filter (fun c => Z.eqb (c_ticket_id c) (t_id t)) cs)
      by (rewrite E; apply list_elem_of_here).
    apply elem_of_filter_bool in Hf as [Hc Heq]. now apply Z.eqb_eq in Heq.
Qed.

(** With a status filter that passes the validation, [search_tickets] runs
    its SELECT with the clause [search_clause]. *)
Lemma search_tickets_query (s : Store) (query : string) (project status : option string) :
  acceptable status VALID_STATUSES ->
  search_tickets s query project status
  = match sql_where (search_clause query project status)
            (left_join (tickets s) (comments s)) with
    | Some rows => Ok (order_by ticket_order (remove_dups (List.map fst rows)))
    | None => Raise (OperationalError pattern_too_complex)
    end.
Proof.
  intros Hst. unfold search_tickets.
  destruct (truthy_cases project) as [[Ep Pp] | (p & _ & Ep & _ & Pp)];
  destruct (truthy_cases status) as [[Es Ps] | (st & _ & Es & _ & Ps)];
  rewrite Ep, Es;
  try rewrite (acceptable_truthy _ _ _ Hst Es);
  cbn [bind negb];
  match goal with
  | |- match sql_where ?q _ with _ => _ end = _ =>
      rewrite (sql_where_ext q (search_clause query project status)); [reflexivity|]
  end;
  intros [t c]; unfold search_clause; cbn [fst snd]; rewrite Pp, Ps;
  destruct (or_term _ _) as [[]|];
  repeat match goal with
         | |- context [String.eqb ?a ?b] => destruct (String.eqb a b)
         end;
  reflexivity.
Qed.

(** A pattern within the limit is refused on no row. *)
Lemma search_clause_within (query : string) (project status : option string)
  (r : Ticket * option Comment) :
  Like.utf8_length query <= 49998 ->
  search_clause query project status r <> None.
Proof.
  intros Hlen. unfold search_clause, content_like.
  assert (Hpat : Like.utf8_length ("%" +:+ query +:+ "%")
                 <= Like.SQLITE_MAX_LIKE_PATTERN_LENGTH)
    by (rewrite query_pattern_length; unfold Like.SQLITE_MAX_LIKE_PATTERN_LENGTH; lia).
  rewrite !(sql_like_within _ _ Hpat).
  destruct (snd r) as [c|]; [rewrite (sql_like_within _ _ Hpat)|];
    cbn [option_map];
    repeat match goal with
           | |- context [Like.like ?a ?b] => destruct (Like.like a b)
           end;
    now destruct (_ && _).
Qed.

(** The clause on a joined row whose texts hold no NUL, for a literal
    query. *)
Lemma search_clause_literal (query : string) (project status : option string)
  (t : Ticket) (oc : option Comment) :
  literal_query query ->
  nul_free (t_title t) = true ->
  nul_free (t_description t) = true ->
  nul_free (t_tags t) = true ->
  (forall c, oc = Some c -> nul_free (c_content c) = true) ->
  search_clause query project status (t, oc)
  = Some ((contains (t_title t) query
           || contains (t_description t) query
           || contains (t_tags t) query
           || match oc with
              | Some c => contains (c_content c) query
              | None => false
              end)
          && (passes project (String.eqb (t_project t))
              && passes status (String.eqb (t_status t)))).
Proof.
  intros Hq H1 H2 H3 Hc. unfold search_clause, content_like. cbn [fst snd].
  rewrite (sql_like_contains _ _ Hq H1), (sql_like_contains _ _ Hq H2),
    (sql_like_contains _ _ Hq H3).
  destruct oc as [c|].
  - rewrite (sql_like_contains _ _ Hq (Hc c eq_refl)).
    now destruct (contains (t_title t) query), (contains (t_description t) query),
      (contains (t_tags t) query), (contains (c_content c) query), (_ && _).
  - rewrite (sql_like_contains "" _ Hq eq_refl). cbn [option_map].
    now destruct (contains (t_title t) query), (contains (t_description t) query),
      (contains (t_tags t) query), (_ && _).
Qed.

Lemma elem_of_search (s : Store) (query : string) (project status : option string)
  (t : Ticket) :
  t ∈ order_by ticket_order
        (remove_dups
           (List.map fst
              (List.filter (fun r => holds (search_clause query project status r))
                 (left_join (tickets s) (comments s)))))
  <-> exists oc, (t, oc) ∈ left_join (tickets s) (comments s)
                 /\ search_clause query project status (t, oc) = Some true.
Proof.
  rewrite order_by_elem_of, elem_of_remove_dups, list_elem_of_In, in_map_iff.
  setoid_rewrite <- list_elem_of_In. setoid_rewrite elem_of_filter_bool.
  split.
  - intros ([t' oc] & E & Hj & H). cbn [fst] in E. subst t'. exists oc.
    split; [exact Hj|]. now destruct (search_clause _ _ _ _) as [[]|].
  - intros (oc & Hj & H). exists (t, oc). now rewrite H.
Qed.

(** C3 (as amended).  For a literal query (no [%], [_] or NUL, at most 49998
    bytes) and a status filter that is absent, empty or valid,
    [search_tickets] returns a list without repetition, sorted by the row
    order of [list_tickets]; a ticket whose texts and comments hold no NUL is
    in it exactly when it passes the project and status filters given as
    non-empty strings and the query occurs, up to the case of ASCII letters,
    as a substring of its title, its description, its tags string or the
    content of one of its comments.  A filter given as the empty string is
    ignored like an absent one. *)
Theorem search_tickets_matches (s : Store) (query : string) (project status : option string) :
  literal_query query ->
  acceptable status VALID_STATUSES ->
  exists l,
    search_tickets s query project status = Ok l
    /\ NoDup l
    /\ StronglySorted ticket_order l
    /\ forall t,
         nul_free (t_title t) = true ->
         nul_free (t_description t) = true ->
         nul_free (t_tags t) = true ->
         (forall c, c ∈ comments s -> c_ticket_id c = t_id t ->
                    nul_free (c_content c) = true) ->
         (t ∈ l <->
          t ∈ tickets s
          /\ passes project (String.eqb (t_project t)) = true
          /\ passes status (String.eqb (t_status t)) = true
          /\ (contains (t_title t) query = true
              \/ contains (t_description t) query = true
              \/ contains (t_tags t) query = true
              \/ exists c, c ∈ comments s /\ c_ticket_id c = t_id t
                           /\ contains (c_content c) query = true)).
Proof.
  intros Hq Hst. rewrite (search_tickets_query _ _ _ _ Hst).
  rewrite sql_where_defined
    by (intros r _; apply search_clause_within; apply Hq).
  eexists. split; [reflexivity|].
  split; [rewrite order_by_perm; apply NoDup_remove_dups|].
  split; [apply order_by_sorted|].
  intros t H1 H2 H3 Hcs. rewrite elem_of_search.
  assert (Hval : forall oc,
             (t, oc) ∈ left_join (tickets s) (comments s) ->
             search_clause query project status (t, oc)
             = Some ((contains (t_title t) query
                      || contains (t_description t) query
                      || contains (t_tags t) query
                      || match oc with
                         | Some c => contains (c_content c) query
                         | None => false
                         end)
                     && (passes project (String.eqb (t_project t))
                         && passes status (String.eqb (t_status t))))).
  { intros oc Hj. apply search_clause_literal; try assumption.
    intros c ->. apply elem_of_left_join in Hj as [_ [Hc Hid]]. now apply Hcs. }
  split.
  - intros (oc & Hj & Hw). rewrite (Hval oc Hj) in Hw. injection Hw as Hw.
    apply elem_of_left_join in Hj as [Hin Hoc].
    rewrite !andb_true_iff, !orb_true_iff in Hw.
    destruct Hw as [Hm [Hp Hs]]. repeat split; try assumption.
    destruct Hm as [[[H | H] | H] | H]; [tauto | tauto | tauto |].
    right. right. right. destruct oc as [c|]; [|discriminate H].
    exists c. tauto.
  - intros (Hin & Hp & Hs & Hm).
    destruct Hm as [H | [H | [H | (c & Hc & Heq & H)]]].
    1-3: destruct (left_join_covers _ (comments s) _ Hin) as [oc Hj];
         exists oc; split; [exact Hj|]; rewrite (Hval oc Hj), Hp, Hs, H,
           ?orb_true_r; reflexivity.
    assert (Hj : (t, Some c) ∈ left_join (tickets s) (comments s))
      by (apply elem_of_left_join; tauto).
    exists (Some c). split; [exact Hj|].
    rewrite (Hval _ Hj), Hp, Hs, H, ?orb_true_r. reflexivity.
Qed.

Lemma literal_foo : literal_query "foo".
Proof. repeat split; vm_compute; congruence. Qed.

Lemma search_tickets_matches_witness :
  literal_query "foo"
  /\ acceptable (Some "closed") VALID_STATUSES
  /\ exists l,
       search_tickets Samples.four "foo" None (Some "closed") = Ok l
       /\ List.map t_id l = [3]
       /\ NoDup l
       /\ StronglySorted ticket_order l.
Proof.
  assert (H2 : acceptable (Some "closed") VALID_STATUSES) by (right; repeat constructor).
  split; [exact literal_foo|]. split; [exact H2|].
  destruct (search_tickets_matches Samples.four "foo" None (Some "closed") literal_foo H2)
    as (l & Hl & Hnd & Hsorted & _).
  exists l. split; [exact Hl|]. split; [|split; [exact Hnd | exact Hsorted]].
  vm_compute in Hl. now injection Hl as <-.
Defined.

(** C3 as stated fails: with the project filter given as the empty string
    the search for ["one"] returns the ticket of project ["/p"], which does
    not pass a project filter for the empty project. *)
Lemma search_tickets_counterexample :
  exists l t,
    search_tickets Samples.four "one" (Some "") None = Ok l
    /\ l = [t]
    /\ t_title t = "one"
    /\ t_project t = "/p"
    /\ t_project t <> "".
Proof.
  eexists. eexists. split; [vm_compute; reflexivity|].
  split; [reflexivity|]. repeat split. discriminate.
Qed.

(** ** [get_ticket] and the UPDATE statement *)

Lemma get_ticket_find (s : Store) (ticket_id : Z) :
  get_ticket s ticket_id
  = option_map (fun row => mkView row (get_comments s ticket_id))
      (List.find (fun t => Z.eqb (t_id t) ticket_id) (tickets s)).
Proof. unfold get_ticket, get_comments. now destruct (List.find _ _). Qed.

Lemma get_ticket_Some (s : Store) (ticket_id : Z) (v : TicketView) :
  get_ticket s ticket_id = Some v ->
  List.find (fun t => Z.eqb (t_id t) ticket_id) (tickets s) = Some (tv_ticket v)
  /\ tv_ticket v ∈ tickets s
  /\ t_id (tv_ticket v) = ticket_id
  /\ tv_comments v = get_comments s ticket_id.
Proof.
  rewrite get_ticket_find.
  destruct (List.find _ _) as [row|] eqn:E; [|discriminate].
  intros [= <-]. cbn [tv_ticket tv_comments].
  apply find_some in E as H. destruct H as [Hin Hid].
  repeat split; [now apply list_elem_of_In | now apply Z.eqb_eq].
Qed.

Lemma get_ticket_None (s : Store) (ticket_id : Z) :
  get_ticket s ticket_id = None <-> forall t, t ∈ tickets s -> t_id t <> ticket_id.
Proof.
  rewrite get_ticket_find. split.
  - destruct (List.find _ _) eqn:E; [discriminate|]. intros _ t Ht.
    apply list_elem_of_In in Ht. apply (find_none _ _ E) in Ht. now apply Z.eqb_neq.
  - intros H. destruct (List.find _ _) as [row|] eqn:E; [|reflexivity].
    apply find_some in E as [Hin Hid]. apply Z.eqb_eq in Hid.
    now apply list_elem_of_In, H in Hin.
Qed.

Lemma assign_keeps (t : Ticket) (a : column * string) :
  t_id (assign t a) = t_id t
  /\ t_project (assign t a) = t_project t
  /\ t_created_at (assign t a) = t_created_at t.
Proof. destruct a as [[] v]; repeat split. Qed.

Lemma fold_assign_keeps (updates : list (column * string)) (t : Ticket) :
  t_id (fold_left assign updates t) = t_id t
  /\ t_project (fold_left assign updates t) = t_project t
  /\ t_created_at (fold_left assign updates t) = t_created_at t.
Proof.
  revert t. induction updates as [|a u IH]; intros t; [repeat split|].
  cbn [fold_left]. destruct (IH (assign t a)) as (-> & -> & ->). apply assign_keeps.
Qed.

Lemma find_sql_update (updates : list (column * string)) (ticket_id j : Z)
  (rows : list Ticket) :
  List.find (fun t => Z.eqb (t_id t) j) (sql_update updates ticket_id rows)
  = option_map
      (fun t => if Z.eqb (t_id t) ticket_id then fold_left assign updates t else t)
      (List.find (fun t => Z.eqb (t_id t) j) rows).
Proof.
  induction rows as [|r rows IH]; [reflexivity|].
  cbn [sql_update List.map List.find]. fold (sql_update updates ticket_id rows).
  assert (E : t_id (if Z.eqb (t_id r) ticket_id then fold_left assign updates r else r)
              = t_id r)
    by (destruct (Z.eqb (t_id r) ticket_id); [apply fold_assign_keeps | reflexivity]).
  rewrite E. destruct (Z.eqb (t_id r) j); [reflexivity | exact IH].
Qed.

(** The updated row is what [get_ticket] then finds; the comments are the
    same. *)
Lemma get_ticket_updated (s : Store) (updates : list (column * string)) (ticket_id : Z)
  (existing : TicketView) :
  get_ticket s ticket_id = Some existing ->
  get_ticket
    (mkStore (sql_update updates ticket_id (tickets s)) (tickets_seq s)
       (comments s) (comments_seq s)) ticket_id
  = Some (mkView (fold_left assign updates (tv_ticket existing)) (tv_comments existing)).
Proof.
  intros H. apply get_ticket_Some in H as (Hf & _ & Hid & Hc).
  rewrite get_ticket_find. cbn [tickets]. rewrite find_sql_update, Hf.
  cbn [option_map]. rewrite Hid, Z.eqb_refl, Hc. reflexivity.
Qed.

Lemma get_ticket_not_updated (s : Store) (updates : list (column * string))
  (ticket_id j : Z) (cs : list Comment) (cseq : Z) :
  j <> ticket_id ->
  get_ticket (mkStore (sql_update updates ticket_id (tickets s)) (tickets_seq s) cs cseq) j
  = get_ticket (mkStore (tickets s) (tickets_seq s) cs cseq) j.
Proof.
  intros Hne. rewrite !get_ticket_find. cbn [tickets]. rewrite find_sql_update.
  unfold get_comments. cbn [comments].
  destruct (List.find _ (tickets s)) as [row|] eqn:E; [|reflexivity].
  apply find_some in E as [_ Hid]. apply Z.eqb_eq in Hid.
  cbn [option_map]. rewrite Hid. apply Z.eqb_neq in Hne. now rewrite Hne.
Qed.

Lemma collect_updates_valid (title description status priority tags : option string) :
  (forall v, status = Some v -> v ∈ VALID_STATUSES) ->
  (forall v, priority = Some v -> v ∈ VALID_PRIORITIES) ->
  collect_updates title description status priority tags
  = Ok (set_list title description status priority tags).
Proof.
  intros Hst Hpr. unfold collect_updates, set_list.
  destruct status as [st|]; [rewrite (proj2 (py_in_elem_of st _) (Hst st eq_refl))|];
  (destruct priority as [pr|]; [rewrite (proj2 (py_in_elem_of pr _) (Hpr pr eq_refl))|]);
  destruct title, description, tags; reflexivity.
Qed.

Lemma collect_updates_invalid (title description status priority tags : option string) :
  (exists st, status = Some st /\ st ∉ VALID_STATUSES)
  \/ (exists pr, priority = Some pr /\ pr ∉ VALID_PRIORITIES) ->
  exists f v, collect_updates title description status priority tags
              = Raise (ValueError f v).
Proof.
  unfold collect_updates.
  intros [(st & -> & Hst) | (pr & -> & Hpr)].
  - rewrite (py_in_not_elem_of _ _ Hst). now exists Status, st.
  - rewrite (py_in_not_elem_of _ _ Hpr).
    destruct status as [st|]; [destruct (py_in st VALID_STATUSES)|]; cbn [negb bind].
    + now exists Priority, pr.
    + now exists Status, st.
    + now exists Priority, pr.
Qed.

(** ** [update_ticket] *)

(** C4.  On an existing ticket and with arguments that pass validation,
    [update_ticket] returns the stored ticket in which every provided field
    has the provided value and every omitted field, the id, the project and
    [created_at] have their prior values; comments and all other tickets
    stay as they were.  With no field provided the store and the ticket,
    [updated_at] included, are unchanged; with at least one field provided
    [updated_at] becomes the current time. *)
Theorem update_ticket_frame (now : string) (ticket_id : Z)
  (title description status priority tags : option string) (s : Store)
  (existing : TicketView) :
  get_ticket s ticket_id = Some existing ->
  (forall v, status = Some v -> v ∈ VALID_STATUSES) ->
  (forall v, priority = Some v -> v ∈ VALID_PRIORITIES) ->
  exists s' updated,
    update_ticket now ticket_id title description status priority tags s
    = (s', Ok (Some updated))
    /\ get_ticket s' ticket_id = Some updated
    /\ t_id (tv_ticket updated) = t_id (tv_ticket existing)
    /\ t_project (tv_ticket updated) = t_project (tv_ticket existing)
    /\ t_created_at (tv_ticket updated) = t_created_at (tv_ticket existing)
    /\ t_title (tv_ticket updated) = default (t_title (tv_ticket existing)) title
    /\ t_description (tv_ticket updated)
       = default (t_description (tv_ticket existing)) description
    /\ t_status (tv_ticket updated) = default (t_status (tv_ticket existing)) status
    /\ t_priority (tv_ticket updated) = default (t_priority (tv_ticket existing)) priority
    /\ t_tags (tv_ticket updated) = default (t_tags (tv_ticket existing)) tags
    /\ tv_comments updated = tv_comments existing
    /\ comments s' = comments s
    /\ (forall j, j <> ticket_id -> get_ticket s' j = get_ticket s j)
    /\ ((title, description, status, priority, tags) = (None, None, None, None, None) ->
        s' = s /\ updated = existing)
    /\ ((title, description, status, priority, tags) <> (None, None, None, None, None) ->
        t_updated_at (tv_ticket updated) = now).
Proof.
  intros Hget Hst Hpr. unfold update_ticket.
  rewrite Hget, (collect_updates_valid _ _ _ _ _ Hst Hpr).
  destruct (set_list title description status priority tags) as [|a u] eqn:E.
  - assert (Hnone : (title, description, status, priority, tags)
                    = (None, None, None, None, None))
      by (destruct title, description, status, priority, tags; try discriminate E;
          reflexivity).
    injection Hnone as -> -> -> -> ->.
    exists s, existing. split; [reflexivity|]. split; [exact Hget|].
    repeat split; congruence.
  - assert (Hne : set_list title description status priority tags <> [])
      by (rewrite E; discriminate).
    rewrite <- E. clear a u E.
    pose proof (get_ticket_updated s
                  (set_list title description status priority tags ++ [(UpdatedAt, now)])
                  ticket_id existing Hget) as Hnew.
    rewrite Hnew. eexists. eexists. split; [reflexivity|].
    split; [exact Hnew|]. cbn [tv_ticket tv_comments comments].
    destruct existing as [t cs]. cbn [tv_ticket tv_comments] in *.
    split; [apply fold_assign_keeps|]. split; [apply fold_assign_keeps|].
    split; [apply fold_assign_keeps|].
    split; [destruct title, description, status, priority, tags; reflexivity|].
    split; [destruct title, description, status, priority, tags; reflexivity|].
    split; [destruct title, description, status, priority, tags; reflexivity|].
    split; [destruct title, description, status, priority, tags; reflexivity|].
    split; [destruct title, description, status, priority, tags; reflexivity|].
    split; [reflexivity|]. split; [reflexivity|].
    split.
    { intros j Hj. rewrite get_ticket_not_updated by exact Hj. now destruct s. }
    split.
    { intros [= -> -> -> -> ->]. now contradiction Hne. }
    intros _. destruct title, description, status, priority, tags; reflexivity.
Qed.

Lemma update_ticket_frame_witness :
  exists existing,
    get_ticket Samples.four 3 = Some existing
    /\ exists s' updated,
         update_ticket "2024-02-01T08:00:00" 3 None None (Some "in_progress") None
           (Some "bug") Samples.four
         = (s', Ok (Some updated))
         /\ t_status (tv_ticket updated) = "in_progress"
         /\ t_tags (tv_ticket updated) = "bug"
         /\ t_title (tv_ticket updated) = "three"
         /\ t_created_at (tv_ticket updated) = "2024-01-01T10:00:02"
         /\ t_updated_at (tv_ticket updated) = "2024-02-01T08:00:00".
Proof.
  eexists. split; [vm_compute; reflexivity|].
  destruct (update_ticket_frame "2024-02-01T08:00:00" 3 None None (Some "in_progress")
              None (Some "bug") Samples.four _ eq_refl)
    as (s' & updated & Hrun & _ & _ & _ & Hcr & Hti & _ & Hst & _ & Htg & _ & _ & _ & _ & Hup).
  - intros v [= <-]. repeat constructor.
  - intros v [=].
  - exists s', updated. split; [exact Hrun|].
    split; [exact Hst|]. split; [exact Htg|]. split; [exact Hti|].
    split; [exact Hcr|]. apply Hup. discriminate.
Defined.

(** C10.  For an id without a ticket, [update_ticket] returns not-found and
    raises nothing, whatever the other arguments are: the existence check
    comes before the validation of status and priority. *)
Theorem update_ticket_missing (now : string) (ticket_id : Z)
  (title description status priority tags : option string) (s : Store) :
  get_ticket s ticket_id = None ->
  update_ticket now ticket_id title description status priority tags s = (s, Ok None).
Proof. intros H. unfold update_ticket. now rewrite H. Qed.

Lemma update_ticket_missing_witness :
  get_ticket Samples.four 999999 = None
  /\ ("bogus" ∉ VALID_STATUSES)
  /\ ("urgent" ∉ VALID_PRIORITIES)
  /\ update_ticket "2024-02-01T08:00:00" 999999 None None (Some "bogus") (Some "urgent")
       None Samples.four
     = (Samples.four, Ok None).
Proof.
  assert (H : get_ticket Samples.four 999999 = None) by reflexivity.
  split; [exact H|].
  split; [intros E; apply py_in_elem_of in E; discriminate E|].
  split; [intros E; apply py_in_elem_of in E; discriminate E|].
  exact (update_ticket_missing "2024-02-01T08:00:00" 999999 None None (Some "bogus")
           (Some "urgent") None Samples.four H).
Defined.

(** ** Validation failures write nothing *)

(** C5.  [create_ticket] with a priority outside the enumerated set, and
    [update_ticket] on an existing ticket with a status or a priority outside
    its enumerated set, raise a ValueError and leave the store exactly as it
    was. *)
Theorem invalid_value_writes_nothing (now : string) (s : Store) :
  (forall project title description priority tags,
     priority ∉ VALID_PRIORITIES ->
     create_ticket now project title description priority tags s
     = (s, Raise (ValueError Priority priority)))
  /\ (forall ticket_id title description status priority tags,
        is_Some (get_ticket s ticket_id) ->
        (exists st, status = Some st /\ st ∉ VALID_STATUSES)
        \/ (exists pr, priority = Some pr /\ pr ∉ VALID_PRIORITIES) ->
        exists f v,
          update_ticket now ticket_id title description status priority tags s
          = (s, Raise (ValueError f v))).
Proof.
  split.
  - intros project title description priority tags Hout. unfold create_ticket.
    now rewrite (py_in_not_elem_of _ _ Hout).
  - intros ticket_id title description status priority tags [existing Hget] Hbad.
    destruct (collect_updates_invalid title description status priority tags Hbad)
      as (f & v & E).
    exists f, v. unfold update_ticket. now rewrite Hget, E.
Qed.

Lemma invalid_value_writes_nothing_witness :
  ("urgent" ∉ VALID_PRIORITIES)
  /\ create_ticket "2024-02-01T08:00:00" "/p" "T" "D" "urgent" "" Samples.four
     = (Samples.four, Raise (ValueError Priority "urgent"))
  /\ is_Some (get_ticket Samples.four 1)
  /\ exists f v,
       update_ticket "2024-02-01T08:00:00" 1 (Some "renamed") None (Some "done") None None
         Samples.four
       = (Samples.four, Raise (ValueError f v)).
Proof.
  assert (H1 : "urgent" ∉ VALID_PRIORITIES)
    by (intros E; apply py_in_elem_of in E; discriminate E).
  assert (H2 : is_Some (get_ticket Samples.four 1)) by (eexists; reflexivity).
  assert (H3 : "done" ∉ VALID_STATUSES)
    by (intros E; apply py_in_elem_of in E; discriminate E).
  split; [exact H1|].
  split; [exact (proj1 (invalid_value_writes_nothing "2024-02-01T08:00:00" Samples.four)
                   "/p" "T" "D" "urgent" "" H1)|].
  split; [exact H2|].
  apply (proj2 (invalid_value_writes_nothing "2024-02-01T08:00:00" Samples.four)
           1 (Some "renamed") None (Some "done") None None H2).
  left. exists "done". split; [reflexivity | exact H3].
Defined.

(** ** [delete_ticket] *)

(** [cursor.rowcount > 0] after the DELETE on [tickets]. *)
Lemma rowcount_positive {A} (f : A -> bool) (l : list A) :
  Nat.ltb 0 (length l - length (List.filter (fun x => negb (f x)) l)) = true
  <-> is_Some (List.find f l).
Proof.
  induction l as [|x l IH]; cbn [List.filter List.find length].
  - split; [discriminate | intros [? [=]]].
  - pose proof (filter_length_le (fun x => negb (f x)) l) as Hle.
    destruct (f x); cbn [negb length].
    + split; [intros _; now eexists | intros _; apply Nat.ltb_lt; lia].
    + exact IH.
Qed.

(** C7.  [delete_ticket] returns true exactly when a ticket with the id
    existed; afterwards no ticket with the id and no comment of it remains,
    [get_ticket] finds nothing and [get_comments] is empty, while all other
    tickets and comments are kept. *)
Theorem delete_ticket_cascades (ticket_id : Z) (s : Store) :
  let s' := fst (delete_ticket ticket_id s) in
  let deleted := snd (delete_ticket ticket_id s) in
  (deleted = true <-> is_Some (get_ticket s ticket_id))
  /\ (forall t, t ∈ tickets s' <-> t ∈ tickets s /\ t_id t <> ticket_id)
  /\ (forall c, c ∈ comments s' <-> c ∈ comments s /\ c_ticket_id c <> ticket_id)
  /\ get_ticket s' ticket_id = None
  /\ get_comments s' ticket_id = [].
Proof.
  cbn [delete_ticket fst snd].
  assert (Ht : forall t,
             t ∈ List.filter (fun t => negb (Z.eqb (t_id t) ticket_id)) (tickets s)
             <-> t ∈ tickets s /\ t_id t <> ticket_id)
    by (intros t; now rewrite elem_of_filter_bool, negb_true_iff, Z.eqb_neq).
  assert (Hc : forall c,
             c ∈ List.filter (fun c => negb (Z.eqb (c_ticket_id c) ticket_id)) (comments s)
             <-> c ∈ comments s /\ c_ticket_id c <> ticket_id)
    by (intros c; now rewrite elem_of_filter_bool, negb_true_iff, Z.eqb_neq).
  split.
  { rewrite rowcount_positive, get_ticket_find.
    destruct (List.find _ (tickets s)); split; intros [? [=]]; now eexists. }
  split; [exact Ht|]. split; [exact Hc|].
  split.
  - apply get_ticket_None. cbn [tickets]. intros t Hin. now apply Ht in Hin.
  - unfold get_comments. cbn [comments].
    assert (E : List.filter (fun c => Z.eqb (c_ticket_id c) ticket_id)
                  (List.filter (fun c => negb (Z.eqb (c_ticket_id c) ticket_id)) (comments s))
                = []).
    { clear Hc. induction (comments s) as [|c cs IH]; [reflexivity|].
      cbn [List.filter]. destruct (Z.eqb (c_ticket_id c) ticket_id) eqn:Ec; cbn [negb].
      - exact IH.
      - cbn [List.filter]. now rewrite Ec. }
    rewrite E. reflexivity.
Qed.

(** ** [add_comment] *)

Lemma next_rowid_above (seq : Z) (rowids : list Z) :
  seq < next_rowid seq rowids /\ forall i, i ∈ rowids -> i < next_rowid seq rowids.
Proof.
  unfold next_rowid. induction rowids as [|x l [IH1 IH2]]; cbn [fold_right].
  - split; [lia|]. intros i Hi. now apply not_elem_of_nil in Hi.
  - split; [lia|]. intros i Hi. apply elem_of_cons in Hi as [-> | Hi]; [lia|].
    specialize (IH2 i Hi). lia.
Qed.

(** C6.  [add_comment] for an id without a ticket returns not-found and
    leaves the store, its comments included, as it was.  For an existing
    ticket it returns the new comment, stored as the last row of the table
    under a fresh id, and the ticket then carries it and has [updated_at]
    set to the current time. *)
Theorem add_comment_requires_ticket (now : string) (ticket_id : Z)
  (author content : string) (s : Store) :
  (get_ticket s ticket_id = None ->
   add_comment now ticket_id author content s = (s, None))
  /\ (forall existing,
        get_ticket s ticket_id = Some existing ->
        exists s' row,
          add_comment now ticket_id author content s = (s', Some row)
          /\ c_ticket_id row = ticket_id
          /\ c_author row = author
          /\ c_content row = content
          /\ c_created_at row = now
          /\ (forall c, c ∈ comments s -> c_id c < c_id row)
          /\ comments s' = comments s ++ [row]
          /\ exists updated,
               get_ticket s' ticket_id = Some updated
               /\ t_updated_at (tv_ticket updated) = now
               /\ row ∈ tv_comments updated).
Proof.
  split.
  - intros H. unfold add_comment. now rewrite H.
  - intros existing Hget. unfold add_comment. rewrite Hget.
    eexists. eexists. split; [reflexivity|]. cbn [c_ticket_id c_author c_content c_created_at c_id comments].
    repeat (split; [reflexivity|]).
    split.
    { intros c Hc. apply next_rowid_above, list_elem_of_In, in_map, list_elem_of_In, Hc. }
    split; [reflexivity|].
    apply get_ticket_Some in Hget as (Hf & _ & Hid & _).
    rewrite get_ticket_find. cbn [tickets]. rewrite find_sql_update, Hf.
    cbn [option_map]. rewrite Hid, Z.eqb_refl.
    eexists. split; [reflexivity|]. cbn [tv_ticket tv_comments fold_left assign t_updated_at].
    split; [reflexivity|].
    unfold get_comments. rewrite order_by_elem_of. cbn [comments].
    apply elem_of_filter_bool. split.
    + apply elem_of_app. right. apply list_elem_of_here.
    + cbn [c_ticket_id]. apply Z.eqb_refl.
Qed.

Lemma add_comment_requires_ticket_witness :
  get_ticket Samples.four 7 = None
  /\ add_comment "2024-02-01T08:00:00" 7 "user" "note" Samples.four = (Samples.four, None)
  /\ is_Some (get_ticket Samples.four 1)
  /\ exists s' row,
       add_comment "2024-02-01T08:00:00" 1 "user" "note" Samples.four = (s', Some row)
       /\ c_id row = 3
       /\ exists updated,
            get_ticket s' 1 = Some updated
            /\ t_updated_at (tv_ticket updated) = "2024-02-01T08:00:00"
            /\ row ∈ tv_comments updated.
Proof.
  assert (H1 : get_ticket Samples.four 7 = None) by reflexivity.
  split; [exact H1|].
  split; [exact (proj1 (add_comment_requires_ticket "2024-02-01T08:00:00" 7 "user" "note"
                          Samples.four) H1)|].
  split; [eexists; reflexivity|].
  destruct (proj2 (add_comment_requires_ticket "2024-02-01T08:00:00" 1 "user" "note"
                     Samples.four) _ eq_refl)
    as (s' & row & Hrun & _ & _ & _ & _ & _ & _ & Hup).
  exists s', row. split; [exact Hrun|].
  split; [|exact Hup].
  vm_compute in Hrun. now injection Hrun as _ <-.
Defined.

(** The end-to-end run of the specification: create, comment, delete. *)
Example end_to_end :
  let '(s1, r1) := create_ticket "2024-01-01T10:00:00" "/p" "T" "D" "medium" "" init_db in
  let '(s2, r2) := add_comment "2024-01-01T10:05:00" 1 "user" "note" s1 in
  let '(s3, r3) := delete_ticket 1 s2 in
  r1 = Ok (Some (mkView (mkTicket 1 "/p" "T" "D" "pending" "medium" ""
                           "2024-01-01T10:00:00" "2024-01-01T10:00:00") []))
  /\ r2 = Some (mkComment 1 1 "user" "note" "2024-01-01T10:05:00")
  /\ (t_updated_at ∘ tv_ticket <$> get_ticket s2 1) = Some "2024-01-01T10:05:00"
  /\ r3 = true
  /\ get_ticket s3 1 = None
  /\ get_comments s3 1 = []
  /\ add_comment "2024-01-01T10:06:00" 1 "user" "late" s3 = (s3, None).
Proof. vm_compute. repeat split. Qed.

(** ** [create_ticket] over the lifetime of a store *)

Lemma find_app_fresh {A} (f : A -> bool) (l : list A) (x : A) :
  (forall y, y ∈ l -> f y = false) -> f x = true -> List.find f (l ++ [x]) = Some x.
Proof.
  intros Hl Hx. induction l as [|y l IH]; cbn [app List.find].
  - now rewrite Hx.
  - rewrite (Hl y) by apply list_elem_of_here.
    apply IH. intros z Hz. apply Hl. now apply list_elem_of_further.
Qed.

Lemma create_ticket_valid (now project title description priority tags : string) (s : Store) :
  priority ∈ VALID_PRIORITIES ->
  let ticket_id := next_rowid (tickets_seq s) (List.map t_id (tickets s)) in
  let row := mkTicket ticket_id project title description "pending" priority tags now now in
  let s' := mkStore (tickets s ++ [row]) ticket_id (comments s) (comments_seq s) in
  create_ticket now project title description priority tags s
  = (s', Ok (Some (mkView row (get_comments s' ticket_id)))).
Proof.
  intros Hin. cbn zeta. unfold create_ticket.
  apply py_in_elem_of in Hin. rewrite Hin. cbn [negb].
  rewrite get_ticket_find. cbn [tickets].
  rewrite find_app_fresh; [reflexivity | | apply Z.eqb_refl].
  intros y Hy. apply Z.eqb_neq.
  assert (t_id y < next_rowid (tickets_seq s) (List.map t_id (tickets s))); [|lia].
  apply next_rowid_above, list_elem_of_In, in_map, list_elem_of_In, Hy.
Qed.

(** The AUTOINCREMENT counter never decreases, and an id that
    [create_ticket] returns is the value it then has. *)
Lemma step_seq (c : call) (s : Store) :
  tickets_seq s <= tickets_seq (fst (step c s))
  /\ forall i, snd (step c s) = Some i -> i = tickets_seq (fst (step c s)).
Proof.
  destruct c as [now project title description priority tags
                | now ticket_id title description status priority tags
                | ticket_id
                | now ticket_id author content]; cbn [step].
  - unfold create_ticket.
    destruct (py_in priority VALID_PRIORITIES); cbn [negb fst snd].
    + split; [cbn [tickets_seq]; pose proof (next_rowid_above (tickets_seq s)
                                              (List.map t_id (tickets s))); lia|].
      intros i. destruct (get_ticket _ _) as [v|] eqn:E; [|discriminate].
      intros [= <-]. now apply get_ticket_Some in E as (_ & _ & -> & _).
    + split; [lia | discriminate].
  - split; [|discriminate]. cbn [fst]. unfold update_ticket.
    destruct (get_ticket s ticket_id); [|reflexivity].
    destruct (collect_updates _ _ _ _ _) as [[|a u]|e]; cbn [fst tickets_seq]; lia.
  - split; [cbn; lia | discriminate].
  - split; [|discriminate]. cbn [fst]. unfold add_comment.
    destruct (get_ticket s ticket_id); cbn [fst tickets_seq]; lia.
Qed.

Lemma run_seq (history : list call) (s : Store) (ids : list Z) :
  (forall i, i ∈ ids -> i <= tickets_seq s) ->
  forall i, i ∈ snd (run history s ids) -> i <= tickets_seq (fst (run history s ids)).
Proof.
  revert s ids. induction history as [|c rest IH]; intros s ids Hinv; [exact Hinv|].
  cbn [run]. destruct (step_seq c s) as [Hle Hid].
  destruct (step c s) as [s' r]. cbn [fst snd] in *.
  apply IH. destruct r as [j|].
  - intros i Hi. apply elem_of_app in Hi as [Hi | Hi].
    + specialize (Hinv i Hi). lia.
    + apply list_elem_of_singleton in Hi. subst i. rewrite (Hid j eq_refl). lia.
  - intros i Hi. specialize (Hinv i Hi). lia.
Qed.

(** C8.  After any history of calls on a fresh store, a [create_ticket] with
    a valid priority returns a ticket, stored under its id, whose status is
    pending, whose [created_at] and [updated_at] both are the current time,
    and whose id is greater than the id of every ticket in the table and of
    every ticket that [create_ticket] returned before. *)
Theorem create_ticket_fresh_id (history : list call)
  (now project title description priority tags : string) :
  priority ∈ VALID_PRIORITIES ->
  let s := fst (run history init_db []) in
  let earlier := snd (run history init_db []) in
  exists s' v,
    create_ticket now project title description priority tags s = (s', Ok (Some v))
    /\ get_ticket s' (t_id (tv_ticket v)) = Some v
    /\ t_status (tv_ticket v) = "pending"
    /\ t_created_at (tv_ticket v) = t_updated_at (tv_ticket v)
    /\ t_created_at (tv_ticket v) = now
    /\ (forall i, i ∈ earlier -> i < t_id (tv_ticket v))
    /\ (forall t, t ∈ tickets s -> t_id t < t_id (tv_ticket v)).
Proof.
  intros Hin s earlier.
  pose proof (create_ticket_valid now project title description priority tags s Hin) as Hrun.
  cbn zeta in Hrun. eexists. eexists. split; [exact Hrun|].
  cbn [tv_ticket t_id t_status t_created_at t_updated_at].
  split.
  { unfold create_ticket in Hrun. apply py_in_elem_of in Hin. rewrite Hin in Hrun.
    cbn [negb] in Hrun. now injection Hrun as ->. }
  split; [reflexivity|]. split; [reflexivity|]. split; [reflexivity|].
  pose proof (next_rowid_above (tickets_seq s) (List.map t_id (tickets s))) as [Hseq Hrows].
  split.
  - intros i Hi.
    assert (i <= tickets_seq s); [|lia].
    apply (run_seq history init_db []); [|exact Hi].
    intros j Hj. now apply not_elem_of_nil in Hj.
  - intros t Ht. apply Hrows, list_elem_of_In, in_map, list_elem_of_In, Ht.
Qed.

Lemma create_ticket_fresh_id_witness :
  ("high" ∈ VALID_PRIORITIES)
  /\ exists s' v,
       create_ticket "2024-03-01T00:00:00" "/p" "second" "D" "high" ""
         (fst (run [CreateTicket "2024-01-01T00:00:00" "/p" "first" "D" "medium" "";
                    DeleteTicket 1] init_db []))
       = (s', Ok (Some v))
       /\ t_id (tv_ticket v) = 2
       /\ t_status (tv_ticket v) = "pending"
       /\ t_created_at (tv_ticket v) = t_updated_at (tv_ticket v)
       /\ forall i,
            i ∈ snd (run [CreateTicket "2024-01-01T00:00:00" "/p" "first" "D" "medium" "";
                          DeleteTicket 1] init_db [])
            -> i < t_id (tv_ticket v).
Proof.
  assert (H : "high" ∈ VALID_PRIORITIES) by (repeat constructor).
  split; [exact H|].
  destruct (create_ticket_fresh_id
              [CreateTicket "2024-01-01T00:00:00" "/p" "first" "D" "medium" "";
               DeleteTicket 1]
              "2024-03-01T00:00:00" "/p" "second" "D" "high" "" H)
    as (s' & v & Hrun & _ & Hst & Heq & _ & Hlt & _).
  exists s', v. split; [exact Hrun|].
  split; [|split; [exact Hst | split; [exact Heq | exact Hlt]]].
  vm_compute in Hrun. now injection Hrun as _ <-.
Defined.

(** * Further properties of the store *)

(** ** Comments of a ticket *)

Global Instance comment_order_total : Total comment_order.
Proof. intros a b. unfold comment_order. apply (total String.le). Qed.

Global Instance comment_order_trans : Transitive comment_order.
Proof. intros a b c. unfold comment_order. apply transitivity. Qed.

(** X1.  [get_comments] returns exactly the comments whose [ticket_id] is the
    id asked for, each as often as the table holds it, oldest first; it does
    so whether or not the ticket exists.  The ["comments"] of the ticket
    that [get_ticket] returns are that same list. *)
Theorem get_comments_sorted (s : Store) (ticket_id : Z) :
  StronglySorted comment_order (get_comments s ticket_id)
  /\ get_comments s ticket_id
     ≡ₚ List.filter (fun c => Z.eqb (c_ticket_id c) ticket_id) (comments s)
  /\ (forall c, c ∈ get_comments s ticket_id
                <-> c ∈ comments s /\ c_ticket_id c = ticket_id)
  /\ (forall v, get_ticket s ticket_id = Some v ->
                tv_comments v = get_comments s ticket_id).
Proof.
  split; [apply StronglySorted_merge_sort; apply _|].
  split; [apply order_by_perm|].
  split.
  - intros c. unfold get_comments.
    now rewrite order_by_elem_of, elem_of_filter_bool, Z.eqb_eq.
  - intros v Hv. now apply get_ticket_Some in Hv.
Qed.

Lemma get_comments_sorted_witness :
  exists v,
    get_ticket Samples.four 3 = Some v
    /\ tv_comments v = get_comments Samples.four 3
    /\ List.map c_id (tv_comments v) = [1; 2].
Proof.
  eexists. split; [vm_compute; reflexivity|].
  split; [|reflexivity].
  exact (proj2 (proj2 (proj2 (get_comments_sorted Samples.four 3))) _ eq_refl).
Defined.

(** ** More on [search_tickets] *)

Lemma sql_where_elem_of {R} (q : R -> option bool) (rows found : list R) (r : R) :
  sql_where q rows = Some found ->
  (r ∈ found <-> r ∈ rows /\ q r = Some true).
Proof.
  revert found. induction rows as [|x rows IH]; intros found.
  - intros [= <-]. split; [intros H | intros [H _]]; now apply not_elem_of_nil in H.
  - cbn [sql_where]. destruct (q x) as [b|] eqn:Ex; [|discriminate].
    destruct (sql_where q rows) as [rest|]; [|discriminate].
    intros [= <-]. specialize (IH rest eq_refl).
    destruct b; rewrite ?elem_of_cons, IH; split.
    + intros [-> | H]; [split; [now left | exact Ex] | split; [now right | apply H]].
    + intros [[-> | H] Hq]; [now left | right; tauto].
    + intros H. split; [now right | apply H].
    + intros [[-> | H] Hq]; [congruence | tauto].
Qed.

(** What [search_tickets] answers on a row when the pattern is refused. *)
Lemma search_clause_refused (query : string) (project status : option string)
  (r : Ticket * option Comment) :
  49998 < Like.utf8_length query ->
  search_clause query project status r
  = if passes project (String.eqb (t_project (fst r)))
       && passes status (String.eqb (t_status (fst r)))
    then None else Some false.
Proof.
  intros Hlen. unfold search_clause.
  assert (Hpat : Like.SQLITE_MAX_LIKE_PATTERN_LENGTH
                 < Like.utf8_length ("%" +:+ query +:+ "%"))
    by (rewrite query_pattern_length; unfold Like.SQLITE_MAX_LIKE_PATTERN_LENGTH; lia).
  rewrite (sql_like_refused _ _ Hpat). cbn [or_term and_term].
  now destruct (_ && _).
Qed.

Lemma left_join_first (ts : list Ticket) (cs : list Comment) (t : Ticket) :
  t ∈ ts <-> exists oc, (t, oc) ∈ left_join ts cs.
Proof.
  split.
  - apply left_join_covers.
  - intros [oc H]. now apply elem_of_left_join in H as [H _].
Qed.

(** X2.  [search_tickets] has three outcomes.  A status filter that is a
    non-empty string outside the enumerated statuses raises the ValueError
    for that status, whatever the query and the project.  Otherwise a query
    of at most 49998 bytes of UTF-8 returns a list; and a longer query makes
    SQLite refuse the LIKE pattern, so the call raises the OperationalError
    "LIKE or GLOB pattern too complex" when some ticket passes the project
    and status filters, and returns the empty list when none does. *)
Theorem search_tickets_outcomes (s : Store) (query : string)
  (project status : option string) :
  (forall st, status = Some st -> st <> "" -> st ∉ VALID_STATUSES ->
     search_tickets s query project status = Raise (Invalid (ValueError Status st)))
  /\ (acceptable status VALID_STATUSES ->
      Like.utf8_length query <= 49998 ->
      exists l, search_tickets s query project status = Ok l)
  /\ (acceptable status VALID_STATUSES ->
      49998 < Like.utf8_length query ->
      search_tickets s query project status
      = if existsb (fun t => passes project (String.eqb (t_project t))
                             && passes status (String.eqb (t_status t)))
             (tickets s)
        then Raise (OperationalError pattern_too_complex)
        else Ok []).
Proof.
  split; [|split].
  - intros st -> Hne Hout. unfold search_tickets.
    destruct st as [|c st]; [congruence|]. cbn [truthy].
    rewrite (py_in_not_elem_of _ _ Hout).
    now destruct (truthy project).
  - intros Hst Hlen. rewrite (search_tickets_query _ _ _ _ Hst).
    rewrite sql_where_defined
      by (intros r _; now apply search_clause_within).
    eexists. reflexivity.
  - intros Hst Hlen. rewrite (search_tickets_query _ _ _ _ Hst).
    destruct (existsb _ (tickets s)) eqn:Ex.
    + apply existsb_exists in Ex as (t & Hin & Ht).
      apply list_elem_of_In in Hin.
      destruct (left_join_covers _ (comments s) _ Hin) as [oc Hj].
      rewrite (sql_where_refused _ _ (t, oc) Hj); [reflexivity|].
      rewrite (search_clause_refused _ _ _ _ Hlen). cbn [fst]. now rewrite Ht.
    + rewrite (sql_where_Some _ (fun _ => false)).
      * assert (E : forall (l : list (Ticket * option Comment)),
                   List.filter (fun _ => false) l = [])
          by (intros l; induction l as [|x l IH]; [reflexivity | exact IH]).
        rewrite E. reflexivity.
      * intros [t oc] Hj. rewrite (search_clause_refused _ _ _ _ Hlen). cbn [fst].
        apply elem_of_left_join in Hj as [Hin _]. apply list_elem_of_In in Hin.
        destruct (_ && _) eqn:Ht; [|reflexivity].
        assert (Hex : existsb (fun t => passes project (String.eqb (t_project t))
                                        && passes status (String.eqb (t_status t)))
                        (tickets s) = true)
          by (apply existsb_exists; now exists t).
        congruence.
Qed.

Lemma search_tickets_outcomes_witness :
  ("done" ∉ VALID_STATUSES)
  /\ search_tickets Samples.four "foo" None (Some "done")
     = Raise (Invalid (ValueError Status "done"))
  /\ acceptable (Some "") VALID_STATUSES
  /\ (exists l, search_tickets Samples.four "%" (Some "/p") (Some "") = Ok l)
  /\ 49998 < Like.utf8_length Samples.long_text
  /\ search_tickets Samples.four Samples.long_text (Some "/q") None
     = Raise (OperationalError pattern_too_complex)
  /\ search_tickets Samples.four Samples.long_text (Some "/r") None = Ok [].
Proof.
  assert (H1 : acceptable (Some "") VALID_STATUSES) by (left; reflexivity).
  assert (H2 : "done" ∉ VALID_STATUSES)
    by (intros H; apply py_in_elem_of in H; discriminate H).
  assert (H3 : 49998 < Like.utf8_length Samples.long_text) by (vm_compute; reflexivity).
  assert (H4 : Like.utf8_length "%" <= 49998) by (vm_compute; discriminate).
  split; [exact H2|].
  split; [apply (proj1 (search_tickets_outcomes Samples.four "foo" None (Some "done"))
                   "done" eq_refl); [discriminate | exact H2]|].
  split; [exact H1|].
  split; [exact (proj1 (proj2 (search_tickets_outcomes Samples.four "%" (Some "/p")
                                 (Some ""))) H1 H4)|].
  split; [exact H3|].
  split.
  - exact (proj2 (proj2 (search_tickets_outcomes Samples.four Samples.long_text (Some "/q") None))
             I H3).
  - exact (proj2 (proj2 (search_tickets_outcomes Samples.four Samples.long_text (Some "/r") None))
             I H3).
Defined.

Lemma sql_like_any (text : string) :
  Like.sql_like text ("%" +:+ "" +:+ "%") = Some true.
Proof.
  rewrite sql_like_within by (vm_compute; discriminate).
  change (Like.c_string (list_ascii_of_string ("%" +:+ "" +:+ "%")))
    with [Like.percent; Like.percent].
  now rewrite like_percent, like_trailing_percent.
Qed.

(** X3.  Whatever the query, every ticket that [search_tickets] finds is
    also listed by [list_tickets] under the same project and status
    filters; with the empty query the two return the same tickets.
    [list_tickets] returns for every such pair of filters, and
    [search_tickets] for every query of at most 49998 bytes. *)
Theorem search_within_list (s : Store) (query : string) (project status : option string) :
  acceptable status VALID_STATUSES ->
  exists listed,
    list_tickets s project status None None = Ok listed
    /\ (Like.utf8_length query <= 49998 ->
        exists found, search_tickets s query project status = Ok found)
    /\ forall found,
         search_tickets s query project status = Ok found ->
         (forall t, t ∈ found -> t ∈ listed)
         /\ (query = "" -> forall t, t ∈ listed -> t ∈ found).
Proof.
  intros Hst. eexists.
  split; [apply list_tickets_ok; [exact Hst | exact I | exact I]|].
  split.
  - intros Hlen. rewrite (search_tickets_query _ _ _ _ Hst).
    rewrite sql_where_defined
      by (intros r _; now apply search_clause_within).
    eexists. reflexivity.
  - intros found. rewrite (search_tickets_query _ _ _ _ Hst).
    destruct (sql_where _ _) as [rows|] eqn:Erows; [|discriminate].
    intros [= <-].
    assert (Hfound : forall t,
               t ∈ order_by ticket_order (remove_dups (List.map fst rows))
               <-> exists oc, (t, oc) ∈ left_join (tickets s) (comments s)
                              /\ search_clause query project status (t, oc) = Some true).
    { intros t. rewrite order_by_elem_of, elem_of_remove_dups, elem_of_map. split.
      - intros ([t' oc] & E & H). cbn [fst] in E. subst t'. exists oc.
        now apply (sql_where_elem_of _ _ _ _ Erows).
      - intros (oc & H). exists (t, oc). split; [reflexivity|].
        now apply (sql_where_elem_of _ _ _ _ Erows). }
    split.
    + intros t Ht. apply Hfound in Ht as (oc & Hj & Hw).
      apply elem_of_left_join in Hj as [Hin _].
      rewrite order_by_elem_of, elem_of_filter_bool. split; [exact Hin|].
      unfold search_clause in Hw. cbn [fst snd] in Hw.
      unfold selected. cbn [passes].
      destruct (passes project _ && passes status _) eqn:E.
      * reflexivity.
      * now destruct (or_term _ _) as [[]|].
    + intros -> t Ht.
      rewrite order_by_elem_of, elem_of_filter_bool in Ht. destruct Ht as [Hin Hsel].
      unfold selected in Hsel.
      rewrite !andb_true_iff in Hsel. destruct Hsel as [[[Hp Hs] _] _].
      apply Hfound.
      destruct (left_join_covers _ (comments s) _ Hin) as [oc Hj].
      exists oc. split; [exact Hj|].
      unfold search_clause. cbn [fst snd].
      now rewrite Hp, Hs, sql_like_any.
Qed.

Lemma search_within_list_witness :
  acceptable (Some "pending") VALID_STATUSES
  /\ exists listed,
       list_tickets Samples.four (Some "/p") (Some "pending") None None = Ok listed
       /\ (Like.utf8_length "" <= 49998 ->
           exists found,
             search_tickets Samples.four "" (Some "/p") (Some "pending") = Ok found)
       /\ forall found,
            search_tickets Samples.four "" (Some "/p") (Some "pending") = Ok found ->
            (forall t, t ∈ found -> t ∈ listed)
            /\ ("" = "" -> forall t, t ∈ listed -> t ∈ found).
Proof.
  assert (H : acceptable (Some "pending") VALID_STATUSES) by (right; repeat constructor).
  split; [exact H|].
  exact (search_within_list Samples.four "" (Some "/p") (Some "pending") H).
Defined.

(** ** LIKE and the case of letters *)

Lemma to_lower_percent (c : ascii) :
  Ascii.eqb (Like.to_lower c) Like.percent = Ascii.eqb c Like.percent.
Proof. destruct c as [[] [] [] [] [] [] [] []]; reflexivity. Qed.

Lemma to_lower_underscore (c : ascii) :
  Ascii.eqb (Like.to_lower c) Like.underscore = Ascii.eqb c Like.underscore.
Proof. destruct c as [[] [] [] [] [] [] [] []]; reflexivity. Qed.

Lemma like_star_fold (p p' : list ascii) :
  (forall s s', List.map Like.to_lower s = List.map Like.to_lower s' ->
                Like.like p s = Like.like p' s') ->
  forall s s', List.map Like.to_lower s = List.map Like.to_lower s' ->
               Like.like (Like.percent :: p) s = Like.like (Like.percent :: p') s'.
Proof.
  intros Hp s. induction s as [|d s IH]; intros [|d' s'] E; try discriminate E.
  - rewrite !like_percent. now rewrite (Hp [] []).
  - rewrite (like_percent p (d :: s)), (like_percent p' (d' :: s')).
    rewrite (Hp (d :: s) (d' :: s') E). injection E as _ E.
    now rewrite (IH s' E).
Qed.

(** LIKE sees pattern and text only up to the case of ASCII letters. *)
Lemma like_fold_case (p p' s s' : list ascii) :
  List.map Like.to_lower p = List.map Like.to_lower p' ->
  List.map Like.to_lower s = List.map Like.to_lower s' ->
  Like.like p s = Like.like p' s'.
Proof.
  revert p' s s'. induction p as [|c p IH]; intros [|c' p'] s s' Ep Es;
    try discriminate Ep.
  - destruct s, s'; try discriminate Es; reflexivity.
  - injection Ep as Ec Ep.
    assert (Hpc : Ascii.eqb c Like.percent = Ascii.eqb c' Like.percent)
      by (rewrite <- (to_lower_percent c), <- (to_lower_percent c'), Ec; reflexivity).
    assert (Huc : Ascii.eqb c Like.underscore = Ascii.eqb c' Like.underscore)
      by (rewrite <- (to_lower_underscore c), <- (to_lower_underscore c'), Ec; reflexivity).
    destruct (Ascii.eqb c Like.percent) eqn:Hc.
    + apply Ascii.eqb_eq in Hc. symmetry in Hpc. apply Ascii.eqb_eq in Hpc. subst c c'.
      apply like_star_fold; [|exact Es]. intros u u' Eu. now apply IH.
    + symmetry in Hpc. rewrite (like_char _ _ _ Hc), (like_char _ _ _ Hpc).
      destruct s as [|d s], s' as [|d' s']; try discriminate Es; [reflexivity|].
      injection Es as Ed Es. unfold Like.match_one.
      rewrite Huc, Ec, Ed, (IH p' s s' Ep Es). reflexivity.
Qed.

Lemma fold_case_app (a b : string) : fold_case (a +:+ b) = fold_case a ++ fold_case b.
Proof. unfold fold_case. now rewrite list_ascii_of_string_app, List.map_app. Qed.

Lemma to_lower_zero (c : ascii) :
  Ascii.eqb (Like.to_lower c) zero = Ascii.eqb c zero.
Proof. destruct c as [[] [] [] [] [] [] [] []]; reflexivity. Qed.

Lemma utf8_size_to_lower (c : ascii) : Like.utf8_size (Like.to_lower c) = Like.utf8_size c.
Proof. destruct c as [[] [] [] [] [] [] [] []]; reflexivity. Qed.

(** The C string of a text, up to letter case, is that of any text equal to
    it up to letter case. *)
Lemma c_string_fold_case (l l' : list ascii) :
  List.map Like.to_lower l = List.map Like.to_lower l' ->
  List.map Like.to_lower (Like.c_string l) = List.map Like.to_lower (Like.c_string l').
Proof.
  revert l'. induction l as [|c l IH]; intros [|c' l'] E; try discriminate E;
    [reflexivity|].
  injection E as Ec E. cbn [Like.c_string].
  rewrite <- (to_lower_zero c), <- (to_lower_zero c'), Ec.
  destruct (Ascii.eqb (Like.to_lower c') zero); [reflexivity|].
  cbn [List.map]. now rewrite Ec, (IH l' E).
Qed.

Lemma utf8_length_fold_case (x y : string) :
  fold_case x = fold_case y -> Like.utf8_length x = Like.utf8_length y.
Proof.
  unfold fold_case, Like.utf8_length.
  generalize (list_ascii_of_string x) (list_ascii_of_string y).
  intros l. induction l as [|c l IH]; intros [|c' l'] E; try discriminate E;
    [reflexivity|].
  injection E as Ec E. cbn [fold_right].
  now rewrite <- (utf8_size_to_lower c), <- (utf8_size_to_lower c'), Ec, (IH l' E).
Qed.

Lemma sql_like_fold_case (text text' pattern pattern' : string) :
  fold_case pattern = fold_case pattern' ->
  fold_case text = fold_case text' ->
  Like.sql_like text pattern = Like.sql_like text' pattern'.
Proof.
  intros Hp Ht. unfold Like.sql_like.
  rewrite (utf8_length_fold_case _ _ Hp).
  destruct (Like.SQLITE_MAX_LIKE_PATTERN_LENGTH <? Like.utf8_length pattern');
    [reflexivity|].
  f_equal. apply like_fold_case; now apply c_string_fold_case.
Qed.

Lemma fold_case_empty (x y : string) : fold_case x = fold_case y -> x = "" -> y = "".
Proof. intros E ->. now destruct y. Qed.

(** X4.  Searching and tag filtering ignore the case of ASCII letters in
    what is asked for: two queries, or two tag filters, that differ only in
    letter case give the same result, an error included. *)
Theorem queries_ignore_case (s : Store) (x y : string)
  (project status priority : option string) :
  fold_case x = fold_case y ->
  search_tickets s x project status = search_tickets s y project status
  /\ list_tickets s project status priority (Some x)
     = list_tickets s project status priority (Some y).
Proof.
  intros E.
  assert (Hpat : fold_case ("%" +:+ x +:+ "%") = fold_case ("%" +:+ y +:+ "%"))
    by (rewrite !fold_case_app, E; reflexivity).
  assert (Htag : fold_case ("%," +:+ x +:+ ",%") = fold_case ("%," +:+ y +:+ ",%"))
    by (rewrite !fold_case_app, E; reflexivity).
  split.
  - unfold search_tickets.
    destruct (truthy project) as [p|]; destruct (truthy status) as [st|];
      try destruct (py_in st VALID_STATUSES); cbn [negb bind]; try reflexivity;
      match goal with
      | |- match sql_where ?q _ with _ => _ end
           = match sql_where ?q' _ with _ => _ end =>
          rewrite (sql_where_ext q q'); [reflexivity|]
      end;
      intros [t [c|]]; cbn [content_like fst];
      rewrite ?(sql_like_fold_case (t_title t) (t_title t) _ _ Hpat eq_refl),
              ?(sql_like_fold_case (t_description t) (t_description t) _ _ Hpat eq_refl),
              ?(sql_like_fold_case (t_tags t) (t_tags t) _ _ Hpat eq_refl),
              ?(sql_like_fold_case (c_content c) (c_content c) _ _ Hpat eq_refl),
              ?(sql_like_fold_case "" "" _ _ Hpat eq_refl);
      reflexivity.
  - unfold list_tickets.
    assert (Htr : truthy (Some x) = None /\ truthy (Some y) = None
                  \/ truthy (Some x) = Some x /\ truthy (Some y) = Some y).
    { destruct x as [|c x].
      - left. split; [reflexivity|]. now rewrite (fold_case_empty "" y E eq_refl).
      - right. split; [reflexivity|]. destruct y as [|d y]; [discriminate E | reflexivity]. }
    destruct Htr as [[-> ->] | [-> ->]]; [reflexivity|].
    destruct (truthy project) as [p|]; destruct (truthy status) as [st|];
      try destruct (py_in st VALID_STATUSES); cbn [negb bind]; try reflexivity;
      destruct (truthy priority) as [pr|];
      try destruct (py_in pr VALID_PRIORITIES); cbn [negb bind]; try reflexivity;
      match goal with
      | |- match sql_where ?q _ with _ => _ end
           = match sql_where ?q' _ with _ => _ end =>
          rewrite (sql_where_ext q q'); [reflexivity|]
      end;
      intros t; unfold and_where, tag_clause;
      rewrite (sql_like_fold_case _ _ _ _ Htag eq_refl); reflexivity.
Qed.

Lemma queries_ignore_case_witness :
  fold_case "BuG" = fold_case "bug"
  /\ search_tickets Samples.four "BuG" None None = search_tickets Samples.four "bug" None None
  /\ list_tickets Samples.four None None None (Some "BuG")
     = list_tickets Samples.four None None None (Some "bug").
Proof.
  assert (H : fold_case "BuG" = fold_case "bug") by reflexivity.
  split; [exact H|].
  exact (queries_ignore_case Samples.four "BuG" "bug" None None None H).
Defined.

(** ** What every reachable store satisfies *)

Lemma map_id_sql_update (updates : list (column * string)) (ticket_id : Z)
  (rows : list Ticket) :
  List.map t_id (sql_update updates ticket_id rows) = List.map t_id rows.
Proof.
  unfold sql_update. rewrite List.map_map. apply List.map_ext. intros t.
  destruct (Z.eqb (t_id t) ticket_id); [apply fold_assign_keeps | reflexivity].
Qed.

Lemma NoDup_map_filter {A B} (f : A -> B) (g : A -> bool) (l : list A) :
  NoDup (List.map f l) -> NoDup (List.map f (List.filter g l)).
Proof.
  induction l as [|x l IH]; cbn [List.map List.filter]; [easy|].
  intros H. apply NoDup_cons in H as [Hx Hl].
  destruct (g x); cbn [List.map]; [|now apply IH].
  apply NoDup_cons. split; [|now apply IH].
  intros Hin. apply Hx. apply elem_of_map in Hin as (y & Ey & Hy).
  apply elem_of_filter_bool in Hy as [Hy _]. apply elem_of_map. now exists y.
Qed.

Lemma assign_valid (t : Ticket) (a : column * string) :
  valid_ticket t -> valid_assignment a -> valid_ticket (assign t a).
Proof.
  destruct a as [[] v]; unfold valid_ticket, valid_assignment; cbn; tauto.
Qed.

Lemma fold_assign_valid (updates : list (column * string)) (t : Ticket) :
  valid_ticket t -> Forall valid_assignment updates ->
  valid_ticket (fold_left assign updates t).
Proof.
  revert t. induction updates as [|a u IH]; intros t Ht Hu; [exact Ht|].
  apply Forall_cons in Hu as [Ha Hu]. cbn [fold_left].
  apply IH; [now apply assign_valid | exact Hu].
Qed.

Lemma sql_update_valid (updates : list (column * string)) (ticket_id : Z)
  (rows : list Ticket) :
  Forall valid_assignment updates ->
  (forall t, t ∈ rows -> valid_ticket t) ->
  forall t, t ∈ sql_update updates ticket_id rows -> valid_ticket t.
Proof.
  intros Hu Hrows t Ht. apply elem_of_map in Ht as (r & <- & Hr).
  destruct (Z.eqb (t_id r) ticket_id); [|now apply Hrows].
  apply fold_assign_valid; [now apply Hrows | exact Hu].
Qed.

Lemma collect_updates_values (title description status priority tags : option string)
  (updates : list (column * string)) :
  collect_updates title description status priority tags = Ok updates ->
  Forall valid_assignment updates.
Proof.
  unfold collect_updates.
  destruct status as [st|]; [destruct (py_in st VALID_STATUSES) eqn:Est|];
    cbn [negb bind]; try discriminate;
    (destruct priority as [pr|]; [destruct (py_in pr VALID_PRIORITIES) eqn:Epr|]);
    cbn [negb bind]; try discriminate;
    try apply py_in_elem_of in Est; try apply py_in_elem_of in Epr;
    destruct title, description, tags; intros [= <-];
    repeat (apply Forall_cons; split; [first [exact I | exact Est | exact Epr]|]);
    apply Forall_nil; exact I.
Qed.

Lemma consistent_init : consistent init_db.
Proof.
  split; cbn; try (intros x Hx; now apply not_elem_of_nil in Hx);
    try apply NoDup_nil; try easy.
Qed.

Lemma create_ticket_consistent (now project title description priority tags : string)
  (s : Store) :
  consistent s ->
  consistent (fst (create_ticket now project title description priority tags s)).
Proof.
  intros C. unfold create_ticket.
  destruct (py_in priority VALID_PRIORITIES) eqn:Epr; cbn [negb fst]; [|exact C].
  pose proof (next_rowid_above (tickets_seq s) (List.map t_id (tickets s))) as [Hseq Hrows].
  destruct C as [[Ht Hc] Hb Hu Hcb Hcu How Hv].
  split; cbn [tickets tickets_seq comments comments_seq].
  - split; lia.
  - intros i Hi. rewrite List.map_app in Hi. apply elem_of_app in Hi as [Hi | Hi].
    + specialize (Hb i Hi). specialize (Hrows i Hi). lia.
    + apply list_elem_of_singleton in Hi. cbn in Hi. subst i. lia.
  - rewrite List.map_app. apply NoDup_app. split; [exact Hu|]. split.
    + intros i Hi Hi'. apply list_elem_of_singleton in Hi'. cbn in Hi'.
      specialize (Hrows i Hi). lia.
    + apply NoDup_singleton.
  - exact Hcb.
  - exact Hcu.
  - intros c Hin. rewrite List.map_app. apply elem_of_app. left. now apply How.
  - intros t Hin. apply elem_of_app in Hin as [Hin | Hin]; [now apply Hv|].
    apply list_elem_of_singleton in Hin. subst t. split; cbn.
    + repeat constructor.
    + now apply py_in_elem_of.
Qed.

Lemma update_ticket_consistent (now : string) (ticket_id : Z)
  (title description status priority tags : option string) (s : Store) :
  consistent s ->
  consistent (fst (update_ticket now ticket_id title description status priority tags s)).
Proof.
  intros C. unfold update_ticket.
  destruct (get_ticket s ticket_id); [|exact C].
  destruct (collect_updates _ _ _ _ _) as [[|a u]|e] eqn:E; cbn [fst]; try exact C.
  apply collect_updates_values in E.
  destruct C as [Hn Hb Hu Hcb Hcu How Hv].
  split; cbn [tickets tickets_seq comments comments_seq];
    rewrite ?map_id_sql_update; try assumption.
  apply sql_update_valid; [|exact Hv].
  apply Forall_app. split; [exact E|]. apply Forall_cons. split; [exact I|].
  now apply Forall_nil.
Qed.

Lemma delete_ticket_consistent (ticket_id : Z) (s : Store) :
  consistent s -> consistent (fst (delete_ticket ticket_id s)).
Proof.
  intros [Hn Hb Hu Hcb Hcu How Hv].
  split; cbn [delete_ticket fst tickets tickets_seq comments comments_seq].
  - exact Hn.
  - intros i Hi. apply Hb. apply elem_of_map in Hi as (t & <- & Ht).
    apply elem_of_filter_bool in Ht as [Ht _]. apply elem_of_map. now exists t.
  - now apply NoDup_map_filter.
  - intros i Hi. apply Hcb. apply elem_of_map in Hi as (c & <- & Hc).
    apply elem_of_filter_bool in Hc as [Hc _]. apply elem_of_map. now exists c.
  - now apply NoDup_map_filter.
  - intros c Hc. apply elem_of_filter_bool in Hc as [Hc Hne].
    apply negb_true_iff, Z.eqb_neq in Hne.
    apply How, elem_of_map in Hc as (t & Et & Ht).
    apply elem_of_map. exists t. split; [exact Et|].
    apply elem_of_filter_bool. split; [exact Ht|].
    apply negb_true_iff, Z.eqb_neq. congruence.
  - intros t Ht. apply elem_of_filter_bool in Ht as [Ht _]. now apply Hv.
Qed.

Lemma add_comment_consistent (now : string) (ticket_id : Z) (author content : string)
  (s : Store) :
  consistent s -> consistent (fst (add_comment now ticket_id author content s)).
Proof.
  intros C. unfold add_comment.
  destruct (get_ticket s ticket_id) as [v|] eqn:Hget; [|exact C].
  apply get_ticket_Some in Hget as (_ & Hin & Hid & _).
  pose proof (next_rowid_above (comments_seq s) (List.map c_id (comments s))) as [Hseq Hrows].
  destruct C as [[Ht Hc] Hb Hu Hcb Hcu How Hv].
  split; cbn [fst tickets tickets_seq comments comments_seq];
    rewrite ?map_id_sql_update; try assumption.
  - split; lia.
  - intros i Hi. rewrite List.map_app in Hi. apply elem_of_app in Hi as [Hi | Hi].
    + specialize (Hcb i Hi). specialize (Hrows i Hi). lia.
    + apply list_elem_of_singleton in Hi. cbn in Hi. subst i. lia.
  - rewrite List.map_app. apply NoDup_app. split; [exact Hcu|]. split.
    + intros i Hi Hi'. apply list_elem_of_singleton in Hi'. cbn in Hi'.
      specialize (Hrows i Hi). lia.
    + apply NoDup_singleton.
  - intros c Hc'. apply elem_of_app in Hc' as [Hc' | Hc']; [now apply How|].
    apply list_elem_of_singleton in Hc'. subst c. cbn [c_ticket_id].
    apply elem_of_map. now exists (tv_ticket v).
  - apply sql_update_valid; [|exact Hv].
    apply Forall_cons. split; [exact I|]. now apply Forall_nil.
Qed.

Lemma step_consistent (c : call) (s : Store) :
  consistent s -> consistent (fst (step c s)).
Proof.
  intros C. destruct c; cbn [step].
  - pose proof (create_ticket_consistent now project title description priority tags s C) as H.
    now destruct (create_ticket _ _ _ _ _ _ s).
  - now apply update_ticket_consistent.
  - now apply delete_ticket_consistent.
  - now apply add_comment_consistent.
Qed.

Lemma run_store (history : list call) (s : Store) (ids ids' : list Z) :
  fst (run history s ids) = fst (run history s ids').
Proof.
  revert s ids ids'. induction history as [|c rest IH]; intros s ids ids'; [reflexivity|].
  cbn [run]. destruct (step c s) as [s' r]. apply IH.
Qed.

Lemma after_cons (c : call) (rest : list call) (s : Store) :
  after (c :: rest) s = after rest (fst (step c s)).
Proof.
  unfold after. cbn [run]. destruct (step c s) as [s' r]. cbn [fst]. apply run_store.
Qed.

Lemma after_consistent (history : list call) (s : Store) :
  consistent s -> consistent (after history s).
Proof.
  revert s. induction history as [|c rest IH]; intros s C; [exact C|].
  rewrite after_cons. apply IH. now apply step_consistent.
Qed.

Lemma find_unique {A} (key : A -> Z) (l : list A) (x : A) :
  NoDup (List.map key l) -> x ∈ l ->
  List.find (fun y => Z.eqb (key y) (key x)) l = Some x.
Proof.
  induction l as [|y l IH]; cbn [List.map List.find]; intros Hnd Hin.
  - now apply not_elem_of_nil in Hin.
  - apply NoDup_cons in Hnd as [Hy Hl].
    apply elem_of_cons in Hin as [-> | Hin]; [now rewrite Z.eqb_refl|].
    destruct (Z.eqb (key y) (key x)) eqn:E; [|now apply IH].
    apply Z.eqb_eq in E. exfalso. apply Hy. rewrite E. apply elem_of_map. now exists x.
Qed.

(** X5.  In every store that calls on a fresh database can produce, the id
    is a key: no two tickets and no two comments share an id, all ids are
    positive, and each stored ticket is what [get_ticket] returns for its
    id. *)
Theorem ids_are_keys (history : list call) :
  let s := after history init_db in
  NoDup (List.map t_id (tickets s))
  /\ NoDup (List.map c_id (comments s))
  /\ (forall t, t ∈ tickets s ->
        0 < t_id t
        /\ get_ticket s (t_id t) = Some (mkView t (get_comments s (t_id t))))
  /\ (forall c, c ∈ comments s -> 0 < c_id c).
Proof.
  intros s. destruct (after_consistent history init_db consistent_init)
    as [_ Hb Hu Hcb Hcu _ _]. fold s in Hb, Hu, Hcb, Hcu.
  split; [exact Hu|]. split; [exact Hcu|]. split.
  - intros t Ht. split.
    + apply (Hb (t_id t)). apply elem_of_map. now exists t.
    + rewrite get_ticket_find, (find_unique t_id _ _ Hu Ht). reflexivity.
  - intros c Hc. apply (Hcb (c_id c)). apply elem_of_map. now exists c.
Qed.

(** X6.  In every store that calls on a fresh database can produce, each
    comment belongs to a ticket that exists, and that ticket's comments
    contain it: there are no orphan comments. *)
Theorem no_orphan_comments (history : list call) (c : Comment) :
  c ∈ comments (after history init_db) ->
  exists v,
    get_ticket (after history init_db) (c_ticket_id c) = Some v
    /\ c ∈ tv_comments v.
Proof.
  intros Hc.
  destruct (after_consistent history init_db consistent_init) as [_ _ _ _ _ How _].
  specialize (How c Hc). apply elem_of_map in How as (t & Et & Ht).
  destruct (get_ticket (after history init_db) (c_ticket_id c)) as [v|] eqn:E.
  - exists v. split; [reflexivity|].
    apply get_ticket_Some in E as (_ & _ & _ & ->).
    unfold get_comments. rewrite order_by_elem_of, elem_of_filter_bool.
    split; [exact Hc | apply Z.eqb_refl].
  - exfalso. rewrite get_ticket_None in E. exact (E t Ht Et).
Qed.

Lemma no_orphan_comments_witness :
  let history :=
    [CreateTicket "2024-01-01T00:00:00" "/p" "first" "D" "medium" "";
     CreateTicket "2024-01-02T00:00:00" "/p" "second" "D" "low" "";
     AddComment "2024-01-03T00:00:00" 1 "user" "gone with its ticket";
     AddComment "2024-01-04T00:00:00" 2 "claude" "kept";
     DeleteTicket 1;
     AddComment "2024-01-05T00:00:00" 1 "user" "too late"] in
  let c := mkComment 2 2 "claude" "kept" "2024-01-04T00:00:00" in
  comments (after history init_db) = [c]
  /\ exists v, get_ticket (after history init_db) (c_ticket_id c) = Some v
               /\ c ∈ tv_comments v.
Proof.
  cbn zeta. split; [reflexivity|].
  apply (no_orphan_comments
           [CreateTicket "2024-01-01T00:00:00" "/p" "first" "D" "medium" "";
            CreateTicket "2024-01-02T00:00:00" "/p" "second" "D" "low" "";
            AddComment "2024-01-03T00:00:00" 1 "user" "gone with its ticket";
            AddComment "2024-01-04T00:00:00" 2 "claude" "kept";
            DeleteTicket 1;
            AddComment "2024-01-05T00:00:00" 1 "user" "too late"]).
  vm_compute. repeat constructor.
Defined.

(** X7.  In every store that calls on a fresh database can produce, each
    ticket's status and priority are among the enumerated values, so the
    last rank of the row order is taken by low priority only. *)
Theorem stored_values_valid (history : list call) (t : Ticket) :
  t ∈ tickets (after history init_db) ->
  t_status t ∈ VALID_STATUSES
  /\ t_priority t ∈ VALID_PRIORITIES
  /\ (priority_rank (t_priority t) = 3 <-> t_priority t = "low").
Proof.
  intros Ht.
  destruct (after_consistent history init_db consistent_init) as [_ _ _ _ _ _ Hv].
  destruct (Hv t Ht) as [Hs Hp]. split; [exact Hs|]. split; [exact Hp|].
  apply py_in_elem_of in Hp. unfold py_in, VALID_PRIORITIES in Hp.
  cbn [existsb] in Hp. rewrite !orb_true_iff, !String.eqb_eq in Hp.
  destruct Hp as [-> | [-> | [-> | Hf]]]; [| | |discriminate Hf];
    split; intros H; try reflexivity; discriminate H.
Qed.

Lemma stored_values_valid_witness :
  let history :=
    [CreateTicket "2024-01-01T00:00:00" "/p" "first" "D" "urgent" "";
     CreateTicket "2024-01-02T00:00:00" "/p" "second" "D" "low" "";
     UpdateTicket "2024-01-03T00:00:00" 1 None None (Some "done") None None;
     UpdateTicket "2024-01-04T00:00:00" 1 None None (Some "closed") None None] in
  let t := mkTicket 1 "/p" "second" "D" "closed" "low" ""
             "2024-01-02T00:00:00" "2024-01-04T00:00:00" in
  tickets (after history init_db) = [t]
  /\ t_status t ∈ VALID_STATUSES
  /\ t_priority t ∈ VALID_PRIORITIES
  /\ (priority_rank (t_priority t) = 3 <-> t_priority t = "low").
Proof.
  cbn zeta. split; [reflexivity|].
  apply (stored_values_valid
           [CreateTicket "2024-01-01T00:00:00" "/p" "first" "D" "urgent" "";
            CreateTicket "2024-01-02T00:00:00" "/p" "second" "D" "low" "";
            UpdateTicket "2024-01-03T00:00:00" 1 None None (Some "done") None None;
            UpdateTicket "2024-01-04T00:00:00" 1 None None (Some "closed") None None]).
  vm_compute. repeat constructor.
Defined.

Lemma ids_are_keys_witness :
  let history :=
    [CreateTicket "2024-01-01T00:00:00" "/p" "first" "D" "medium" "";
     CreateTicket "2024-01-02T00:00:00" "/q" "second" "D" "high" "x";
     DeleteTicket 1;
     CreateTicket "2024-01-03T00:00:00" "/p" "third" "D" "low" ""] in
  List.map t_id (tickets (after history init_db)) = [2; 3]
  /\ forall t, t ∈ tickets (after history init_db) ->
       0 < t_id t
       /\ get_ticket (after history init_db) (t_id t)
          = Some (mkView t (get_comments (after history init_db) (t_id t))).
Proof.
  cbn zeta. split; [reflexivity|].
  exact (proj1 (proj2 (proj2 (ids_are_keys
           [CreateTicket "2024-01-01T00:00:00" "/p" "first" "D" "medium" "";
            CreateTicket "2024-01-02T00:00:00" "/q" "second" "D" "high" "x";
            DeleteTicket 1;
            CreateTicket "2024-01-03T00:00:00" "/p" "third" "D" "low" ""])))).
Defined.

(** ** The life of one ticket *)

Lemma find_app_found {A} (f : A -> bool) (l l' : list A) (x : A) :
  List.find f l = Some x -> List.find f (l ++ l') = Some x.
Proof.
  induction l as [|y l IH]; cbn [app List.find]; [discriminate|].
  destruct (f y); [easy | exact IH].
Qed.

Lemma find_app_none {A} (f : A -> bool) (l l' : list A) :
  List.find f l = None -> List.find f (l ++ l') = List.find f l'.
Proof.
  induction l as [|y l IH]; cbn [app List.find]; [easy|].
  destruct (f y); [discriminate | exact IH].
Qed.

Lemma find_filter_kept {A} (f g : A -> bool) (l : list A) :
  (forall y, f y = true -> g y = true) ->
  List.find f (List.filter g l) = List.find f l.
Proof.
  intros H. induction l as [|y l IH]; [reflexivity|]. cbn [List.filter List.find].
  destruct (f y) eqn:Ef.
  - rewrite (H y Ef). cbn [List.find]. now rewrite Ef.
  - destruct (g y); [cbn [List.find]; now rewrite Ef | exact IH].
Qed.

Lemma find_filter_none {A} (f g : A -> bool) (l : list A) :
  List.find f l = None -> List.find f (List.filter g l) = None.
Proof.
  induction l as [|y l IH]; [reflexivity|]. cbn [List.filter List.find].
  destruct (f y) eqn:Ef; [discriminate|]. intros H.
  destruct (g y); [cbn [List.find]; rewrite Ef|]; now apply IH.
Qed.

Lemma find_ticket_step (c : call) (s : Store) (j : Z) :
  match List.find (fun t => Z.eqb (t_id t) j) (tickets s),
        List.find (fun t => Z.eqb (t_id t) j) (tickets (fst (step c s))) with
  | Some t, Some t' =>
      t_id t' = t_id t /\ t_project t' = t_project t /\ t_created_at t' = t_created_at t
  | None, Some _ => tickets_seq s < j
  | _, None => True
  end.
Proof.
  set (f := fun t => Z.eqb (t_id t) j).
  destruct c as [now project title description priority tags
                | now ticket_id title description status priority tags
                | ticket_id
                | now ticket_id author content]; cbn [step].
  - unfold create_ticket.
    destruct (py_in priority VALID_PRIORITIES); cbn [negb fst tickets].
    + destruct (List.find f (tickets s)) as [t|] eqn:E.
      * now rewrite (find_app_found _ _ _ _ E).
      * destruct (List.find f (tickets s ++ _)) as [t'|] eqn:E'; [|exact I].
        rewrite (find_app_none _ _ _ E) in E'.
        cbn [List.find] in E'. unfold f at 1 in E'. cbn [t_id] in E'.
        destruct (Z.eqb _ j) eqn:Ej; [|discriminate E'].
        apply Z.eqb_eq in Ej.
        pose proof (next_rowid_above (tickets_seq s) (List.map t_id (tickets s)))
          as [Hseq _].
        lia.
    + destruct (List.find f (tickets s)); [repeat split | exact I].
  - assert (Hsame : match List.find f (tickets s), List.find f (tickets s) with
                    | Some t, Some t' =>
                        t_id t' = t_id t /\ t_project t' = t_project t
                        /\ t_created_at t' = t_created_at t
                    | None, Some _ => tickets_seq s < j
                    | _, None => True
                    end)
      by (destruct (List.find f (tickets s)); [repeat split | exact I]).
    unfold update_ticket. destruct (get_ticket s ticket_id) as [existing|]; [|exact Hsame].
    destruct (collect_updates _ _ _ _ _) as [[|a u]|e]; cbn [fst]; try exact Hsame.
    cbn [tickets]. unfold f. rewrite find_sql_update.
    destruct (List.find _ (tickets s)) as [t|]; [|exact I]. cbn [option_map].
    destruct (Z.eqb (t_id t) ticket_id); [apply fold_assign_keeps | repeat split].
  - cbn [delete_ticket fst tickets].
    destruct (List.find f (tickets s)) as [t|] eqn:E.
    + destruct (Z.eq_dec j ticket_id) as [-> | Hne].
      * destruct (List.find f (List.filter _ (tickets s))) as [t'|] eqn:E'; [|exact I].
        apply find_some in E' as [Hin Hid]. apply filter_In in Hin as [_ Hne].
        unfold f in Hid. rewrite Hid in Hne. discriminate Hne.
      * rewrite find_filter_kept, E; [repeat split|].
        intros y Hy. unfold f in Hy. apply Z.eqb_eq in Hy.
        apply negb_true_iff, Z.eqb_neq. congruence.
    + now rewrite (find_filter_none _ _ _ E).
  - unfold add_comment.
    destruct (get_ticket s ticket_id) as [existing|]; cbn [fst tickets].
    + unfold f. rewrite find_sql_update.
      destruct (List.find _ (tickets s)) as [t|]; [|exact I]. cbn [option_map].
      destruct (Z.eqb (t_id t) ticket_id); [apply fold_assign_keeps | repeat split].
    + destruct (List.find f (tickets s)); [repeat split | exact I].
Qed.

(** Once absent with an id that the counter has passed, absent for good. *)
Lemma absent_for_good (history : list call) (s : Store) (j : Z) :
  j <= tickets_seq s ->
  List.find (fun t => Z.eqb (t_id t) j) (tickets s) = None ->
  List.find (fun t => Z.eqb (t_id t) j) (tickets (after history s)) = None.
Proof.
  revert s. induction history as [|c rest IH]; intros s Hle Hnone; [exact Hnone|].
  rewrite after_cons. pose proof (find_ticket_step c s j) as Hstep.
  rewrite Hnone in Hstep. destruct (step_seq c s) as [Hseq _].
  apply IH; [lia|].
  destruct (List.find _ (tickets (fst (step c s)))); [lia | reflexivity].
Qed.

Lemma ticket_kept (history : list call) (s : Store) (j : Z) (t t' : Ticket) :
  j <= tickets_seq s ->
  List.find (fun t => Z.eqb (t_id t) j) (tickets s) = Some t ->
  List.find (fun t => Z.eqb (t_id t) j) (tickets (after history s)) = Some t' ->
  t_id t' = t_id t /\ t_project t' = t_project t /\ t_created_at t' = t_created_at t.
Proof.
  revert s t. induction history as [|c rest IH]; intros s t Hle Hf Hf'.
  - unfold after in Hf'. cbn in Hf'. rewrite Hf in Hf'. injection Hf' as <-. repeat split.
  - rewrite after_cons in Hf'. pose proof (find_ticket_step c s j) as Hstep.
    rewrite Hf in Hstep. destruct (step_seq c s) as [Hseq _].
    destruct (List.find _ (tickets (fst (step c s)))) as [t1|] eqn:E1.
    + destruct Hstep as (E_id & E_pr & E_cr).
      destruct (IH (fst (step c s)) t1 ltac:(lia) E1 Hf') as (-> & -> & ->).
      repeat split; assumption.
    + rewrite (absent_for_good rest (fst (step c s)) j ltac:(lia) E1) in Hf'.
      discriminate Hf'.
Qed.

(** X8.  Through any sequence of calls the id, the project and [created_at]
    of a ticket stay what they were: whenever [get_ticket] finds the id
    before and after, the three values agree. *)
Theorem ticket_identity_immutable (before later : list call) (ticket_id : Z)
  (v v' : TicketView) :
  get_ticket (after before init_db) ticket_id = Some v ->
  get_ticket (after later (after before init_db)) ticket_id = Some v' ->
  t_id (tv_ticket v') = t_id (tv_ticket v)
  /\ t_project (tv_ticket v') = t_project (tv_ticket v)
  /\ t_created_at (tv_ticket v') = t_created_at (tv_ticket v).
Proof.
  intros Hv Hv'.
  apply get_ticket_Some in Hv as (Hf & Hin & Hid & _).
  apply get_ticket_Some in Hv' as (Hf' & _).
  apply (ticket_kept later (after before init_db) ticket_id); [|exact Hf | exact Hf'].
  destruct (after_consistent before init_db consistent_init) as [_ Hb _ _ _ _ _].
  apply (Hb ticket_id). apply elem_of_map. now exists (tv_ticket v).
Qed.

Lemma ticket_identity_immutable_witness :
  let before := [CreateTicket "2024-01-01T00:00:00" "/p" "first" "D" "medium" ""] in
  let later :=
    [UpdateTicket "2024-02-01T00:00:00" 1 (Some "renamed") None (Some "closed") None None;
     AddComment "2024-03-01T00:00:00" 1 "user" "note";
     CreateTicket "2024-04-01T00:00:00" "/q" "other" "D" "high" ""] in
  exists v v',
    get_ticket (after before init_db) 1 = Some v
    /\ get_ticket (after later (after before init_db)) 1 = Some v'
    /\ t_title (tv_ticket v') = "renamed"
    /\ t_updated_at (tv_ticket v') = "2024-03-01T00:00:00"
    /\ t_project (tv_ticket v') = t_project (tv_ticket v)
    /\ t_created_at (tv_ticket v') = t_created_at (tv_ticket v).
Proof.
  cbn zeta. eexists. eexists.
  split; [vm_compute; reflexivity|]. split; [vm_compute; reflexivity|].
  split; [reflexivity|]. split; [reflexivity|].
  exact (proj2 (ticket_identity_immutable
                  [CreateTicket "2024-01-01T00:00:00" "/p" "first" "D" "medium" ""]
                  [UpdateTicket "2024-02-01T00:00:00" 1 (Some "renamed") None
                     (Some "closed") None None;
                   AddComment "2024-03-01T00:00:00" 1 "user" "note";
                   CreateTicket "2024-04-01T00:00:00" "/q" "other" "D" "high" ""]
                  1 _ _ eq_refl eq_refl)).
Defined.

(** X9.  A deleted ticket does not come back: after [delete_ticket] of an
    existing ticket, no later sequence of calls makes [get_ticket] find its
    id again, and [add_comment] for it keeps returning not-found. *)
Theorem deleted_stays_deleted (before later : list call) (now : string) (ticket_id : Z)
  (author content : string) :
  is_Some (get_ticket (after before init_db) ticket_id) ->
  let s := after later (fst (delete_ticket ticket_id (after before init_db))) in
  get_ticket s ticket_id = None
  /\ add_comment now ticket_id author content s = (s, None).
Proof.
  intros [v Hv] s.
  assert (Hnone : get_ticket s ticket_id = None).
  { rewrite get_ticket_find. unfold s.
    rewrite (absent_for_good later _ ticket_id); [reflexivity| |].
    - cbn [delete_ticket fst tickets_seq].
      apply get_ticket_Some in Hv as (_ & Hin & Hid & _).
      destruct (after_consistent before init_db consistent_init) as [_ Hb _ _ _ _ _].
      apply (Hb ticket_id). apply elem_of_map. now exists (tv_ticket v).
    - cbn [delete_ticket fst tickets].
      destruct (List.find _ (List.filter _ _)) as [t|] eqn:E; [|reflexivity].
      apply find_some in E as [Hin Hid]. apply filter_In in Hin as [_ Hne].
      rewrite Hid in Hne. discriminate Hne. }
  split; [exact Hnone|]. unfold add_comment. now rewrite Hnone.
Qed.

Lemma deleted_stays_deleted_witness :
  let before := [CreateTicket "2024-01-01T00:00:00" "/p" "first" "D" "medium" ""] in
  let later :=
    [CreateTicket "2024-02-01T00:00:00" "/p" "second" "D" "medium" "";
     UpdateTicket "2024-03-01T00:00:00" 1 (Some "back") None None None None] in
  is_Some (get_ticket (after before init_db) 1)
  /\ List.map t_id (tickets (after later (fst (delete_ticket 1 (after before init_db))))) = [2]
  /\ get_ticket (after later (fst (delete_ticket 1 (after before init_db)))) 1 = None.
Proof.
  cbn zeta.
  assert (H : is_Some (get_ticket
                         (after [CreateTicket "2024-01-01T00:00:00" "/p" "first" "D"
                                   "medium" ""] init_db) 1))
    by (eexists; reflexivity).
  split; [exact H|]. split; [reflexivity|].
  exact (proj1 (deleted_stays_deleted
                  [CreateTicket "2024-01-01T00:00:00" "/p" "first" "D" "medium" ""]
                  [CreateTicket "2024-02-01T00:00:00" "/p" "second" "D" "medium" "";
                   UpdateTicket "2024-03-01T00:00:00" 1 (Some "back") None None None None]
                  "" 1 "" "" H)).
Defined.

(** ** What a call leaves alone *)

Lemma filter_none {A} (f : A -> bool) (l : list A) :
  (forall x, x ∈ l -> f x = false) -> List.filter f l = [].
Proof.
  induction l as [|y l IH]; intros H; [reflexivity|]. cbn [List.filter].
  rewrite (H y) by apply list_elem_of_here.
  apply IH. intros x Hx. apply H. now apply list_elem_of_further.
Qed.

Lemma filter_all {A} (f : A -> bool) (l : list A) :
  (forall x, x ∈ l -> f x = true) -> List.filter f l = l.
Proof.
  induction l as [|y l IH]; intros H; [reflexivity|]. cbn [List.filter].
  rewrite (H y) by apply list_elem_of_here. f_equal.
  apply IH. intros x Hx. apply H. now apply list_elem_of_further.
Qed.

(** X10.  After any history of calls on a fresh store, [create_ticket] with a
    valid priority appends one row to the tickets table and touches nothing
    else; the ticket it returns has exactly the project, title, description,
    priority and tags given and carries no comments. *)
Theorem create_ticket_clean (history : list call)
  (now project title description priority tags : string) :
  priority ∈ VALID_PRIORITIES ->
  let s := after history init_db in
  exists s' t,
    create_ticket now project title description priority tags s
    = (s', Ok (Some (mkView t [])))
    /\ t = mkTicket (t_id t) project title description "pending" priority tags now now
    /\ tickets s' = tickets s ++ [t]
    /\ comments s' = comments s
    /\ comments_seq s' = comments_seq s
    /\ forall j, j <> t_id t -> get_ticket s' j = get_ticket s j.
Proof.
  intros Hin s.
  pose proof (create_ticket_valid now project title description priority tags s Hin) as Hrun.
  cbn zeta in Hrun. rewrite Hrun. clear Hrun.
  set (new_id := next_rowid (tickets_seq s) (List.map t_id (tickets s))).
  assert (Hnone : get_comments
                    (mkStore (tickets s ++ [mkTicket new_id project title description
                                              "pending" priority tags now now])
                       new_id (comments s) (comments_seq s)) new_id = []).
  { unfold get_comments. cbn [comments]. rewrite filter_none; [reflexivity|].
    intros c Hc. apply Z.eqb_neq.
    destruct (after_consistent history init_db consistent_init) as [_ Hb _ _ _ How _].
    specialize (Hb _ (How c Hc)). fold s in Hb.
    pose proof (next_rowid_above (tickets_seq s) (List.map t_id (tickets s))) as [Hseq _].
    fold new_id in Hseq. lia. }
  rewrite Hnone. eexists. eexists. split; [reflexivity|].
  cbn [t_id tickets comments comments_seq]. repeat (split; [reflexivity|]).
  intros j Hj. rewrite !get_ticket_find. cbn [tickets]. unfold get_comments. cbn [comments].
  destruct (List.find (fun t => Z.eqb (t_id t) j) (tickets s)) as [t|] eqn:E.
  - now rewrite (find_app_found _ _ _ _ E).
  - rewrite (find_app_none _ _ _ E). cbn [List.find t_id].
    apply Z.eqb_neq in Hj. rewrite Z.eqb_sym in Hj. now rewrite Hj.
Qed.

Lemma create_ticket_clean_witness :
  let history :=
    [CreateTicket "2024-01-01T00:00:00" "/p" "first" "D" "medium" "";
     AddComment "2024-01-02T00:00:00" 1 "user" "note";
     DeleteTicket 1] in
  ("low" ∈ VALID_PRIORITIES)
  /\ exists s' t,
       create_ticket "2024-01-03T00:00:00" "/q" "T" "" "low" "a,b" (after history init_db)
       = (s', Ok (Some (mkView t [])))
       /\ t = mkTicket 2 "/q" "T" "" "pending" "low" "a,b"
                "2024-01-03T00:00:00" "2024-01-03T00:00:00"
       /\ tickets s' = [t].
Proof.
  cbn zeta.
  assert (H : "low" ∈ VALID_PRIORITIES) by (repeat constructor).
  split; [exact H|].
  destruct (create_ticket_clean
              [CreateTicket "2024-01-01T00:00:00" "/p" "first" "D" "medium" "";
               AddComment "2024-01-02T00:00:00" 1 "user" "note";
               DeleteTicket 1]
              "2024-01-03T00:00:00" "/q" "T" "" "low" "a,b" H)
    as (s' & t & Hrun & Ht & Hrows & _).
  exists s', t. split; [exact Hrun|].
  vm_compute in Hrun. injection Hrun as <- <-. split; reflexivity.
Defined.

(** X11.  [add_comment] on an existing ticket changes of that ticket only
    [updated_at]; its comments become the old ones plus the new one; every
    other ticket, with its comments, and both id counters of the tickets
    table and its rows' ids stay as they were. *)
Theorem add_comment_frame (now : string) (ticket_id : Z) (author content : string)
  (s : Store) (existing : TicketView) :
  get_ticket s ticket_id = Some existing ->
  exists s' row updated,
    add_comment now ticket_id author content s = (s', Some row)
    /\ get_ticket s' ticket_id = Some updated
    /\ tv_ticket updated
       = fold_left assign [(UpdatedAt, now)] (tv_ticket existing)
    /\ t_title (tv_ticket updated) = t_title (tv_ticket existing)
    /\ t_description (tv_ticket updated) = t_description (tv_ticket existing)
    /\ t_status (tv_ticket updated) = t_status (tv_ticket existing)
    /\ t_priority (tv_ticket updated) = t_priority (tv_ticket existing)
    /\ t_tags (tv_ticket updated) = t_tags (tv_ticket existing)
    /\ tv_comments updated ≡ₚ tv_comments existing ++ [row]
    /\ List.map t_id (tickets s') = List.map t_id (tickets s)
    /\ tickets_seq s' = tickets_seq s
    /\ forall j, j <> ticket_id -> get_ticket s' j = get_ticket s j.
Proof.
  intros Hget. unfold add_comment. rewrite Hget.
  set (row := mkComment (next_rowid (comments_seq s) (List.map c_id (comments s)))
                ticket_id author content now).
  apply get_ticket_Some in Hget as H. destruct H as (Hf & _ & Hid & Hcs).
  eexists. exists row. eexists. split; [reflexivity|].
  split.
  { rewrite get_ticket_find. cbn [tickets]. rewrite find_sql_update, Hf.
    cbn [option_map]. rewrite Hid, Z.eqb_refl. reflexivity. }
  cbn [tv_ticket tv_comments fold_left assign t_title t_description t_status
         t_priority t_tags tickets tickets_seq].
  repeat (split; [reflexivity|]).
  split.
  { rewrite Hcs. unfold get_comments. cbn [comments].
    rewrite !order_by_perm, List.filter_app. cbn [List.filter c_ticket_id row].
    now rewrite Z.eqb_refl. }
  split; [apply map_id_sql_update|]. split; [reflexivity|].
  intros j Hj. rewrite get_ticket_not_updated by exact Hj.
  rewrite !get_ticket_find. cbn [tickets]. unfold get_comments. cbn [comments].
  rewrite List.filter_app. cbn [List.filter c_ticket_id row].
  apply Z.eqb_neq in Hj. rewrite Z.eqb_sym in Hj. rewrite Hj, app_nil_r. reflexivity.
Qed.

Lemma add_comment_frame_witness :
  exists existing s' row updated,
    get_ticket Samples.four 3 = Some existing
    /\ add_comment "2024-02-01T08:00:00" 3 "user" "third" Samples.four = (s', Some row)
    /\ get_ticket s' 3 = Some updated
    /\ t_status (tv_ticket updated) = "closed"
    /\ tv_comments updated ≡ₚ tv_comments existing ++ [row]
    /\ forall j, j <> 3 -> get_ticket s' j = get_ticket Samples.four j.
Proof.
  eexists.
  destruct (add_comment_frame "2024-02-01T08:00:00" 3 "user" "third" Samples.four _ eq_refl)
    as (s' & row & updated & Hrun & Hget & _ & _ & _ & Hst & _ & _ & Hcs & _ & _ & Hother).
  exists s', row, updated. split; [reflexivity|]. split; [exact Hrun|].
  split; [exact Hget|]. split; [exact Hst|]. split; [exact Hcs | exact Hother].
Defined.

Lemma comments_of_other (cs : list Comment) (j ticket_id : Z) :
  Z.eqb j ticket_id = false ->
  List.filter (fun c => Z.eqb (c_ticket_id c) j)
    (List.filter (fun c => negb (Z.eqb (c_ticket_id c) ticket_id)) cs)
  = List.filter (fun c => Z.eqb (c_ticket_id c) j) cs.
Proof.
  intros Hne. induction cs as [|c cs IH]; [reflexivity|]. cbn [List.filter].
  destruct (Z.eqb (c_ticket_id c) ticket_id) eqn:E1; cbn [negb List.filter].
  - apply Z.eqb_eq in E1. rewrite E1, Z.eqb_sym, Hne. exact IH.
  - now rewrite IH.
Qed.

(** X12.  [delete_ticket] for an id without a ticket returns false and
    leaves the tickets table as it is; deleting the same id a second time
    therefore changes nothing and returns false. *)
Theorem delete_ticket_again (ticket_id : Z) (s : Store) :
  (get_ticket s ticket_id = None ->
   snd (delete_ticket ticket_id s) = false
   /\ tickets (fst (delete_ticket ticket_id s)) = tickets s
   /\ forall j, get_ticket (fst (delete_ticket ticket_id s)) j
                = (if Z.eqb j ticket_id then None else get_ticket s j))
  /\ delete_ticket ticket_id (fst (delete_ticket ticket_id s))
     = (fst (delete_ticket ticket_id s), false).
Proof.
  assert (Hmissing : forall l : list Ticket,
             (forall t, t ∈ l -> t_id t <> ticket_id) ->
             List.filter (fun t => negb (Z.eqb (t_id t) ticket_id)) l = l).
  { intros l H. apply filter_all. intros t Ht.
    apply negb_true_iff, Z.eqb_neq. now apply H. }
  split.
  - intros Hnone. rewrite get_ticket_None in Hnone.
    cbn [delete_ticket fst snd tickets]. rewrite (Hmissing _ Hnone), Nat.sub_diag.
    split; [reflexivity|]. split; [reflexivity|].
    intros j. rewrite !get_ticket_find. cbn [tickets]. unfold get_comments. cbn [comments].
    destruct (Z.eqb j ticket_id) eqn:Ej.
    + apply Z.eqb_eq in Ej. subst j.
      destruct (List.find _ (tickets s)) as [t|] eqn:E; [|reflexivity].
      apply find_some in E as [Hin Hid]. apply Z.eqb_eq in Hid.
      now apply list_elem_of_In, Hnone in Hin.
    + destruct (List.find _ (tickets s)) as [t|]; [|reflexivity]. cbn [option_map].
      now rewrite (comments_of_other _ _ _ Ej).
  - unfold delete_ticket. cbn [fst tickets comments tickets_seq comments_seq].
    assert (Hidem : forall {A} (g : A -> bool) (l : list A),
               List.filter g (List.filter g l) = List.filter g l).
    { intros A g l. apply filter_all. intros x Hx.
      now apply elem_of_filter_bool in Hx. }
    now rewrite !Hidem, Nat.sub_diag.
Qed.

Lemma delete_ticket_again_witness :
  get_ticket Samples.four 9 = None
  /\ snd (delete_ticket 9 Samples.four) = false
  /\ tickets (fst (delete_ticket 9 Samples.four)) = tickets Samples.four.
Proof.
  assert (H : get_ticket Samples.four 9 = None) by reflexivity.
  split; [exact H|].
  destruct (proj1 (delete_ticket_again 9 Samples.four) H) as (H1 & H2 & _).
  split; [exact H1 | exact H2].
Defined.

(** * Properties of the front ends *)

Lemma substring_all (n : nat) (x : string) :
  (String.length x <= n)%nat -> String.substring 0 n x = x.
Proof.
  revert n. induction x as [|c x IH]; intros [|n] H; cbn in *; try reflexivity; try lia.
  f_equal. apply IH. lia.
Qed.

Lemma substring_length (n : nat) (x : string) :
  String.length (String.substring 0 n x) = Nat.min n (String.length x).
Proof.
  revert n. induction x as [|c x IH]; intros [|n]; cbn; try reflexivity.
  now rewrite IH.
Qed.

Lemma substring_prefix (n : nat) (x : string) :
  exists rest, x = String.substring 0 n x +:+ rest.
Proof.
  revert n. induction x as [|c x IH]; intros [|n]; cbn.
  - now exists "".
  - now exists "".
  - now exists (String c x).
  - destruct (IH n) as [rest E]. exists rest.
    change (String c x = String c (String.substring 0 n x +:+ rest)). now f_equal.
Qed.

Lemma append_length (a b : string) :
  String.length (a +:+ b) = (String.length a + String.length b)%nat.
Proof.
  induction a as [|c a IH]; [reflexivity|].
  change (S (String.length (a +:+ b)) = S (String.length a + String.length b)).
  now rewrite IH.
Qed.

Lemma append_empty_r (a : string) : a +:+ "" = a.
Proof.
  induction a as [|c a IH]; [reflexivity|].
  change (String c (a +:+ "") = String c a). now rewrite IH.
Qed.

(** X13.  The title column shows a title of at most [n] characters as it
    is, and of a longer one its first [n] characters followed by three
    dots, so never more than [n + 3] characters ([n] is 40 in the command
    line lists and 35 in the terminal UI). *)
Theorem shorten_spec (n : nat) (title : string) :
  (String.length (shorten n title) <= n + 3)%nat
  /\ ((String.length title <= n)%nat -> shorten n title = title)
  /\ ((n < String.length title)%nat ->
      String.length (shorten n title) = (n + 3)%nat
      /\ exists rest, title = String.substring 0 n title +:+ rest
                      /\ rest <> ""
                      /\ shorten n title = String.substring 0 n title +:+ "...").
Proof.
  unfold shorten. split; [|split].
  - rewrite append_length, substring_length.
    destruct (Nat.ltb n (String.length title)); cbn; lia.
  - intros H. rewrite (substring_all _ _ H).
    apply Nat.ltb_ge in H. rewrite H. apply append_empty_r.
  - intros H. rewrite append_length, substring_length.
    apply Nat.ltb_lt in H as Hb. rewrite Hb. split; [cbn; lia|].
    destruct (substring_prefix n title) as [rest E]. exists rest.
    split; [exact E|]. split; [|reflexivity].
    intros ->. rewrite append_empty_r in E.
    pose proof (substring_length n title) as L. rewrite <- E in L. lia.
Qed.

Lemma shorten_spec_witness :
  shorten 40 "Fix login" = "Fix login"
  /\ shorten 35 "The application crashes whenever a user logs in twice"
     = "The application crashes whenever a ..."
  /\ String.length (shorten 35 "The application crashes whenever a user logs in twice")
     = 38%nat.
Proof.
  split; [apply (proj1 (proj2 (shorten_spec 40 "Fix login"))); cbn; lia|].
  destruct (proj2 (proj2 (shorten_spec 35
              "The application crashes whenever a user logs in twice")))
    as (Hlen & rest & _ & _ & Hs); [cbn; lia|].
  split; [exact Hs | exact Hlen].
Defined.

Lemma update_ticket_writes (now : string) (ticket_id : Z)
  (title description status priority tags : option string) (s : Store)
  (existing : TicketView) :
  get_ticket s ticket_id = Some existing ->
  (forall v, status = Some v -> v ∈ VALID_STATUSES) ->
  (forall v, priority = Some v -> v ∈ VALID_PRIORITIES) ->
  set_list title description status priority tags <> [] ->
  update_ticket now ticket_id title description status priority tags s
  = (mkStore
       (sql_update (set_list title description status priority tags ++ [(UpdatedAt, now)])
          ticket_id (tickets s))
       (tickets_seq s) (comments s) (comments_seq s),
     Ok (Some (mkView
                 (fold_left assign
                    (set_list title description status priority tags ++ [(UpdatedAt, now)])
                    (tv_ticket existing))
                 (tv_comments existing)))).
Proof.
  intros Hget Hst Hpr Hne. unfold update_ticket.
  rewrite Hget, (collect_updates_valid _ _ _ _ _ Hst Hpr).
  destruct (set_list title description status priority tags) as [|a u] eqn:E;
    [congruence|].
  now rewrite (get_ticket_updated s _ ticket_id existing Hget).
Qed.

Lemma update_ticket_raises (now : string) (ticket_id : Z)
  (title description status priority tags : option string) (s : Store)
  (e : exn) :
  is_Some (get_ticket s ticket_id) ->
  collect_updates title description status priority tags = Raise e ->
  update_ticket now ticket_id title description status priority tags s = (s, Raise e).
Proof. intros [v Hv] E. unfold update_ticket. now rewrite Hv, E. Qed.

(** X14.  The tool [update_ticket_status] always answers with a text.  For
    an id without a ticket it is the not-found text, whatever the status;
    for an existing ticket and a status outside the enumerated ones, the
    empty string included, it is the error text; in both cases the store is
    unchanged.  Otherwise the ticket gets the status and the current time as
    [updated_at], and nothing else changes: its id, project, [created_at],
    title, description, priority, tags and comments are as before, and so is
    every other ticket. *)
Theorem mcp_update_status_outcomes (set_repr : list string -> string) (now : string)
  (ticket_id : Z) (status : string) (s : Store) :
  (get_ticket s ticket_id = None ->
   mcp_update_ticket_status set_repr now ticket_id status s
   = (s, "Ticket #" +:+ py_str_int ticket_id +:+ " not found."))
  /\ (is_Some (get_ticket s ticket_id) -> status ∉ VALID_STATUSES ->
      mcp_update_ticket_status set_repr now ticket_id status s
      = (s, "Error: " +:+ "Invalid status: " +:+ status +:+ ". Must be one of "
            +:+ set_repr VALID_STATUSES))
  /\ (forall existing,
        get_ticket s ticket_id = Some existing -> status ∈ VALID_STATUSES ->
        exists s' updated,
          mcp_update_ticket_status set_repr now ticket_id status s
          = (s', "Ticket #" +:+ py_str_int ticket_id +:+ " status updated to: " +:+ status)
          /\ get_ticket s' ticket_id = Some updated
          /\ t_status (tv_ticket updated) = status
          /\ t_updated_at (tv_ticket updated) = now
          /\ t_id (tv_ticket updated) = t_id (tv_ticket existing)
          /\ t_project (tv_ticket updated) = t_project (tv_ticket existing)
          /\ t_created_at (tv_ticket updated) = t_created_at (tv_ticket existing)
          /\ t_title (tv_ticket updated) = t_title (tv_ticket existing)
          /\ t_description (tv_ticket updated) = t_description (tv_ticket existing)
          /\ t_priority (tv_ticket updated) = t_priority (tv_ticket existing)
          /\ t_tags (tv_ticket updated) = t_tags (tv_ticket existing)
          /\ tv_comments updated = tv_comments existing
          /\ comments s' = comments s
          /\ forall j, j <> ticket_id -> get_ticket s' j = get_ticket s j).
Proof.
  unfold mcp_update_ticket_status. split; [|split].
  - intros H. unfold update_ticket. now rewrite H.
  - intros Hsome Hout.
    rewrite (update_ticket_raises now ticket_id None None (Some status) None None s
               (ValueError Status status) Hsome).
    + reflexivity.
    + unfold collect_updates. now rewrite (py_in_not_elem_of _ _ Hout).
  - intros existing Hget Hin.
    rewrite (update_ticket_writes now ticket_id None None (Some status) None None s
               existing Hget); [| now intros v [= <-] | intros v [=] | discriminate].
    eexists. eexists. split; [reflexivity|].
    split; [exact (get_ticket_updated s _ ticket_id existing Hget)|].
    cbn. repeat (split; [reflexivity|]).
    intros j Hj. rewrite get_ticket_not_updated by exact Hj. now destruct s.
Qed.

Lemma mcp_update_status_outcomes_witness :
  let set_repr := fun _ : list string => "{...}" in
  get_ticket Samples.four 9 = None
  /\ mcp_update_ticket_status set_repr "2024-02-01T08:00:00" 9 "bogus" Samples.four
     = (Samples.four, "Ticket #9 not found.")
  /\ is_Some (get_ticket Samples.four 1)
  /\ ("" ∉ VALID_STATUSES)
  /\ mcp_update_ticket_status set_repr "2024-02-01T08:00:00" 1 "" Samples.four
     = (Samples.four, "Error: Invalid status: . Must be one of {...}")
  /\ ("closed" ∈ VALID_STATUSES)
  /\ exists s',
       mcp_update_ticket_status set_repr "2024-02-01T08:00:00" 1 "closed" Samples.four
       = (s', "Ticket #1 status updated to: closed").
Proof.
  cbn zeta.
  assert (H1 : get_ticket Samples.four 9 = None) by reflexivity.
  assert (H2 : is_Some (get_ticket Samples.four 1)) by (eexists; reflexivity).
  assert (H3 : "" ∉ VALID_STATUSES)
    by (intros H; apply py_in_elem_of in H; discriminate H).
  assert (H4 : "closed" ∈ VALID_STATUSES) by (repeat constructor).
  split; [exact H1|].
  split; [exact (proj1 (mcp_update_status_outcomes (fun _ => "{...}")
                          "2024-02-01T08:00:00" 9 "bogus" Samples.four) H1)|].
  split; [exact H2|]. split; [exact H3|].
  split; [exact (proj1 (proj2 (mcp_update_status_outcomes (fun _ => "{...}")
                                 "2024-02-01T08:00:00" 1 "" Samples.four)) H2 H3)|].
  split; [exact H4|].
  destruct (proj2 (proj2 (mcp_update_status_outcomes (fun _ => "{...}")
                            "2024-02-01T08:00:00" 1 "closed" Samples.four))
              _ eq_refl H4) as (s' & updated & Hrun & _).
  exists s'. exact Hrun.
Defined.

(** X15.  The tool [create_ticket] answers with the error text and leaves
    the store unchanged when the priority is outside the enumerated ones;
    otherwise it stores the ticket under the current project and answers
    with the text that names the new id and the title.  It never fails for
    want of a ticket to report. *)
Theorem mcp_create_ticket_outcomes (set_repr : list string -> string)
  (now project title description priority tags : string) (s : Store) :
  (priority ∉ VALID_PRIORITIES ->
   mcp_create_ticket set_repr now project title description priority tags s
   = (s, Some ("Error: " +:+ "Invalid priority: " +:+ priority +:+ ". Must be one of "
               +:+ set_repr VALID_PRIORITIES)))
  /\ (priority ∈ VALID_PRIORITIES ->
      exists s' t,
        mcp_create_ticket set_repr now project title description priority tags s
        = (s', Some ("Created ticket #" +:+ py_str_int (t_id t) +:+ ": " +:+ title))
        /\ tickets s' = tickets s ++ [t]
        /\ t = mkTicket (next_rowid (tickets_seq s) (List.map t_id (tickets s)))
                project title description "pending" priority tags now now
        /\ forall t0, t0 ∈ tickets s -> t_id t0 < t_id t)
  /\ snd (mcp_create_ticket set_repr now project title description priority tags s) <> None.
Proof.
  unfold mcp_create_ticket.
  assert (Hvalid : priority ∈ VALID_PRIORITIES ->
            exists s' t,
              create_ticket now project title description priority tags s
              = (s', Ok (Some (mkView t (get_comments s' (t_id t)))))
              /\ tickets s' = tickets s ++ [t]
              /\ t = mkTicket (next_rowid (tickets_seq s) (List.map t_id (tickets s)))
                       project title description "pending" priority tags now now
              /\ forall t0, t0 ∈ tickets s -> t_id t0 < t_id t).
  { intros Hin. eexists. eexists.
    split; [exact (create_ticket_valid now project title description priority tags s Hin)|].
    cbn [tickets t_id]. split; [reflexivity|]. split; [reflexivity|].
    intros t0 Ht0. apply next_rowid_above, elem_of_map. now exists t0. }
  split; [|split].
  - intros Hout. unfold create_ticket. now rewrite (py_in_not_elem_of _ _ Hout).
  - intros Hin. destruct (Hvalid Hin) as (s' & t & -> & Hrows & Ht & Hlt).
    assert (Etitle : t_title t = title) by (rewrite Ht; reflexivity).
    exists s', t. cbn [tv_ticket]. rewrite Etitle.
    split; [reflexivity|]. split; [exact Hrows|]. split; [exact Ht | exact Hlt].
  - destruct (py_in priority VALID_PRIORITIES) eqn:E.
    + apply py_in_elem_of in E. destruct (Hvalid E) as (s' & t & -> & _). discriminate.
    + unfold create_ticket. rewrite E. discriminate.
Qed.

Lemma mcp_create_ticket_outcomes_witness :
  let set_repr := fun _ : list string => "{...}" in
  ("urgent" ∉ VALID_PRIORITIES)
  /\ mcp_create_ticket set_repr "2024-02-01T08:00:00" "/p" "T" "D" "urgent" "" Samples.four
     = (Samples.four, Some "Error: Invalid priority: urgent. Must be one of {...}")
  /\ ("high" ∈ VALID_PRIORITIES)
  /\ exists s',
       mcp_create_ticket set_repr "2024-02-01T08:00:00" "/p" "T" "D" "high" "" Samples.four
       = (s', Some "Created ticket #5: T").
Proof.
  cbn zeta.
  assert (H1 : "urgent" ∉ VALID_PRIORITIES)
    by (intros H; apply py_in_elem_of in H; discriminate H).
  assert (H2 : "high" ∈ VALID_PRIORITIES) by (repeat constructor).
  split; [exact H1|].
  split; [exact (proj1 (mcp_create_ticket_outcomes (fun _ => "{...}")
                          "2024-02-01T08:00:00" "/p" "T" "D" "urgent" "" Samples.four) H1)|].
  split; [exact H2|].
  destruct (proj1 (proj2 (mcp_create_ticket_outcomes (fun _ => "{...}")
                            "2024-02-01T08:00:00" "/p" "T" "D" "high" "" Samples.four)) H2)
    as (s' & t & Hrun & _ & Ht & _).
  exists s'. rewrite Hrun, Ht. reflexivity.
Defined.

Lemma add_comment_existing (now : string) (ticket_id : Z) (author content : string)
  (s : Store) :
  is_Some (get_ticket s ticket_id) ->
  let row := mkComment (next_rowid (comments_seq s) (List.map c_id (comments s)))
               ticket_id author content now in
  add_comment now ticket_id author content s
  = (mkStore (sql_update [(UpdatedAt, now)] ticket_id (tickets s)) (tickets_seq s)
       (comments s ++ [row]) (c_id row),
     Some row).
Proof. intros [v Hv]. cbn zeta. unfold add_comment. now rewrite Hv. Qed.

(** X16.  A comment added through the tool of [mcp_server.py] is stored with
    the author ["claude"], one added through the command of [cli.py] with
    the author ["user"]; both store the text as given.  For an id without a
    ticket both leave the store unchanged and report not-found, the command
    with exit status 1. *)
Theorem comment_authors (now : string) (ticket_id : Z) (text : string) (s : Store) :
  (get_ticket s ticket_id = None ->
   mcp_add_comment now ticket_id text s
   = (s, "Ticket #" +:+ py_str_int ticket_id +:+ " not found.")
   /\ cli_add_comment now ticket_id text s
      = (s, mkShown ["[red]Ticket #" +:+ py_str_int ticket_id +:+ " not found.[/red]"]
              (Some 1)))
  /\ (is_Some (get_ticket s ticket_id) ->
      let new_id := next_rowid (comments_seq s) (List.map c_id (comments s)) in
        (forall c, c ∈ comments s -> c_id c < new_id)
        /\ (exists s',
              mcp_add_comment now ticket_id text s
              = (s', "Added comment to ticket #" +:+ py_str_int ticket_id +:+ ".")
              /\ comments s' = comments s ++ [mkComment new_id ticket_id "claude" text now])
        /\ (exists s',
              cli_add_comment now ticket_id text s
              = (s', mkShown ["[green]Added comment to ticket #" +:+ py_str_int ticket_id
                              +:+ ".[/green]"] None)
              /\ comments s' = comments s ++ [mkComment new_id ticket_id "user" text now])).
Proof.
  unfold mcp_add_comment, cli_add_comment. split.
  - intros H. unfold add_comment. now rewrite H.
  - intros H. cbn zeta.
    split.
    { intros c Hc. apply next_rowid_above, elem_of_map. now exists c. }
    rewrite !(add_comment_existing now ticket_id _ text s H).
    split; eexists; (split; [reflexivity|]); reflexivity.
Qed.

Lemma comment_authors_witness :
  get_ticket Samples.four 9 = None
  /\ mcp_add_comment "2024-02-01T08:00:00" 9 "hello" Samples.four
     = (Samples.four, "Ticket #9 not found.")
  /\ is_Some (get_ticket Samples.four 2)
  /\ exists s',
       cli_add_comment "2024-02-01T08:00:00" 2 "hello" Samples.four
       = (s', mkShown ["[green]Added comment to ticket #2.[/green]"] None)
       /\ comments s'
          = comments Samples.four ++ [mkComment 3 2 "user" "hello" "2024-02-01T08:00:00"].
Proof.
  assert (H1 : get_ticket Samples.four 9 = None) by reflexivity.
  assert (H2 : is_Some (get_ticket Samples.four 2)) by (eexists; reflexivity).
  split; [exact H1|].
  split; [exact (proj1 (proj1 (comment_authors "2024-02-01T08:00:00" 9 "hello" Samples.four)
                          H1))|].
  split; [exact H2|].
  destruct (proj2 (comment_authors "2024-02-01T08:00:00" 2 "hello" Samples.four) H2)
    as (_ & _ & s' & Hrun & Hrows).
  exists s'. split; [exact Hrun|].
  rewrite Hrows. reflexivity.
Defined.

Lemma priority_choice_valid (p : string) : p ∈ priority_choice -> p ∈ VALID_PRIORITIES.
Proof. intros H. exact H. Qed.

(** X17.  The command [edit] of [cli.py] accepts as [--priority] only one of
    [high], [medium] and [low]: with any other value, the empty string
    included, click ends the command with exit status 2 before it runs, and
    the store is unchanged.  With the priority absent or one of the three,
    the command does nothing, not even look for the ticket, when title and
    description are each absent or empty and neither priority nor tags are
    given.  Otherwise it reports not-found with exit status 1 for an id
    without a ticket, and on an existing ticket it writes every option that
    was given, an empty title, description or tags string included, and sets
    [updated_at]; the status, the id, the project and [created_at] are never
    changed. *)
Theorem cli_edit_outcomes (set_repr : list string -> string) (now : string)
  (ticket_id : Z) (title description priority tags : option string) (s : Store) :
  (forall p, priority = Some p -> p ∉ priority_choice ->
     cli_edit_ticket set_repr now ticket_id title description priority tags s
     = (s, mkShown [] (Some 2)))
  /\ ((forall p, priority = Some p -> p ∈ priority_choice) ->
      (given title = false -> given description = false -> given priority = false ->
       tags = None ->
       cli_edit_ticket set_repr now ticket_id title description priority tags s
       = (s, mkShown ["[yellow]No changes specified.[/yellow]"] None))
      /\ (given title = true \/ given description = true \/ given priority = true
          \/ is_Some tags ->
          (get_ticket s ticket_id = None ->
           cli_edit_ticket set_repr now ticket_id title description priority tags s
           = (s, mkShown ["[red]Ticket #" +:+ py_str_int ticket_id +:+ " not found.[/red]"]
                   (Some 1)))
          /\ (forall existing,
                get_ticket s ticket_id = Some existing ->
                exists s' updated,
                  cli_edit_ticket set_repr now ticket_id title description priority tags s
                  = (s', mkShown ["[green]Updated ticket #" +:+ py_str_int ticket_id
                                  +:+ ".[/green]"] None)
                  /\ get_ticket s' ticket_id = Some updated
                  /\ t_title (tv_ticket updated)
                     = default (t_title (tv_ticket existing)) title
                  /\ t_description (tv_ticket updated)
                     = default (t_description (tv_ticket existing)) description
                  /\ t_priority (tv_ticket updated)
                     = default (t_priority (tv_ticket existing)) priority
                  /\ t_tags (tv_ticket updated)
                     = default (t_tags (tv_ticket existing)) tags
                  /\ t_status (tv_ticket updated) = t_status (tv_ticket existing)
                  /\ t_updated_at (tv_ticket updated) = now
                  /\ t_id (tv_ticket updated) = t_id (tv_ticket existing)
                  /\ t_project (tv_ticket updated) = t_project (tv_ticket existing)
                  /\ t_created_at (tv_ticket updated)
                     = t_created_at (tv_ticket existing)))).
Proof.
  unfold cli_edit_ticket. split.
  - intros p -> Hout. now rewrite (py_in_not_elem_of _ _ Hout).
  - intros Hch.
    assert (Hok : match priority with
                  | Some p => negb (py_in p priority_choice)
                  | None => false
                  end = false).
    { destruct priority as [p|]; [|reflexivity].
      now rewrite (proj2 (py_in_elem_of p priority_choice) (Hch p eq_refl)). }
    rewrite Hok. split.
    + intros -> -> -> ->. reflexivity.
    + intros Hany.
      assert (Hguard : given title || given description || given priority
                       || match tags with Some _ => true | None => false end = true).
      { destruct Hany as [-> | [-> | [-> | [v ->]]]]; rewrite ?orb_true_r; reflexivity. }
      rewrite Hguard. cbn [negb]. split.
      * intros H. unfold update_ticket. now rewrite H.
      * intros existing Hget.
        assert (Hpr : forall v, priority = Some v -> v ∈ VALID_PRIORITIES)
          by (intros v Hv; apply priority_choice_valid; now apply Hch).
        assert (Hne : set_list title description None priority tags <> []).
        { unfold given in Hguard.
          destruct title as [[|c t0]|], description as [[|d d0]|], priority as [[|p p0]|],
            tags; cbn in Hguard; try discriminate Hguard; discriminate. }
        rewrite (update_ticket_writes now ticket_id title description None priority tags s
                   existing Hget ltac:(intros v [=]) Hpr Hne).
        eexists. eexists. split; [reflexivity|].
        split; [exact (get_ticket_updated s _ ticket_id existing Hget)|].
        cbn [tv_ticket].
        repeat split; destruct title, description, priority, tags; reflexivity.
Qed.

Lemma cli_edit_outcomes_witness :
  let set_repr := fun _ : list string => "{...}" in
  ("" ∉ priority_choice)
  /\ cli_edit_ticket set_repr "2024-02-01T08:00:00" 1 (Some "t") None (Some "") None
       Samples.four
     = (Samples.four, mkShown [] (Some 2))
  /\ given (Some "") = false
  /\ cli_edit_ticket set_repr "2024-02-01T08:00:00" 9 (Some "") None None None Samples.four
     = (Samples.four, mkShown ["[yellow]No changes specified.[/yellow]"] None)
  /\ get_ticket Samples.four 9 = None
  /\ cli_edit_ticket set_repr "2024-02-01T08:00:00" 9 None None None (Some "") Samples.four
     = (Samples.four, mkShown ["[red]Ticket #9 not found.[/red]"] (Some 1))
  /\ exists existing s' updated,
       get_ticket Samples.four 1 = Some existing
       /\ cli_edit_ticket set_repr "2024-02-01T08:00:00" 1 (Some "") None (Some "high")
            (Some "") Samples.four
          = (s', mkShown ["[green]Updated ticket #1.[/green]"] None)
       /\ get_ticket s' 1 = Some updated
       /\ t_title (tv_ticket updated) = ""
       /\ t_tags (tv_ticket updated) = ""
       /\ t_priority (tv_ticket updated) = "high".
Proof.
  cbn zeta.
  assert (H0 : "" ∉ priority_choice)
    by (intros H; apply py_in_elem_of in H; discriminate H).
  assert (H1 : given (Some "") = false) by reflexivity.
  assert (H2 : get_ticket Samples.four 9 = None) by reflexivity.
  assert (Hnone : forall p : string, @None string = Some p -> p ∈ priority_choice)
    by (intros p [=]).
  assert (Hhigh : forall p : string, Some "high" = Some p -> p ∈ priority_choice)
    by (intros p [= <-]; repeat constructor).
  split; [exact H0|].
  split; [exact (proj1 (cli_edit_outcomes (fun _ => "{...}") "2024-02-01T08:00:00" 1
                          (Some "t") None (Some "") None Samples.four)
                   "" eq_refl H0)|].
  split; [exact H1|].
  split; [exact (proj1 (proj2 (cli_edit_outcomes (fun _ => "{...}") "2024-02-01T08:00:00" 9
                                 (Some "") None None None Samples.four) Hnone)
                   H1 eq_refl eq_refl eq_refl)|].
  split; [exact H2|].
  split; [exact (proj1 (proj2 (proj2 (cli_edit_outcomes (fun _ => "{...}")
                                        "2024-02-01T08:00:00" 9
                                        None None None (Some "") Samples.four) Hnone)
                          (or_intror (or_intror (or_intror (ex_intro _ "" eq_refl)))))
                   H2)|].
  eexists.
  destruct (proj2 (proj2 (proj2 (cli_edit_outcomes (fun _ => "{...}") "2024-02-01T08:00:00" 1
                                   (Some "") None (Some "high") (Some "") Samples.four)
                            Hhigh)
                     (or_intror (or_intror (or_intror (ex_intro _ "" eq_refl)))))
              _ eq_refl)
    as (s' & updated & Hrun & Hget & Hti & _ & Hpr & Htg & _).
  exists s', updated. split; [reflexivity|]. split; [exact Hrun|]. split; [exact Hget|].
  split; [exact Hti|]. split; [exact Htg | exact Hpr].
Defined.

(** X18.  The command [delete] of [cli.py] removes something only for an
    existing ticket and with [--yes] or a confirming answer; then the ticket
    is gone together with its comments.  For an id without a ticket it
    exits with status 1, and after a declining answer it exits normally;
    in both cases the store is unchanged. *)
Theorem cli_delete_outcomes (ticket_id : Z) (yes answer : bool) (s : Store) :
  (get_ticket s ticket_id = None ->
   cli_delete_ticket ticket_id yes answer s
   = (s, mkShown ["[red]Ticket #" +:+ py_str_int ticket_id +:+ " not found.[/red]"]
           (Some 1)))
  /\ (is_Some (get_ticket s ticket_id) -> yes = false -> answer = false ->
      fst (cli_delete_ticket ticket_id yes answer s) = s
      /\ exit_status (snd (cli_delete_ticket ticket_id yes answer s)) = None
      /\ last (printed (snd (cli_delete_ticket ticket_id yes answer s)))
         = Some "[dim]Cancelled.[/dim]")
  /\ (is_Some (get_ticket s ticket_id) -> yes = true \/ answer = true ->
      let s' := fst (cli_delete_ticket ticket_id yes answer s) in
      s' = fst (delete_ticket ticket_id s)
      /\ get_ticket s' ticket_id = None
      /\ get_comments s' ticket_id = []
      /\ (forall c, c ∈ comments s' -> c_ticket_id c <> ticket_id)
      /\ exit_status (snd (cli_delete_ticket ticket_id yes answer s)) = None
      /\ last (printed (snd (cli_delete_ticket ticket_id yes answer s)))
         = Some ("[green]Deleted ticket #" +:+ py_str_int ticket_id +:+ ".[/green]")).
Proof.
  unfold cli_delete_ticket. split; [|split].
  - intros ->. reflexivity.
  - intros [v ->] -> ->. cbn. repeat split.
  - intros [v ->] Hgo.
    assert (Hb : negb yes && negb answer = false)
      by (destruct Hgo as [-> | ->]; [reflexivity | apply andb_false_r]).
    rewrite Hb. unfold delete_ticket. cbn [fst snd].
    split; [reflexivity|].
    split.
    { apply get_ticket_None. cbn [tickets]. intros t Ht.
      apply elem_of_filter_bool in Ht as [_ Hne]. now apply negb_true_iff, Z.eqb_neq in Hne. }
    assert (Hcs : forall c,
               c ∈ List.filter (fun c => negb (Z.eqb (c_ticket_id c) ticket_id)) (comments s)
               -> c_ticket_id c <> ticket_id).
    { intros c Hc. apply elem_of_filter_bool in Hc as [_ Hne].
      now apply negb_true_iff, Z.eqb_neq in Hne. }
    split.
    { unfold get_comments. cbn [comments]. rewrite filter_none; [reflexivity|].
      intros c Hc. apply Z.eqb_neq. now apply Hcs. }
    split; [exact Hcs|]. cbn [exit_status printed]. split; [reflexivity|].
    destruct yes; reflexivity.
Qed.

Lemma cli_delete_outcomes_witness :
  get_ticket Samples.four 9 = None
  /\ cli_delete_ticket 9 true true Samples.four
     = (Samples.four, mkShown ["[red]Ticket #9 not found.[/red]"] (Some 1))
  /\ is_Some (get_ticket Samples.four 3)
  /\ fst (cli_delete_ticket 3 false false Samples.four) = Samples.four
  /\ get_ticket (fst (cli_delete_ticket 3 false true Samples.four)) 3 = None
  /\ comments (fst (cli_delete_ticket 3 false true Samples.four)) = [].
Proof.
  assert (H1 : get_ticket Samples.four 9 = None) by reflexivity.
  assert (H2 : is_Some (get_ticket Samples.four 3)) by (eexists; reflexivity).
  split; [exact H1|].
  split; [exact (proj1 (cli_delete_outcomes 9 true true Samples.four) H1)|].
  split; [exact H2|].
  split; [exact (proj1 (proj1 (proj2 (cli_delete_outcomes 3 false false Samples.four))
                          H2 eq_refl eq_refl))|].
  destruct (proj2 (proj2 (cli_delete_outcomes 3 false true Samples.four)) H2
              (or_intror eq_refl)) as (_ & Hget & _).
  split; [exact Hget | reflexivity].
Defined.

(** * Status changes and the status filter *)

(** X19.  After [update_ticket] has set a valid status on an existing
    ticket, [list_tickets] filtered by a valid status lists a ticket with
    that id exactly when the filter is the new status. *)
Theorem status_change_moves_ticket (now : string) (ticket_id : Z) (status : string)
  (s : Store) (wanted : string) :
  is_Some (get_ticket s ticket_id) ->
  status ∈ VALID_STATUSES ->
  wanted ∈ VALID_STATUSES ->
  let s' := fst (update_ticket now ticket_id None None (Some status) None None s) in
  exists l,
    list_tickets s' None (Some wanted) None None = Ok l
    /\ ((exists t, t ∈ l /\ t_id t = ticket_id) <-> wanted = status).
Proof.
  intros [existing Hget] Hst Hw s'.
  assert (Hs' : tickets s'
                = sql_update [(ColStatus, status); (UpdatedAt, now)] ticket_id (tickets s)).
  { unfold s'.
    rewrite (update_ticket_writes now ticket_id None None (Some status) None None s
               existing Hget); [reflexivity | now intros v [= <-] | intros v [=] | discriminate]. }
  assert (Hne : String.eqb wanted "" = false).
  { destruct wanted; [|reflexivity]. apply py_in_elem_of in Hw. discriminate Hw. }
  eexists. split; [apply list_tickets_ok; [right; exact Hw | exact I | exact I]|].
  setoid_rewrite order_by_elem_of. setoid_rewrite elem_of_filter_bool.
  unfold selected. cbn [passes]. rewrite Hne, Hs'. cbn [orb andb].
  split.
  - intros (t & [Hin Hsel] & Hid).
    rewrite !andb_true_r in Hsel. apply String.eqb_eq in Hsel.
    apply elem_of_map in Hin as (r & <- & Hr).
    destruct (Z.eqb (t_id r) ticket_id) eqn:E.
    + cbn in Hsel. congruence.
    + apply Z.eqb_neq in E. contradiction.
  - intros ->.
    apply get_ticket_Some in Hget as (_ & Hin & Hid & _).
    exists (fold_left assign [(ColStatus, status); (UpdatedAt, now)] (tv_ticket existing)).
    split; [split|].
    + apply elem_of_map. exists (tv_ticket existing).
      split; [|exact Hin]. now rewrite Hid, Z.eqb_refl.
    + cbn. now rewrite String.eqb_refl.
    + cbn. exact Hid.
Qed.

Lemma status_change_moves_ticket_witness :
  is_Some (get_ticket Samples.four 1)
  /\ ("closed" ∈ VALID_STATUSES)
  /\ ("pending" ∈ VALID_STATUSES)
  /\ exists l,
       list_tickets
         (fst (update_ticket "2024-02-01T08:00:00" 1 None None (Some "closed") None None
                 Samples.four))
         None (Some "pending") None None = Ok l
       /\ List.map t_id l = [2; 4]
       /\ ((exists t, t ∈ l /\ t_id t = 1) <-> "pending" = "closed").
Proof.
  assert (H1 : is_Some (get_ticket Samples.four 1)) by (eexists; reflexivity).
  assert (H2 : "closed" ∈ VALID_STATUSES) by (repeat constructor).
  assert (H3 : "pending" ∈ VALID_STATUSES) by (repeat constructor).
  split; [exact H1|]. split; [exact H2|]. split; [exact H3|].
  destruct (status_change_moves_ticket "2024-02-01T08:00:00" 1 "closed" Samples.four
              "pending" H1 H2 H3) as (l & Hl & Hiff).
  exists l. split; [exact Hl|]. split; [|exact Hiff].
  vm_compute in Hl. now injection Hl as <-.
Defined.

(** * A tag filter beyond the pattern limit *)

Lemma list_clause_refused (project status priority : option string) (tag : string)
  (t : Ticket) :
  49996 < Like.utf8_length tag ->
  list_clause project status priority (Some tag) t
  = if passes project (String.eqb (t_project t))
       && passes status (String.eqb (t_status t))
       && passes priority (String.eqb (t_priority t))
    then None else Some false.
Proof.
  intros Hlen. unfold list_clause, tag_clause.
  assert (Hpat : Like.SQLITE_MAX_LIKE_PATTERN_LENGTH
                 < Like.utf8_length ("%," +:+ tag +:+ ",%"))
    by (rewrite tag_pattern_length; unfold Like.SQLITE_MAX_LIKE_PATTERN_LENGTH; lia).
  destruct tag as [|c tag]; [vm_compute in Hlen; discriminate Hlen|].
  cbn [truthy]. rewrite (sql_like_refused _ _ Hpat).
  now destruct (_ && _).
Qed.

(** X20.  With status and priority filters that pass the validation, a tag
    filter of more than 49996 bytes of UTF-8 makes SQLite refuse the LIKE
    pattern [%,tag,%]: [list_tickets] raises the OperationalError "LIKE or
    GLOB pattern too complex" when some ticket passes the project, status
    and priority filters, and returns the empty list when none does. *)
Theorem list_tickets_long_tag (s : Store) (project status priority : option string)
  (tag : string) :
  acceptable status VALID_STATUSES ->
  acceptable priority VALID_PRIORITIES ->
  49996 < Like.utf8_length tag ->
  list_tickets s project status priority (Some tag)
  = if existsb (fun t => passes project (String.eqb (t_project t))
                         && passes status (String.eqb (t_status t))
                         && passes priority (String.eqb (t_priority t)))
         (tickets s)
    then Raise (OperationalError pattern_too_complex)
    else Ok [].
Proof.
  intros Hst Hpr Hlen. rewrite (list_tickets_query _ _ _ _ _ Hst Hpr).
  destruct (existsb _ (tickets s)) eqn:Ex.
  - apply existsb_exists in Ex as (t & Hin & Ht).
    apply list_elem_of_In in Hin.
    rewrite (sql_where_refused _ _ t Hin); [reflexivity|].
    rewrite (list_clause_refused _ _ _ _ _ Hlen). now rewrite Ht.
  - rewrite (sql_where_Some _ (fun _ => false)).
    + assert (E : forall l : list Ticket, List.filter (fun _ => false) l = [])
        by (intros l; induction l as [|x l IH]; [reflexivity | exact IH]).
      rewrite E. reflexivity.
    + intros t Hin. rewrite (list_clause_refused _ _ _ _ _ Hlen).
      apply list_elem_of_In in Hin.
      destruct (_ && _) eqn:Ht; [|reflexivity].
      assert (Hex : existsb (fun t => passes project (String.eqb (t_project t))
                                      && passes status (String.eqb (t_status t))
                                      && passes priority (String.eqb (t_priority t)))
                      (tickets s) = true)
        by (apply existsb_exists; now exists t).
      congruence.
Qed.

Lemma list_tickets_long_tag_witness :
  acceptable None VALID_STATUSES
  /\ acceptable (Some "high") VALID_PRIORITIES
  /\ 49996 < Like.utf8_length Samples.long_text
  /\ list_tickets Samples.four (Some "/p") None (Some "high") (Some Samples.long_text)
     = Raise (OperationalError pattern_too_complex)
  /\ list_tickets Samples.four (Some "/q") None (Some "high") (Some Samples.long_text)
     = Ok [].
Proof.
  assert (H1 : acceptable None VALID_STATUSES) by exact I.
  assert (H2 : acceptable (Some "high") VALID_PRIORITIES) by (right; repeat constructor).
  assert (H3 : 49996 < Like.utf8_length Samples.long_text) by (vm_compute; reflexivity).
  split; [exact H1|]. split; [exact H2|]. split; [exact H3|].
  split.
  - exact (list_tickets_long_tag Samples.four (Some "/p") None (Some "high")
             Samples.long_text H1 H2 H3).
  - exact (list_tickets_long_tag Samples.four (Some "/q") None (Some "high")
             Samples.long_text H1 H2 H3).
Defined.
